(** * pull_schema.py: activation client of tuya-cloudcutter

    A shallow embedding of [profile-building/pull_schema.py] and the
    properties of its PSK identity derivation, payload codec, transport
    framer, activation orchestrator, token frame listener, directory
    scan and command line.

    Modelling conventions.
    - Python [bytes] are [list byte]; Python [str] are [string], one
      character per element.  Slices [x[a:b]] with non-negative bounds
      are [take (b - a) (drop a x)], which clamps as Python does.
    - Dynamic values (decoded JSON, dictionary values) are [pyval];
      floating point numbers are outside the model.
    - [hashlib], [Cryptodome], [json], [base64], [urllib] and the text
      codec are external to the script: they are the fields of the
      class [Libs], and every statement holds for all of them.
    - [sys.exit(n)] and uncaught exceptions are results of type
      [outcome]; a computation that touches the network or keeps a call
      trace lives in the state and error monad [M]. *)

From Stdlib Require Import ZArith Lia.
From Stdlib Require Import Strings.String Strings.Ascii Strings.Byte.
From stdpp Require Import base list strings gmap sorting.

Set Warnings "-register-all,-abstract-large-number".
Local Open Scope string_scope.
Local Open Scope list_scope.
Local Open Scope Z_scope.

(** ** Bytes and text *)

Abbreviation bytes := (list byte).

#[global] Instance byte_eq_dec : EqDecision byte := Byte.byte_eq_dec.

(** The double quote character, for the JSON fragments the script
    writes literally. *)
Definition dquote : string := String "034"%char EmptyString.

Definition CRLF : string := String "013"%char (String "010"%char EmptyString).

(** [b'\r\n\r\n'] *)
Definition CRLFCRLF : bytes := [x0d; x0a; x0d; x0a].

(** [x[a:b]] for [0 <= a] and [0 <= b]. *)
Definition slice {A} (a b : nat) (x : list A) : list A :=
  take (b - a) (drop a x).

(** [x[-n:]] for [n > 0]: the last [n] elements, or all of [x] when it
    is shorter. *)
Definition last_n {A} (n : nat) (x : list A) : list A :=
  drop (length x - n) x.

(** [x[:-n]] for [n > 0]. *)
Definition drop_last_n {A} (n : nat) (x : list A) : list A :=
  take (length x - n) x.

(** [s[a:b]] on text. *)
Definition str_slice (a b : nat) (s : string) : string :=
  string_of_list_ascii (slice a b (list_ascii_of_string s)).

(** [s[a:]] on text. *)
Definition str_from (a : nat) (s : string) : string :=
  string_of_list_ascii (drop a (list_ascii_of_string s)).

(** [data.replace(b'\x00', b'?')] *)
Definition replace_nul (data : bytes) : bytes :=
  (fun b => if decide (b = x00) then x3f else b) <$> data.

(** [s.replace(c, t)] for a one-character pattern [c]. *)
Fixpoint str_replace (c : ascii) (t : string) (s : string) : string :=
  match s with
  | EmptyString => EmptyString
  | String a s' =>
      if decide (a = c) then t +:+ str_replace c t s'
      else String a (str_replace c t s')
  end.

(** [sep.join(parts)] *)
Fixpoint str_join (sep : string) (parts : list string) : string :=
  match parts with
  | [] => EmptyString
  | [p] => p
  | p :: rest => p +:+ sep +:+ str_join sep rest
  end.

(** [data.split(sep)] for a non-empty separator: [skip] counts the
    separator bytes still to be dropped after a match, [cur] holds the
    current piece in reverse. *)
Fixpoint split_go (sep : bytes) (skip : nat) (cur : bytes) (data : bytes)
  : list bytes :=
  match data with
  | [] => [reverse cur]
  | b :: rest =>
      match skip with
      | S k => split_go sep k cur rest
      | O =>
          if decide (take (length sep) data = sep)
          then reverse cur :: split_go sep (length sep - 1) [] rest
          else split_go sep 0 (b :: cur) rest
      end
  end.

Definition bytes_split (sep data : bytes) : list bytes :=
  split_go sep 0 [] data.

(** Characters [str.strip()] removes, among the first 256 code points. *)
Definition is_py_space (a : ascii) : bool :=
  let n := nat_of_ascii a in
  ((9 <=? n)%nat && (n <=? 13)%nat) || ((28 <=? n)%nat && (n <=? 32)%nat)
  || (n =? 133)%nat || (n =? 160)%nat.

Fixpoint lstrip (s : list ascii) : list ascii :=
  match s with
  | a :: s' => if is_py_space a then lstrip s' else s
  | [] => []
  end.

(** [s.strip()] *)
Definition str_strip (s : string) : string :=
  string_of_list_ascii
    (reverse (lstrip (reverse (lstrip (list_ascii_of_string s))))).

(** ** Hexadecimal text *)

Definition hex_digit (upper : bool) (n : N) : ascii :=
  if (n <? 10)%N then ascii_of_N (48 + n)
  else ascii_of_N ((if upper then 55 else 87) + n).

Definition hex_of_byte (upper : bool) (b : byte) : list ascii :=
  let n := Byte.to_N b in
  [hex_digit upper (n / 16); hex_digit upper (n mod 16)].

(** [data.hex()] when [upper] is [false], [data.hex().upper()] when it
    is [true]. *)
Definition hex_of_bytes (upper : bool) (data : bytes) : string :=
  string_of_list_ascii (data ≫= hex_of_byte upper).

Definition hex_value (a : ascii) : option N :=
  let n := N_of_ascii a in
  if ((48 <=? n) && (n <=? 57))%N then Some (n - 48)%N
  else if ((65 <=? n) && (n <=? 70))%N then Some (n - 55)%N
  else if ((97 <=? n) && (n <=? 102))%N then Some (n - 87)%N
  else None.

Fixpoint unhex (s : list ascii) : option bytes :=
  match s with
  | [] => Some []
  | hi :: lo :: rest =>
      h ← hex_value hi; l ← hex_value lo;
      b ← Byte.of_N (16 * h + l); r ← unhex rest; Some (b :: r)
  | _ => None
  end.

(** [bytes.fromhex(s)] for text without blanks. *)
Definition bytes_fromhex (s : string) : option bytes :=
  unhex (list_ascii_of_string s).

(** ** Integers as text and as bytes *)

Fixpoint pos_digits (fuel : nat) (n : N) (acc : list ascii) : list ascii :=
  match fuel with
  | O => acc
  | S f =>
      let acc' := ascii_of_N (48 + n mod 10) :: acc in
      if (n / 10 =? 0)%N then acc' else pos_digits f (n / 10)%N acc'
  end.

(** [str(n)] for an integer. *)
Definition str_of_Z (z : Z) : string :=
  let digits := pos_digits (S (N.to_nat (N.log2 (Z.abs_N z)))) (Z.abs_N z) [] in
  string_of_list_ascii (if z <? 0 then "-"%char :: digits else digits).

(** [struct.unpack(">I", data)]: exactly four bytes, most significant
    first. *)
Definition unpack_be32 (data : bytes) : option Z :=
  match data with
  | [b0; b1; b2; b3] =>
      Some (Z.of_N (Byte.to_N b0) * 16777216 + Z.of_N (Byte.to_N b1) * 65536
            + Z.of_N (Byte.to_N b2) * 256 + Z.of_N (Byte.to_N b3))
  | _ => None
  end.

(** ** Dynamic values, exits and exceptions *)

Inductive pyval :=
| VNone
| VBool (b : bool)
| VInt (z : Z)
| VStr (s : string)
| VList (l : list pyval)
| VDict (d : list (string * pyval)).

(** A dictionary whose insertion order matters (it is serialised in
    that order): keys are unique, lookup takes the first match. *)
Abbreviation dict := (list (string * pyval)).

Fixpoint dict_get (k : string) (d : dict) : option pyval :=
  match d with
  | [] => None
  | (k', v) :: d' => if decide (k' = k) then Some v else dict_get k d'
  end.

Definition dict_keys (d : dict) : list string := d.*1.

Inductive exn :=
| KeyError | TypeError | IndexError | ValueError | AssertionError
| OSError | StructError.

(** How a piece of the script ends: with a value, with [sys.exit(code)]
    or with an exception nobody caught yet. *)
Inductive outcome (A : Type) :=
| Ret (a : A)
| SysExit (code : Z)
| Raise (e : exn).
Arguments Ret {A} a.
Arguments SysExit {A} code.
Arguments Raise {A} e.

#[global] Instance outcome_ret : MRet outcome := fun A a => Ret a.
#[global] Instance outcome_bind : MBind outcome := fun A B f m =>
  match m with
  | Ret a => f a
  | SysExit c => SysExit c
  | Raise e => Raise e
  end.

(** [option] results of the libraries, raised as the exception the
    library raises. *)
Definition or_raise {A} (e : exn) (o : option A) : outcome A :=
  match o with Some a => Ret a | None => Raise e end.

(** State and error monad: the state survives an exit or an exception,
    so that what happened before it can still be observed. *)
Definition M (W A : Type) : Type := W -> outcome A * W.

#[global] Instance M_ret {W} : MRet (M W) := fun A a w => (Ret a, w).
#[global] Instance M_bind {W} : MBind (M W) := fun A B f m w =>
  match m w with
  | (Ret a, w') => f a w'
  | (SysExit c, w') => (SysExit c, w')
  | (Raise e, w') => (Raise e, w')
  end.

Definition lift {W A} (o : outcome A) : M W A := fun w => (o, w).

(** [v[k]] for a text key [k]. *)
Definition py_getitem (v : pyval) (k : string) : outcome pyval :=
  match v with
  | VDict d => or_raise KeyError (dict_get k d)
  | _ => Raise TypeError
  end.

(** [v == True] and [v == False]: Python equates [1] with [True] and
    [0] with [False]. *)
Definition py_eq_bool (v : pyval) (b : bool) : bool :=
  match v with
  | VBool b' => bool_decide (b' = b)
  | VInt z => bool_decide (z = if b then 1 else 0)
  | _ => false
  end.

(** [v == s] for a text [s]. *)
Definition py_eq_str (v : pyval) (s : string) : bool :=
  match v with
  | VStr s' => bool_decide (s' = s)
  | _ => false
  end.

(** [v in codes] for a list of texts. *)
Definition py_in_strs (v : pyval) (codes : list string) : bool :=
  existsb (py_eq_str v) codes.

(** ** The libraries the script imports *)

Record parsed_url := {
  scheme : string;
  hostname : string;
  port : option Z;
  path : string;
}.

Class Libs := {
  (** [hashlib.md5(data).digest()], [hashlib.sha256(data).digest()] *)
  md5 : bytes -> bytes;
  sha256 : bytes -> bytes;
  (** The AES block function and its inverse on one block, by key. *)
  aes_encrypt_block : bytes -> bytes -> bytes;
  aes_decrypt_block : bytes -> bytes -> bytes;
  (** [AES.new(key, AES.MODE_CBC, iv).encrypt(data)] *)
  aes_cbc_encrypt : bytes -> bytes -> bytes -> outcome bytes;
  (** [s.encode("utf-8")], [data.decode("utf-8")] *)
  utf8_encode : string -> bytes;
  utf8_decode : bytes -> option string;
  (** [json.dumps(v, separators=(",",":"))], [json.loads(s)] *)
  json_dumps : pyval -> string;
  json_loads : string -> option pyval;
  (** [base64.b64decode(s)] *)
  b64decode : string -> option bytes;
  (** [str(v)] for a list or a dictionary *)
  py_repr : pyval -> string;
  (** [urllib.parse.urlparse(url)] *)
  urlparse : string -> parsed_url;
}.

(** ** Cryptodome.Util.Padding, PKCS#7 style *)

(** [padding.pad(data, block_size)] *)
Definition pad (data : bytes) (block_size : nat) : outcome bytes :=
  let padding_len := (block_size - length data mod block_size)%nat in
  b ← or_raise ValueError (Byte.of_nat padding_len);
  Ret (data ++ replicate padding_len b).

(** [padding.unpad(padded_data, block_size)] *)
Definition unpad (padded_data : bytes) (block_size : nat) : outcome bytes :=
  let pdata_len := length padded_data in
  if decide (pdata_len = 0)%nat then Raise ValueError
  else if decide (pdata_len mod block_size = 0)%nat then
    match last padded_data with
    | None => Raise ValueError
    | Some b =>
        let padding_len := Byte.to_nat b in
        if decide (padding_len < 1 \/ min block_size pdata_len < padding_len)%nat
        then Raise ValueError
        else if decide (last_n padding_len padded_data = replicate padding_len b)
        then Ret (drop_last_n padding_len padded_data)
        else Raise ValueError
    end
  else Raise ValueError.

(** ** Electronic codebook mode over the block function *)

Fixpoint blocks (n : nat) (data : bytes) : list bytes :=
  match n with
  | O => []
  | S n' => take 16 data :: blocks n' (drop 16 data)
  end.

(** [cipher.encrypt(data)] and [cipher.decrypt(data)] in [AES.MODE_ECB]:
    the data must be block aligned, each block goes through the block
    function on its own. *)
Definition ecb (f : bytes -> bytes) (data : bytes) : outcome bytes :=
  if decide (length data mod 16 = 0)%nat
  then Ret (blocks (length data / 16) data ≫= f)
  else Raise ValueError.

(** ** class TuyaAPIConnection *)

Record TuyaAPIConnection := {
  psk : bytes;
  authkey : bytes;
  uuid : bytes;
}.

Section Connection.
Context `{Libs}.

(** [__init__(self, uuid, auth_key, psk=None)] *)
Definition TuyaAPIConnection_init (uuid auth_key : string)
    (psk : option string) : TuyaAPIConnection :=
  {| psk := match psk with
            | Some p => if decide (p = "") then [] else utf8_encode p
            | None => []
            end;
     authkey := utf8_encode auth_key;
     uuid := utf8_encode uuid |}.

(** [_build_cipher(self)]: [AES.new] accepts keys of 16, 24 or 32
    bytes; the cipher object is represented by its key. *)
Definition _build_cipher (self : TuyaAPIConnection) : outcome bytes :=
  let key := take 16 (authkey self) in
  if decide (length key = 16 \/ length key = 24 \/ length key = 32)%nat
  then Ret key else Raise ValueError.

(** [_encrypt_data(self, data)] *)
Definition _encrypt_data (self : TuyaAPIConnection) (data : dict)
  : outcome string :=
  let jsondata := json_dumps (VDict data) in
  jsondata ← pad (utf8_encode jsondata) 16;
  cipher ← _build_cipher self;
  encrypted ← ecb (aes_encrypt_block cipher) jsondata;
  Ret ("data=" +:+ hex_of_bytes true encrypted).

(** [_decrypt_data(self, data)] *)
Definition _decrypt_data (self : TuyaAPIConnection) (data : bytes)
  : outcome bytes :=
  cipher ← _build_cipher self;
  decrypted ← ecb (aes_decrypt_block cipher) data;
  unpad decrypted 16.

(** [str(v)], as the f-string [f"{k}={v}"] applies it. *)
Definition py_str (v : pyval) : string :=
  match v with
  | VNone => "None"
  | VBool true => "True"
  | VBool false => "False"
  | VInt z => str_of_Z z
  | VStr s => s
  | _ => py_repr v
  end.

(** Order of the items of a dictionary under [sorted]: tuples compare
    by their first component, and the keys of a dictionary differ. *)
Definition item_le (a b : string * pyval) : Prop := String.le a.1 b.1.

(** [sorted(list(params.items()))] *)
Definition sorted_items (params : gmap string pyval)
  : list (string * pyval) :=
  merge_sort item_le (map_to_list params).

(** [_build_querystring(self, params)] *)
Definition _build_querystring (self : TuyaAPIConnection)
    (params : gmap string pyval) : outcome string :=
  let sorted_params := sorted_items params in
  let query :=
    str_join "&" ((fun kv => kv.1 +:+ "=" +:+ py_str kv.2) <$> sorted_params) in
  let signature_body := utf8_encode (str_replace "&" "||" query) in
  authkey_text ← or_raise ValueError (utf8_decode (authkey self));
  let signature_body := signature_body ++ utf8_encode ("||" +:+ authkey_text) in
  let signature := hex_of_bytes false (md5 signature_body) in
  let query := query +:+ "&sign=" +:+ signature in
  Ret ("?" +:+ query).

(** [_build_request(self, method, hostname, requestline, body)] *)
Definition _build_request (method hostname requestline body : string)
  : bytes :=
  let headers :=
    [("Host", hostname); ("User-Agent", "TUYA_IOT_SDK");
     ("Connection", "keep-alive")]
    ++ (if decide (body = "") then []
        else [("Content-Type",
               "application/x-www-form-urlencoded; charset=UTF-8");
              ("Content-Length",
               str_of_Z (Z.of_nat (String.length body)))]) in
  let headers_formatted :=
    str_join CRLF ((fun kv : string * string => kv.1 +:+ ": " +:+ kv.2)
                   <$> headers) in
  utf8_encode (method +:+ " " +:+ requestline +:+ " HTTP/1.1" +:+ CRLF
               +:+ headers_formatted +:+ CRLF +:+ CRLF +:+ body).

(** The identity [_psk_id_v1] builds before it derives the secret;
    [rand_data] is what [random.randbytes(0x10)] returned. *)
Definition init_id_v1 (self : TuyaAPIConnection) (rand_data : bytes)
  : bytes :=
  let authkey_hash := md5 (authkey self) in
  let uuid_hash := md5 (uuid self) in
  replace_nul ([x01] ++ rand_data ++ uuid_hash ++ [x5f] ++ authkey_hash).

(** [_psk_id_v1(self, hint)]: returns the object with its [psk]
    assigned, and the pair the method returns. *)
Definition _psk_id_v1 (self : TuyaAPIConnection) (hint rand_data : bytes)
  : outcome (TuyaAPIConnection * (bytes * bytes)) :=
  let init_id := init_id_v1 self rand_data in
  let iv := md5 (drop 1 init_id) in
  let key := md5 (last_n 16 hint) in
  new_psk ← aes_cbc_encrypt key iv (slice 1 33 init_id);
  Ret ({| psk := new_psk; authkey := authkey self; uuid := uuid self |},
       (new_psk, init_id)).

(** [_psk_id_v2(self, hint)] *)
Definition _psk_id_v2 (self : TuyaAPIConnection) (hint rand_data : bytes)
  : outcome (TuyaAPIConnection * (bytes * bytes)) :=
  let uuid_hash := sha256 (uuid self) in
  let init_id := [x02] ++ rand_data ++ uuid_hash in
  Ret (self, (psk self, replace_nul init_id)).

(** [_psk_and_pskid(self, hint)] *)
Definition _psk_and_pskid (self : TuyaAPIConnection) (hint rand_data : bytes)
  : outcome (TuyaAPIConnection * (bytes * bytes)) :=
  if decide (psk self = []) then _psk_id_v1 self hint rand_data
  else _psk_id_v2 self hint rand_data.

End Connection.

(** ** The network, as one request sees it *)

(** What the peer does during one connection. *)
Record peer := {
  connects : bool;          (** [socket.create_connection] succeeds *)
  tls_hint : option bytes;  (** hint of the PSK handshake, if it gets there *)
  tls_completes : bool;     (** the handshake ends well *)
  rand_data : bytes;        (** what [random.randbytes(0x10)] returns *)
  send_ok : bool;           (** [socket.send] succeeds *)
  recv_data : option bytes; (** what the peer answers, if [recv] returns *)
}.

Record net := {
  peers : list peer;                  (** connections still to come *)
  sent : list (string * Z * bytes);   (** host, port and bytes sent so far *)
}.

(** Line 47: [parsed_url.scheme == "https"]. *)
Definition is_https (parsed_url : parsed_url) : bool :=
  bool_decide (scheme parsed_url = "https").

(** Line 48: [parsed_url.port or (443 if psk_wrapped else 80)]. *)
Definition port_of (parsed_url : parsed_url) : Z :=
  let default_port := if is_https parsed_url then 443 else 80 in
  match port parsed_url with
  | Some p => if decide (p = 0) then default_port else p
  | None => default_port
  end.

(** [try: body except Exception: ...; sys.exit(3)] *)
Definition try_except_exit3 {W A} (body : M W A) : M W A := fun w =>
  match body w with
  | (Raise _, w') => (SysExit 3, w')
  | r => r
  end.

Section Transport.
Context `{Libs}.

(** [_make_socket(self, host, port, encrypted)]: the next connection
    of the network, after the PSK handshake when [encrypted]. *)
Definition _make_socket (self : TuyaAPIConnection) (host : string)
    (port : Z) (encrypted : bool) : M net (TuyaAPIConnection * peer) :=
  fun w =>
    match peers w with
    | [] => (Raise OSError, w)
    | p :: rest =>
        let w' := {| peers := rest; sent := sent w |} in
        if negb (connects p) then (Raise OSError, w')
        else if negb encrypted then (Ret (self, p), w')
        else
          match tls_hint p with
          | None => (Raise OSError, w')
          | Some hint =>
              match _psk_and_pskid self hint (rand_data p) with
              | Ret (self', _) =>
                  if tls_completes p then (Ret (self', p), w')
                  else (Raise OSError, w')
              | SysExit c => (SysExit c, w')
              | Raise e => (Raise e, w')
              end
          end
    end.

(** [socket.send(data)] *)
Definition socket_send (host : string) (port : Z) (sock : peer)
    (data : bytes) : M net unit :=
  fun w =>
    if send_ok sock
    then (Ret (), {| peers := peers w; sent := sent w ++ [(host, port, data)] |})
    else (Raise OSError, w).

(** [socket.recv(bufsize)] *)
Definition socket_recv (sock : peer) (bufsize : nat) : M net bytes :=
  lift (or_raise OSError (take bufsize <$> recv_data sock)).

(** Lines 58 to 64 of [request]: from the bytes received to the
    decoded answer. *)
Definition decode_response (self : TuyaAPIConnection) (datas : bytes)
  : outcome pyval :=
  piece ← or_raise IndexError (bytes_split CRLFCRLF datas !! 1%nat);
  text ← or_raise ValueError (utf8_decode piece);
  let response_body := str_strip text in
  envelope ← or_raise ValueError (json_loads response_body);
  result ← py_getitem envelope "result";
  result ← match result with
           | VStr s => or_raise ValueError (b64decode s)
           | _ => Raise TypeError
           end;
  result ← _decrypt_data self result;
  result ← or_raise ValueError (utf8_decode result);
  or_raise ValueError (json_loads result).

(** The body of the [try] of [request], lines 56 to 64. *)
Definition exchange (self : TuyaAPIConnection) (hostname : string)
    (port : Z) (sock : peer) (http_request : bytes)
  : M net (pyval * TuyaAPIConnection) :=
  socket_send hostname port sock http_request;;
  datas ← socket_recv sock 10000;
  result ← lift (decode_response self datas);
  mret (result, self).

(** [request(self, url, params, data, method)]: the answer and the
    connection object as the call leaves it. *)
Definition request (self : TuyaAPIConnection) (url : string)
    (params : gmap string pyval) (data : dict) (method : string)
  : M net (pyval * TuyaAPIConnection) :=
  let parsed_url := urlparse url in
  let hostname := hostname parsed_url in
  let psk_wrapped := is_https parsed_url in
  let port := port_of parsed_url in
  querystring ← lift (_build_querystring self params);
  let requestline := path parsed_url +:+ querystring in
  body ← lift (_encrypt_data self data);
  let http_request := _build_request method hostname requestline body in
  '(self, sock) ← _make_socket self hostname port psk_wrapped;
  try_except_exit3 (exchange self hostname port sock http_request).

End Transport.

(** ** Module level functions *)

(** [build_params(epoch_time, uuid)] *)
Definition build_params (epoch_time : Z) (uuid : string)
  : gmap string pyval :=
  <["a" := VStr "tuya.device.active"]>
  (<["t" := VInt epoch_time]>
  (<["uuid" := VStr uuid]>
  (<["v" := VStr "4.4"]>
  (<["et" := VInt 1]> ∅)))).

(** [str(is_fk).lower()] *)
Definition str_bool_lower (b : bool) : string :=
  if b then "true" else "false".

(** [build_data(epoch_time, token, product_key, software_version,
    baseline_version, cad_version, cd_version, protocol_version, is_fk)] *)
Definition build_data (epoch_time : Z) (token product_key software_version
    baseline_version cad_version cd_version protocol_version : string)
    (is_fk : bool) : dict :=
  [("token", VStr token);
   ("productKey", VStr product_key);
   ("softVer", VStr software_version);
   ("protocolVer", VStr protocol_version);
   ("baselineVer", VStr baseline_version);
   ("options",
    VStr ("{" +:+ dquote +:+ "isFK" +:+ dquote +:+ ":"
          +:+ str_bool_lower is_fk +:+ "}"));
   ("cadVer", VStr cad_version);
   ("cdVer", VStr cd_version);
   ("t", VInt epoch_time)].

(** ** The token frame listener *)

(** What one turn of the loop of [receive_token] meets. *)
Inductive udp_event :=
| BindFails                (** [s.bind] raises *)
| RecvTimeout              (** no datagram within the two seconds *)
| Interrupted              (** [KeyboardInterrupt] inside the [try] *)
| Datagram (d : bytes).

(** How the loop stands once the events are consumed. *)
Inductive listen_result :=
| Received (token : pyval)  (** [multicast_token] was assigned *)
| Cancelled                 (** [cancel_thread] was seen set *)
| Returned                  (** left by [return] *)
| Crashed (e : exn)         (** left by an exception outside the [try] *)
| Listening.                (** still in the loop *)

Section Listener.
Context `{Libs}.

(** Lines 213 to 216: the token of the datagram [msg]. *)
Definition frame_token (msg : bytes) : outcome pyval :=
  msglen ← or_raise StructError (unpack_be32 (slice 12 16 msg));
  text ← or_raise ValueError
           (utf8_decode (slice 16 (Z.to_nat (msglen + 8)) msg));
  msg ← or_raise ValueError (json_loads text);
  py_getitem msg "token".

(** [receive_token()]: each event comes with the value of
    [cancel_thread] the loop test reads before it. *)
Fixpoint receive_token (events : list (bool * udp_event)) : listen_result :=
  match events with
  | [] => Listening
  | (cancel_thread, ev) :: rest =>
      if cancel_thread then Cancelled
      else
        match ev with
        | BindFails => Crashed OSError
        | RecvTimeout => receive_token rest
        | Interrupted => Returned
        | Datagram d =>
            match frame_token (take 255 d) with
            | Ret token => Received token
            | _ => receive_token rest
            end
        end
  end.

End Listener.

(** An event the loop of [receive_token] passes over: no cancellation
    seen, and a timeout or a datagram that yields no token. *)
Definition skipped_event `{Libs} (ev : bool * udp_event) : Prop :=
  ev.1 = false
  /\ (ev.2 = RecvTimeout
      \/ exists d, ev.2 = Datagram d
                   /\ forall token, frame_token (take 255 d) <> Ret token).

(** ** The activation orchestrator *)

(** The arguments of [run]; an absent one is [None]. *)
Record run_args := {
  directory : string;
  output_file_prefix : string;
  arg_uuid : option string;
  auth_key : option string;
  product_key : option string;
  firmware_key : option string;
  software_version : option string;
  baseline_version : option string;
  cad_version : option string;
  cd_version : string;
  protocol_version : string;
  token : option string;
}.

(** One call of [connection.request]. *)
Record call := {
  call_url : string;
  call_params : gmap string pyval;
  call_data : dict;
  call_method : string;
}.

(** How one call of [connection.request] ended. *)
Inductive call_end :=
| Answered (response : pyval)
| Exited (code : Z)
| Failed (e : exn).

Definition call_end_of {A} (r : outcome (pyval * A)) : call_end :=
  match r with
  | Ret (response, _) => Answered response
  | SysExit code => Exited code
  | Raise e => Failed e
  end.

Definition answered (e : call_end) : bool :=
  match e with Answered _ => true | _ => false end.

(** The outcome [r] is the exit or the exception the call ended with. *)
Definition ended_as {A} (r : outcome A) (e : call_end) : Prop :=
  match e, r with
  | Exited code, SysExit code' => code = code'
  | Failed x, Raise x' => x = x'
  | _, _ => False
  end.

(** The state of a run: the world the requests act on, and the calls
    made so far with the way each ended. *)
Record session (W : Type) := {
  world : W;
  calls : list (call * call_end);
}.
Arguments world {W} s.
Arguments calls {W} s.

(** What [run] does at its end. *)
Inductive report :=
| SchemaSaved (schema_id schema : string)  (** printed and written to the two files *)
| TokenExpired                             (** the expired-or-wrong-region message *)
| Printed (response : pyval).              (** [print(response)] *)

Definition responseCodesToContinueAter : list string :=
  ["FIRMWARE_NOT_MATCH"; "APP_PRODUCT_UNSUPPORT"; "NOT_EXISTS"].

(** [print_and_exit(printText)] *)
Definition print_and_exit {A} : outcome A := SysExit 2.

(** [x is None or len(x) < n] turned around: the text, when it is there
    and satisfies [ok]. *)
Definition require (x : option string) (ok : string -> bool) : outcome string :=
  match x with
  | Some s => if ok s then Ret s else print_and_exit
  | None => print_and_exit
  end.

(** Lines 248 to 258 of [run]: the region of a token.  The branch for
    ["AY"] evaluates the comparison [region == "cn"] and leaves
    [region] as it is. *)
Definition region_of (token : string) : outcome string :=
  let region := str_slice 0 2 token in
  if decide (region = "AZ") then Ret "us"
  else if decide (region = "EU") then Ret "eu"
  else if decide (region = "AY") then Ret region
  else SysExit 4.

(** Lines 276 and 284: [response["success"] == False and
    response["errorCode"] in responseCodesToContinueAter]. *)
Definition continue_after (response : pyval) : outcome bool :=
  success ← py_getitem response "success";
  if py_eq_bool success false then
    errorCode ← py_getitem response "errorCode";
    Ret (py_in_strs errorCode responseCodesToContinueAter)
  else Ret false.

(** Line 280, left of [and firmware_key is not None]. *)
Definition none_or_failed_unexpired (response : option pyval) : outcome bool :=
  match response with
  | None => Ret true
  | Some response =>
      success ← py_getitem response "success";
      if py_eq_bool success false then
        errorCode ← py_getitem response "errorCode";
        Ret (negb (py_eq_str errorCode "EXPIRE"))
      else Ret false
  end.

(** Lines 288 to 298. *)
Definition conclude (response : option pyval) : outcome report :=
  match response with
  | None => Raise TypeError
  | Some response =>
      success ← py_getitem response "success";
      if py_eq_bool success true then
        result ← py_getitem response "result";
        schemaId ← py_getitem result "schemaId";
        schema ← py_getitem result "schema";
        match schemaId, schema with
        | VStr schemaId, VStr schema => Ret (SchemaSaved schemaId schema)
        | _, _ => Raise TypeError
        end
      else
        success ← py_getitem response "success";
        if py_eq_bool success false then
          errorCode ← py_getitem response "errorCode";
          if py_eq_str errorCode "EXPIRE" then Ret TokenExpired
          else Ret (Printed response)
        else Ret (Printed response)
  end.

(** The arguments of [run] once checked. *)
Record settings := {
  set_uuid : string;
  set_auth_key : string;
  set_software_version : string;
  set_cad_version : string;
  set_baseline_version : string;
}.

(** Lines 226 to 240: the checks of [run] on its arguments, each
    ending the run through [print_and_exit]. *)
Definition validate (a : run_args) : outcome settings :=
  uuid ←
    match arg_uuid a with
    | Some u =>
        if decide (String.length u = 16%nat) then Ret u
        else require (product_key a)
               (fun k => bool_decide (String.length k = 16%nat))
    | None => require (product_key a)
                (fun k => bool_decide (String.length k = 16%nat))
    end;
  auth_key ← require (auth_key a)
               (fun k => bool_decide (String.length k = 32%nat));
  (if bool_decide ((product_key a = None \/ product_key a = Some "")
                   /\ (firmware_key a = None \/ firmware_key a = Some ""))
   then print_and_exit else Ret ());;
  software_version ← require (software_version a)
                       (fun v => (5 <=? String.length v)%nat);
  cad_version ← require (cad_version a)
                  (fun v => (5 <=? String.length v)%nat);
  baseline_version ← require (baseline_version a)
                       (fun v => (5 <=? String.length v)%nat);
  Ret {| set_uuid := uuid; set_auth_key := auth_key;
         set_software_version := software_version;
         set_cad_version := cad_version;
         set_baseline_version := baseline_version |}.

Section Orchestrator.
Context `{Libs} {W : Type}.

(** [connection.request], on whatever world it acts. *)
Variable request : TuyaAPIConnection -> string -> gmap string pyval ->
                   dict -> string -> M W (pyval * TuyaAPIConnection).
(** [get_new_token()]: the value of [multicast_token] it returns. *)
Variable get_new_token : M W pyval.

(** A call of [connection.request], entered into the trace. *)
Definition traced_request (connection : TuyaAPIConnection) (url : string)
    (params : gmap string pyval) (data : dict) (method : string)
  : M (session W) (pyval * TuyaAPIConnection) :=
  fun s =>
    let c := {| call_url := url; call_params := params;
                call_data := data; call_method := method |} in
    let '(r, w) := request connection url params data method (world s) in
    (r, {| world := w; calls := calls s ++ [(c, call_end_of r)] |}).

Definition in_world {A} (m : M W A) : M (session W) A :=
  fun s => let '(r, w) := m (world s) in (r, {| world := w; calls := calls s |}).

(** Lines 242 to 262: the token to use, as a value, and from it the
    region and the eight characters sent.  A token that came from the
    listener may be any JSON value: a list can be sliced and matches no
    region, a number, a boolean or a dictionary cannot be sliced. *)
Definition token_and_region (token : option string)
  : M (session W) (string * string) :=
  token ← match token with
          | Some t =>
              if decide (String.length t = 14%nat) then mret (VStr t)
              else in_world get_new_token
          | None => in_world get_new_token
          end;
  match token with
  | VNone => lift print_and_exit
  | VStr token =>
      region ← lift (region_of token);
      let token := str_slice 0 8 (str_from 2 token) in
      if decide (String.length token = 8%nat) then mret (token, region)
      else lift (Raise AssertionError)
  | VList _ => lift (SysExit 4)
  | _ => lift (Raise TypeError)
  end.

(** One key type: the attempt with [is_fk], and the attempt with the
    flag flipped when the answer asks for it (lines 273 to 278 and
    281 to 286). *)
Definition attempts (connection : TuyaAPIConnection) (url : string)
    (params : gmap string pyval) (data : bool -> dict) (is_fk : bool)
  : M (session W) (pyval * TuyaAPIConnection) :=
  '(response, connection) ←
    traced_request connection url params (data is_fk) "POST";
  again ← lift (continue_after response);
  if again : bool
  then traced_request connection url params (data (negb is_fk)) "POST"
  else mret (response, connection).

(** Lines 264 to 286: the connection, the parameters and the
    attempts, product key first; [epoch_time] is what
    [int(time.time())] returns.  The result is [response]. *)
Definition activation (epoch_time : Z) (a : run_args) (v : settings)
    (token region : string) : M (session W) (option pyval) :=
  let connection := TuyaAPIConnection_init (set_uuid v) (set_auth_key v) None in
  let url := "http://a.tuya" +:+ region +:+ ".com/d.json" in
  let params := build_params epoch_time (set_uuid v) in
  let data key is_fk :=
    build_data epoch_time token key (set_software_version v)
      (set_baseline_version v) (set_cad_version v) (cd_version a)
      (protocol_version a) is_fk in
  '(response, connection) ←
    match product_key a with
    | Some product_key =>
        '(response, connection) ←
          attempts connection url params (data product_key) false;
        mret (Some response, connection)
    | None => mret (None, connection)
    end;
  fallback ← lift (none_or_failed_unexpired response);
  match fallback, firmware_key a with
  | true, Some firmware_key =>
      '(response, connection) ←
        attempts connection url params (data firmware_key) true;
      mret (Some response)
  | _, _ => mret response
  end.

(** [run(directory, output_file_prefix, uuid, auth_key, product_key,
    firmware_key, software_version, baseline_version, cad_version,
    cd_version, protocol_version, token)] *)
Definition run (epoch_time : Z) (a : run_args) : M (session W) report :=
  v ← lift (validate a);
  '(token, region) ← token_and_region (token a);
  response ← activation epoch_time a v token region;
  lift (conclude response).

End Orchestrator.

(** The outcome is a value or an exception, and not an exit. *)
Definition not_exit {A} (o : outcome A) : Prop :=
  match o with SysExit _ => False | _ => True end.

(** ** Reading the trace of a run *)

(** The calls [l] of a computation that ended as [r] are orderly: a
    call that did not return is the last one, and [r] is the exit or the
    exception it ended with. *)
Definition orderly {A} (l : list (call * call_end)) (r : outcome A) : Prop :=
  forall i c e, l !! i = Some (c, e) -> answered e = false ->
    S i = length l /\ ended_as r e.

(** From any state, the computation [m] adds orderly calls that all
    satisfy [P] to the trace. *)
Definition extends {W A} (P : call -> Prop) (m : M (session W) A) : Prop :=
  forall s, exists l,
    calls (m s).2 = calls s ++ l
    /\ Forall (fun ce => P ce.1) l
    /\ orderly l (m s).1.

(** The text [build_data] stores under ["options"]. *)
Definition options_text (is_fk : bool) : string :=
  "{" +:+ dquote +:+ "isFK" +:+ dquote +:+ ":" +:+ str_bool_lower is_fk +:+ "}".

(** The body of the call [c] is what [build_data] makes of one of the
    keys of [a], product or firmware, with the checked arguments. *)
Definition presents_key (epoch_time : Z) (a : run_args) (token : string)
    (c : call) : Prop :=
  exists v key is_fk,
    validate a = Ret v
    /\ (product_key a = Some key \/ firmware_key a = Some key)
    /\ call_data c
       = build_data epoch_time token key (set_software_version v)
           (set_baseline_version v) (set_cad_version v) (cd_version a)
           (protocol_version a) is_fk.

Definition attempt_of (epoch_time : Z) (a : run_args) (v : settings)
    (token region key : string) (is_fk : bool) : call :=
  {| call_url := "http://a.tuya" +:+ region +:+ ".com/d.json";
     call_params := build_params epoch_time (set_uuid v);
     call_data :=
       build_data epoch_time token key (set_software_version v)
         (set_baseline_version v) (set_cad_version v) (cd_version a)
         (protocol_version a) is_fk;
     call_method := "POST" |}.

(** The two attempts with one key, the flag [first] and then the other
    one; none when the key is [None]. *)
Definition key_attempts (epoch_time : Z) (a : run_args) (v : settings)
    (token region : string) (key : option string) (first : bool) : list call :=
  match key with
  | Some key =>
      [attempt_of epoch_time a v token region key first;
       attempt_of epoch_time a v token region key (negb first)]
  | None => []
  end.

(** ** Entry points: a directory of files, the command line *)

(** [print_help()] *)
Definition print_help {A} : outcome A := SysExit 1.

(** [s.endswith(suffix)] *)
Definition str_endswith (s suffix : string) : bool :=
  bool_decide (list_ascii_of_string suffix `suffix_of` list_ascii_of_string s).

(** [s.replace(old, new)] for a non-empty [old]: the occurrences are
    replaced from the left and do not overlap; [skip] counts the
    characters of a match still to be dropped. *)
Fixpoint replace_go (old new : list ascii) (skip : nat) (s : list ascii)
  : list ascii :=
  match s with
  | [] => []
  | a :: rest =>
      match skip with
      | S k => replace_go old new k rest
      | O =>
          if decide (take (length old) s = old)
          then new ++ replace_go old new (length old - 1) rest
          else a :: replace_go old new 0 rest
      end
  end.

Definition str_replace_text (old new s : string) : string :=
  string_of_list_ascii
    (replace_go (list_ascii_of_string old) (list_ascii_of_string new) 0
       (list_ascii_of_string s)).

(** The files the script reads: what [os.listdir(directory)] returns,
    and the text [open(os.path.join(directory, file), 'r').read()]
    returns; either may raise. *)
Record files := {
  listdir : string -> exn + list string;
  read_text : string -> string -> exn + string;
}.

Definition returned {A} (x : exn + A) : outcome A :=
  match x with inl e => Raise e | inr a => Ret a end.

Definition newline : ascii := "010"%char.

(** [read_single_line_file(path)], given what opening and reading
    [path] gives. *)
Definition read_single_line_file (opened : exn + string)
  : outcome (option string) :=
  fileContents ← returned opened;
  if bool_decide (newline ∈ list_ascii_of_string fileContents)
  then Ret None else Ret (Some fileContents).

(** The variables the loop of [run_directory] assigns. *)
Record found := {
  has_schema : bool;
  found_uuid : option string;
  found_auth_key : option string;
  found_product_key : option string;
  found_firmware_key : option string;
  found_software_version : option string;
  found_baseline_version : option string;
  found_prefix : option string;
}.

(** Lines 304 to 314. *)
Definition nothing_found : found :=
  {| has_schema := false; found_uuid := None; found_auth_key := None;
     found_product_key := None; found_firmware_key := None;
     found_software_version := None; found_baseline_version := Some "40.00";
     found_prefix := None |}.

(** Lines 319 to 336: one turn of the loop over the listing. *)
Definition scan_file (fs : files) (directory : string) (st : found)
    (file : string) : outcome found :=
  let read := read_single_line_file (read_text fs directory file) in
  if str_endswith file "_uuid.txt" then
    x ← read;
    Ret {| has_schema := has_schema st; found_uuid := x;
           found_auth_key := found_auth_key st;
           found_product_key := found_product_key st;
           found_firmware_key := found_firmware_key st;
           found_software_version := found_software_version st;
           found_baseline_version := found_baseline_version st;
           found_prefix := found_prefix st |}
  else if str_endswith file "_auth_key.txt" then
    x ← read;
    Ret {| has_schema := has_schema st; found_uuid := found_uuid st;
           found_auth_key := x;
           found_product_key := found_product_key st;
           found_firmware_key := found_firmware_key st;
           found_software_version := found_software_version st;
           found_baseline_version := found_baseline_version st;
           found_prefix := found_prefix st |}
  else if str_endswith file "_product_key.txt" then
    x ← read;
    Ret {| has_schema := has_schema st; found_uuid := found_uuid st;
           found_auth_key := found_auth_key st;
           found_product_key := x;
           found_firmware_key := found_firmware_key st;
           found_software_version := found_software_version st;
           found_baseline_version := found_baseline_version st;
           found_prefix := found_prefix st |}
  else if str_endswith file "_firmware_key.txt" then
    x ← read;
    Ret {| has_schema := has_schema st; found_uuid := found_uuid st;
           found_auth_key := found_auth_key st;
           found_product_key := found_product_key st;
           found_firmware_key := x;
           found_software_version := found_software_version st;
           found_baseline_version := found_baseline_version st;
           found_prefix := found_prefix st |}
  else if str_endswith file "_firmware_key.txt" then
    x ← read;
    Ret {| has_schema := has_schema st; found_uuid := found_uuid st;
           found_auth_key := found_auth_key st;
           found_product_key := found_product_key st;
           found_firmware_key := x;
           found_software_version := found_software_version st;
           found_baseline_version := found_baseline_version st;
           found_prefix := found_prefix st |}
  else if str_endswith file "_swv.txt" then
    x ← read;
    Ret {| has_schema := has_schema st; found_uuid := found_uuid st;
           found_auth_key := found_auth_key st;
           found_product_key := found_product_key st;
           found_firmware_key := found_firmware_key st;
           found_software_version := x;
           found_baseline_version := found_baseline_version st;
           found_prefix := found_prefix st |}
  else if str_endswith file "_bv.txt" then
    x ← read;
    Ret {| has_schema := has_schema st; found_uuid := found_uuid st;
           found_auth_key := found_auth_key st;
           found_product_key := found_product_key st;
           found_firmware_key := found_firmware_key st;
           found_software_version := found_software_version st;
           found_baseline_version := x;
           found_prefix := found_prefix st |}
  else if str_endswith file "_chip.txt" then
    Ret {| has_schema := has_schema st; found_uuid := found_uuid st;
           found_auth_key := found_auth_key st;
           found_product_key := found_product_key st;
           found_firmware_key := found_firmware_key st;
           found_software_version := found_software_version st;
           found_baseline_version := found_baseline_version st;
           found_prefix := Some (str_replace_text "_chip.txt" "" file) |}
  else if str_endswith file "_schema_id.txt" then
    Ret {| has_schema := true; found_uuid := found_uuid st;
           found_auth_key := found_auth_key st;
           found_product_key := found_product_key st;
           found_firmware_key := found_firmware_key st;
           found_software_version := found_software_version st;
           found_baseline_version := found_baseline_version st;
           found_prefix := found_prefix st |}
  else Ret st.

(** Lines 318 to 336: the loop. *)
Fixpoint scan (fs : files) (directory : string) (dirListing : list string)
    (st : found) : outcome found :=
  match dirListing with
  | [] => Ret st
  | file :: rest => st ← scan_file fs directory st file; scan fs directory rest st
  end.

(** What [run_directory] does at its end. *)
Inductive directory_report :=
| SchemaPresent             (** the schema-already-present message *)
| NotFound (what : string)  (** the message that [what] was not found *)
| Ran (r : report).         (** [run] was called and returned *)

(** What the script does at its end. *)
Inductive main_report :=
| InputDone (r : report)
| DirectoryDone (r : directory_report)
| NothingDone.              (** no branch was taken *)

Definition backslash : string := String "092"%char EmptyString.

Section EntryPoints.
Context `{Libs} {W : Type}.
Variable request : TuyaAPIConnection -> string -> gmap string pyval ->
                   dict -> string -> M W (pyval * TuyaAPIConnection).
Variable get_new_token : M W pyval.
Variable fs : files.

(** [run] called with an [output_file_prefix] that may be [None]: the
    checks, the token and the requests do not read it; with a schema
    to save, line 291 adds a text to it, which raises [TypeError] when
    it is [None]. *)
Definition run_prefixed (epoch_time : Z) (prefix : option string)
    (a : string -> run_args) : M (session W) report :=
  match prefix with
  | Some prefix => run request get_new_token epoch_time (a prefix)
  | None =>
      r ← run request get_new_token epoch_time (a "");
      match r with
      | SchemaSaved _ _ => lift (Raise TypeError)
      | _ => mret r
      end
  end.

(** [run_input(uuid, auth_key, product_key, firmware_key,
    software_version, baseline_version, cad_version, cd_version,
    protocol_version, token)] *)
Definition run_input (epoch_time : Z) (uuid auth_key product_key firmware_key
    software_version baseline_version cad_version cd_version
    protocol_version : string) (token : option string)
  : M (session W) report :=
  run request get_new_token epoch_time
    {| directory := "." +:+ backslash; output_file_prefix := "device";
       arg_uuid := Some uuid; auth_key := Some auth_key;
       product_key := Some product_key; firmware_key := Some firmware_key;
       software_version := Some software_version;
       baseline_version := Some baseline_version;
       cad_version := Some cad_version; cd_version := cd_version;
       protocol_version := protocol_version; token := token |}.

(** [run_directory(directory, token)] *)
Definition run_directory (epoch_time : Z) (directory : string)
    (token : option string) : M (session W) directory_report :=
  dirListing ← lift (returned (listdir fs directory));
  st ← lift (scan fs directory dirListing nothing_found);
  if has_schema st then mret SchemaPresent
  else
    match found_uuid st with
    | None => mret (NotFound "uuid")
    | Some uuid =>
    match found_auth_key st with
    | None => mret (NotFound "auth_key")
    | Some auth_key =>
    if bool_decide ((found_product_key st = None
                     \/ found_product_key st = Some "")
                    /\ (found_firmware_key st = None
                        \/ found_firmware_key st = Some ""))
    then mret (NotFound "product_key or firmware_key")
    else
    match found_software_version st with
    | None => mret (NotFound "software_version")
    | Some software_version =>
    match found_baseline_version st with
    | None => mret (NotFound "baseline_version")
    | Some baseline_version =>
        r ← run_prefixed epoch_time (found_prefix st) (fun prefix =>
               {| directory := directory; output_file_prefix := prefix;
                  arg_uuid := Some uuid; auth_key := Some auth_key;
                  product_key := found_product_key st;
                  firmware_key := found_firmware_key st;
                  software_version := Some software_version;
                  baseline_version := Some baseline_version;
                  cad_version := Some "1.0.2"; cd_version := "1.0.0";
                  protocol_version := "2.2"; token := token |});
        mret (Ran r)
    end end end end.

(** [sys.argv[i]] *)
Definition argv_at (argv : list string) (i : nat) : outcome string :=
  or_raise IndexError (argv !! i).

(** Lines 362 to 384: the script run with the command line [argv]. *)
Definition main (epoch_time : Z) (argv : list string)
  : M (session W) main_report :=
  if decide (drop 2 argv = []) then lift print_help
  else
    mode ← lift (argv_at argv 1);
    if decide (mode = "--input") then
      (if decide (drop 7 argv = []) then lift print_help else mret ());;
      uuid ← lift (argv_at argv 2);
      auth_key ← lift (argv_at argv 3);
      product_key ← lift (argv_at argv 4);
      firmware_key ← lift (argv_at argv 5);
      software_version ← lift (argv_at argv 6);
      cad_version ← lift (argv_at argv 7);
      baseline_version ← lift (argv_at argv 8);
      token ← lift (argv_at argv 9);
      r ← run_input epoch_time uuid auth_key product_key firmware_key
            software_version cad_version baseline_version token "2.2" None;
      mret (InputDone r)
    else if decide (mode = "--directory") then
      (if decide (drop 2 argv = []) then lift print_help else mret ());;
      directory ← lift (argv_at argv 2);
      token ← (if decide (length argv < 4)%nat then mret None
               else t ← lift (argv_at argv 3); mret (Some t));
      r ← run_directory epoch_time directory token;
      mret (DirectoryDone r)
    else mret NothingDone.

End EntryPoints.

(** The last file of the listing whose name ends with [suffix]. *)
Definition last_file (suffix : string) (dirListing : list string)
  : option string :=
  last (filter (fun file => str_endswith file suffix = true) dirListing).

(** The text of [file] when it can be read and has no line break in
    it. *)
Definition line_of (fs : files) (directory file : string) : option string :=
  match read_text fs directory file with
  | inr text =>
      if bool_decide (newline ∈ list_ascii_of_string text) then None
      else Some text
  | inl _ => None
  end.

(** The line of the last file that ends with [suffix], and [default]
    when there is no such file. *)
Definition single_line (fs : files) (directory suffix : string)
    (default : option string) (dirListing : list string) : option string :=
  match last_file suffix dirListing with
  | None => default
  | Some file => line_of fs directory file
  end.

(** ** Stand-ins for the libraries

    Small executable functions with the shape of the library functions,
    on which the model can be run.  No statement about the script
    depends on them: they serve to evaluate it on concrete inputs. *)
Module Standin.

(** A digest of [n] bytes: the data cut or filled with NUL bytes. *)
Definition digest (n : nat) (data : bytes) : bytes :=
  take n (data ++ replicate n x00).

Definition xor_bits (a b : bool * (bool * (bool * (bool * (bool * (bool * (bool * bool)))))))
  : bool * (bool * (bool * (bool * (bool * (bool * (bool * bool)))))) :=
  let '(a0, (a1, (a2, (a3, (a4, (a5, (a6, a7))))))) := a in
  let '(b0, (b1, (b2, (b3, (b4, (b5, (b6, b7))))))) := b in
  (xorb a0 b0, (xorb a1 b1, (xorb a2 b2, (xorb a3 b3,
   (xorb a4 b4, (xorb a5 b5, (xorb a6 b6, xorb a7 b7))))))).

Definition xor_byte (a b : byte) : byte :=
  Byte.of_bits (xor_bits (Byte.to_bits a) (Byte.to_bits b)).

(** Bytewise exclusive or of [data] with [key], as long as [data]. *)
Fixpoint xor_bytes (key data : bytes) : bytes :=
  match data, key with
  | d :: data', k :: key' => xor_byte d k :: xor_bytes key' data'
  | _, _ => data
  end.

(** Cipher block chaining over [xor_bytes key], with the checks
    [AES.new] and [encrypt] make on the lengths. *)
Fixpoint cbc_chain (key prev : bytes) (bs : list bytes) : bytes :=
  match bs with
  | [] => []
  | b :: bs' =>
      let c := xor_bytes key (xor_bytes prev b) in
      c ++ cbc_chain key c bs'
  end.

Definition cbc_encrypt (key iv data : bytes) : outcome bytes :=
  if decide ((length key = 16 \/ length key = 24 \/ length key = 32)
             /\ length iv = 16 /\ length data mod 16 = 0)%nat
  then Ret (cbc_chain key iv (blocks (length data / 16) data))
  else Raise ValueError.

(** Text of seven-bit characters. *)
Definition ascii_encode (s : string) : bytes := list_byte_of_string s.

Definition ascii_decode (data : bytes) : option string :=
  if forallb (fun b => (Byte.to_N b <? 128)%N) data
  then Some (string_of_list_byte data) else None.

Definition squote : string := "'".

(** Values as text, in the style of [json.dumps] with compact
    separators ([json_style]) or of [repr]; texts are written
    without escapes. *)
Fixpoint print_val (json_style : bool) (v : pyval) : string :=
  let q := if json_style then dquote else squote in
  let comma := if json_style then "," else ", " in
  let colon := if json_style then ":" else ": " in
  match v with
  | VNone => if json_style then "null" else "None"
  | VBool b => if json_style then str_bool_lower b
               else if b then "True" else "False"
  | VInt z => str_of_Z z
  | VStr s => q +:+ s +:+ q
  | VList l => "[" +:+ str_join comma (map (print_val json_style) l) +:+ "]"
  | VDict d =>
      "{" +:+ str_join comma
                (map (fun kv => q +:+ fst kv +:+ q +:+ colon
                                +:+ print_val json_style (snd kv)) d)
      +:+ "}"
  end.

(** A plain character of a JSON text: no quote, no backslash, no
    control character. *)
Definition plain (a : ascii) : bool :=
  let n := nat_of_ascii a in
  (32 <=? n)%nat && negb (n =? 34)%nat && negb (n =? 92)%nat.

(** The longest plain prefix of [s] and what follows it. *)
Fixpoint span_plain (s : list ascii) : list ascii * list ascii :=
  match s with
  | a :: s' =>
      if plain a then let '(w, r) := span_plain s' in (a :: w, r)
      else ([], s)
  | [] => ([], [])
  end.

(** [s] without the prefix [p], when it starts with it. *)
Fixpoint strip_prefix (p s : list ascii) : option (list ascii) :=
  match p, s with
  | [], _ => Some s
  | a :: p', b :: s' => if decide (a = b) then strip_prefix p' s' else None
  | _, [] => None
  end.

(** A reader of the objects with one text member, written without
    blanks: it answers as [json.loads] does on them and gives up on
    every other text. *)
Definition loads_one_member (s : string) : option pyval :=
  let q := list_ascii_of_string dquote in
  r ← strip_prefix ("{"%char :: q) (list_ascii_of_string s);
  let '(k, r) := span_plain r in
  r ← strip_prefix (q ++ ":"%char :: q) r;
  let '(v, r) := span_plain r in
  r ← strip_prefix (q ++ ["}"%char]) r;
  match r with
  | [] => Some (VDict [(string_of_list_ascii k, VStr (string_of_list_ascii v))])
  | _ => None
  end.

Definition b64_value (a : ascii) : option N :=
  let n := N_of_ascii a in
  if ((65 <=? n) && (n <=? 90))%N then Some (n - 65)%N
  else if ((97 <=? n) && (n <=? 122))%N then Some (n - 71)%N
  else if ((48 <=? n) && (n <=? 57))%N then Some (n + 4)%N
  else if (n =? 43)%N then Some 62%N
  else if (n =? 47)%N then Some 63%N
  else None.

Definition b64_bytes (n : N) (k : nat) : option bytes :=
  b0 ← Byte.of_N (n / 65536); b1 ← Byte.of_N (n / 256 mod 256);
  b2 ← Byte.of_N (n mod 256); Some (take k [b0; b1; b2]).

(** Base64 text in groups of four characters, padded with [=]. *)
Fixpoint b64_groups (s : list ascii) : option bytes :=
  match s with
  | [] => Some []
  | [c0; c1; "="%char; "="%char] =>
      v0 ← b64_value c0; v1 ← b64_value c1;
      b64_bytes (v0 * 262144 + v1 * 4096) 1
  | [c0; c1; c2; "="%char] =>
      v0 ← b64_value c0; v1 ← b64_value c1; v2 ← b64_value c2;
      b64_bytes (v0 * 262144 + v1 * 4096 + v2 * 64) 2
  | c0 :: c1 :: c2 :: c3 :: rest =>
      v0 ← b64_value c0; v1 ← b64_value c1; v2 ← b64_value c2;
      v3 ← b64_value c3;
      h ← b64_bytes (v0 * 262144 + v1 * 4096 + v2 * 64 + v3) 3;
      t ← b64_groups rest; Some (h ++ t)
  | _ => None
  end.

(** Text before the first occurrence of the character [c], and text
    after it. *)
Fixpoint cut_at (c : ascii) (s : list ascii) : list ascii * list ascii :=
  match s with
  | a :: s' =>
      if decide (a = c) then ([], s')
      else let '(w, r) := cut_at c s' in (a :: w, r)
  | [] => ([], [])
  end.

(** URLs of the form [scheme://host/path]. *)
Definition parse_url (url : string) : parsed_url :=
  let '(sch, r) := cut_at ":"%char (list_ascii_of_string url) in
  let '(host, p) := cut_at "/"%char (drop 2 r) in
  {| scheme := string_of_list_ascii sch;
     hostname := string_of_list_ascii host;
     port := None;
     path := string_of_list_ascii ("/"%char :: p) |}.

#[export] Instance libs : Libs := {|
  md5 := digest 16;
  sha256 := digest 32;
  aes_encrypt_block := xor_bytes;
  aes_decrypt_block := xor_bytes;
  aes_cbc_encrypt := cbc_encrypt;
  utf8_encode := ascii_encode;
  utf8_decode := ascii_decode;
  json_dumps := print_val true;
  json_loads := loads_one_member;
  b64decode := fun s => b64_groups (list_ascii_of_string s);
  py_repr := print_val false;
  urlparse := parse_url;
|}.

(** A digest of 16 bytes on which every byte of the data bears: byte
    [i] is the exclusive or of the bytes at the positions [i],
    [i + 16], [i + 32] and so on. *)
Definition fold_digest (data : bytes) : bytes :=
  foldl (fun acc block => xor_bytes block acc) (replicate 16 x00)
    (blocks (length data / 16 + 1) data).

(** The stand-ins with [fold_digest] for MD5. *)
Definition folding : Libs := {|
  md5 := fold_digest;
  sha256 := digest 32;
  aes_encrypt_block := xor_bytes;
  aes_decrypt_block := xor_bytes;
  aes_cbc_encrypt := cbc_encrypt;
  utf8_encode := ascii_encode;
  utf8_decode := ascii_decode;
  json_dumps := print_val true;
  json_loads := loads_one_member;
  b64decode := fun s => b64_groups (list_ascii_of_string s);
  py_repr := print_val false;
  urlparse := parse_url;
|}.

End Standin.

(** ** Orders and character classes used in the statements *)

(** Strictly ascending keys. *)
Definition key_before (a b : string * pyval) : Prop :=
  String.le a.1 b.1 /\ a.1 <> b.1.

Definition is_lower_hex (a : ascii) : bool :=
  bool_decide (a ∈ list_ascii_of_string "0123456789abcdef").

Definition is_upper_hex (a : ascii) : bool :=
  bool_decide (a ∈ list_ascii_of_string "0123456789ABCDEF").

(** No character of [s] is ["&"]. *)
Definition amp_free (s : string) : Prop :=
  "&"%char ∉ list_ascii_of_string s.

(** The two texts of ["options"], written out. *)
Definition isFK_true : string :=
  "{" +:+ dquote +:+ "isFK" +:+ dquote +:+ ":true}".

Definition isFK_false : string :=
  "{" +:+ dquote +:+ "isFK" +:+ dquote +:+ ":false}".

(** The values of ["productKey"] and ["options"] in the two bodies that
    present [key], the first with the flag [first] and the second with
    the other one; none when the key is [None]. *)
Definition key_fields (key : option string) (first : bool)
  : list (option pyval * option pyval) :=
  match key with
  | Some key =>
      [(Some (VStr key), Some (VStr (if first then isFK_true else isFK_false)));
       (Some (VStr key), Some (VStr (if first then isFK_false else isFK_true)))]
  | None => []
  end.

(** ** Sample inputs *)
Module Sample.

Definition device_uuid : string := "abcdefghijklmnop".
Definition device_auth_key : string := "0123456789abcdef0123456789abcdef".

Definition connection : TuyaAPIConnection :=
  TuyaAPIConnection_init (H := Standin.libs) device_uuid device_auth_key None.

Definition random16 : bytes :=
  [x00; x11; x22; x33; x44; x55; x66; x77;
   x88; x99; xaa; xbb; xcc; xdd; xee; xff].

(** A hint of four bytes. *)
Definition short_hint : bytes := [x68; x69; x6e; x74].

Definition epoch : Z := 1700000000.

Definition data : dict :=
  build_data epoch "12345678" "keyabcdefghijklm" "1.0.0" "40.00" "1.0.2"
    "1.0.0" "2.2" false.

Definition args : run_args :=
  {| directory := "."; output_file_prefix := "device";
     arg_uuid := Some device_uuid; auth_key := Some device_auth_key;
     product_key := Some "keyabcdefghijklm"; firmware_key := None;
     software_version := Some "1.0.0"; baseline_version := Some "40.00";
     cad_version := Some "1.0.2"; cd_version := "1.0.0";
     protocol_version := "2.2"; token := Some "AZ12345678ABCD" |}.

Definition checked : settings :=
  {| set_uuid := device_uuid; set_auth_key := device_auth_key;
     set_software_version := "1.0.0"; set_cad_version := "1.0.2";
     set_baseline_version := "40.00" |}.

(** A server that gives the answers of a list, one for each request. *)
Definition scripted (connection : TuyaAPIConnection) (url : string)
    (params : gmap string pyval) (data : dict) (method : string)
  : M (list pyval) (pyval * TuyaAPIConnection) :=
  fun answers =>
    match answers with
    | r :: rest => (Ret (r, connection), rest)
    | [] => (Raise OSError, [])
    end.

(** No application broadcasts a token. *)
Definition no_token {W} : M W pyval := mret VNone.

Definition start {W} (w : W) : session W := {| world := w; calls := [] |}.

Definition not_exists : pyval :=
  VDict [("success", VBool false); ("errorCode", VStr "NOT_EXISTS")].

Definition expired : pyval :=
  VDict [("success", VBool false); ("errorCode", VStr "EXPIRE")].

Definition activated : pyval :=
  VDict [("success", VBool true);
         ("result", VDict [("schemaId", VStr "123"); ("schema", VStr "{}")])].

(** The call [run] makes on [args] with the flag [is_fk]. *)
Definition attempt (is_fk : bool) : call :=
  {| call_url := "http://a.tuyaus.com/d.json";
     call_params := build_params epoch device_uuid;
     call_data := build_data epoch "12345678" "keyabcdefghijklm" "1.0.0"
                    "40.00" "1.0.2" "1.0.0" "2.2" is_fk;
     call_method := "POST" |}.

(** The JSON text of a token, and frames around it: twelve bytes, the
    length field, the payload. *)
Definition token_text : string :=
  "{" +:+ dquote +:+ "token" +:+ dquote +:+ ":" +:+ dquote
  +:+ "AZ12345678ABCD" +:+ dquote +:+ "}".

Definition frame (length_field : byte) (payload : bytes) : bytes :=
  replicate 12 x00 ++ [x00; x00; x00; length_field] ++ payload.

(** Length field 34: the payload of 26 bytes ends at byte 42. *)
Definition good_frame : bytes := frame x22 (Standin.ascii_encode token_text).

(** Length field 20: the payload is cut after 12 bytes. *)
Definition cut_frame : bytes := frame x14 (Standin.ascii_encode token_text).

Definition short_frame : bytes := [x01; x02; x03].

(** A peer that answers with a status line and no blank line. *)
Definition bad_gateway : peer :=
  {| connects := true; tls_hint := None; tls_completes := false;
     rand_data := random16; send_ok := true;
     recv_data := Some (Standin.ascii_encode "HTTP/1.1 502 Bad Gateway") |}.

Definition network : net := {| peers := [bad_gateway; bad_gateway]; sent := [] |}.

(** [args] with a firmware key as well. *)
Definition both_keys : run_args :=
  {| directory := "."; output_file_prefix := "device";
     arg_uuid := Some device_uuid; auth_key := Some device_auth_key;
     product_key := Some "keyabcdefghijklm";
     firmware_key := Some "fwkeyabcdefghijk";
     software_version := Some "1.0.0"; baseline_version := Some "40.00";
     cad_version := Some "1.0.2"; cd_version := "1.0.0";
     protocol_version := "2.2"; token := Some "AZ12345678ABCD" |}.

(** [args] with an authKey of 16 characters. *)
Definition short_auth_key : run_args :=
  {| directory := "."; output_file_prefix := "device";
     arg_uuid := Some device_uuid; auth_key := Some "0123456789abcdef";
     product_key := Some "keyabcdefghijklm"; firmware_key := None;
     software_version := Some "1.0.0"; baseline_version := Some "40.00";
     cad_version := Some "1.0.2"; cd_version := "1.0.0";
     protocol_version := "2.2"; token := Some "AZ12345678ABCD" |}.

(** The answer [{"a":"b"}] as text, and encrypted with the stand-in
    block function under the first 16 bytes of [device_auth_key]. *)
Definition answer_text : string :=
  "{" +:+ dquote +:+ "a" +:+ dquote +:+ ":" +:+ dquote +:+ "b" +:+ dquote
  +:+ "}".

Definition answer_ciphertext : bytes :=
  [x4b; x13; x53; x11; x0e; x17; x54; x15;
   x45; x3e; x66; x65; x64; x63; x62; x61].

(** A peer that takes the request and answers with [answer_ciphertext]
    in base64 under ["result"]. *)
Definition answering : peer :=
  {| connects := true; tls_hint := None; tls_completes := false;
     rand_data := random16; send_ok := true;
     recv_data :=
       Some (Standin.ascii_encode
               ("HTTP/1.1 200 OK" +:+ CRLF +:+ CRLF +:+ "{" +:+ dquote
                +:+ "result" +:+ dquote +:+ ":" +:+ dquote
                +:+ "SxNTEQ4XVBVFPmZlZGNiYQ==" +:+ dquote +:+ "}")) |}.

Definition denied : pyval :=
  VDict [("success", VBool false); ("errorCode", VStr "PERMISSION_DENIED")].

(** [both_keys] without a uuid. *)
Definition no_uuid : run_args :=
  {| directory := "."; output_file_prefix := "device";
     arg_uuid := None; auth_key := Some device_auth_key;
     product_key := Some "keyabcdefghijklm";
     firmware_key := Some "fwkeyabcdefghijk";
     software_version := Some "1.0.0"; baseline_version := Some "40.00";
     cad_version := Some "1.0.2"; cd_version := "1.0.0";
     protocol_version := "2.2"; token := Some "AZ12345678ABCD" |}.

(** Two directories of files: ["dump"] holds a uuid, an authKey, a
    product key and a software version; ["stale"] holds the same files
    and a second uuid file, whose text ends with a line break. *)
Definition dump_listing : list string :=
  ["dev_uuid.txt"; "dev_auth_key.txt"; "dev_product_key.txt"; "dev_swv.txt";
   "notes.md"].

Definition stale_listing : list string := dump_listing ++ ["old_uuid.txt"].

Definition folder : files :=
  {| listdir := fun d =>
       if decide (d = "dump") then inr dump_listing
       else if decide (d = "stale") then inr stale_listing
       else inl OSError;
     read_text := fun _ file =>
       if decide (file = "dev_uuid.txt") then inr device_uuid
       else if decide (file = "dev_auth_key.txt") then inr device_auth_key
       else if decide (file = "dev_product_key.txt") then inr "keyabcdefghijklm"
       else if decide (file = "dev_swv.txt") then inr "1.0.0"
       else if decide (file = "old_uuid.txt")
            then inr (device_uuid +:+ String newline EmptyString)
       else inl OSError |}.

(** The command line of the usage text, and one with ten entries. *)
Definition usage_argv : list string :=
  ["pull_schema.py"; "--input"; device_uuid; device_auth_key;
   "keyabcdefghijklm"; ""; "1.0.0"; "40.00"; "AZ12345678ABCD"].

Definition long_argv : list string :=
  ["pull_schema.py"; "--input"; device_uuid; device_auth_key;
   "keyabcdefghijklm"; ""; "1.0.0"; "1.0.2"; "40.00"; "AZ12345678ABCD"].

(** A failure without an error code. *)
Definition bare_failure : pyval := VDict [("success", VBool false)].

(** Two query parameters, inserted out of order. *)
Definition two_params : gmap string pyval :=
  <["b" := VInt 2]> (<["a" := VStr "1"]> ∅).

End Sample.

(** * Properties *)

(** ** Python helpers *)

Example bytes_split_ex :
  bytes_split CRLFCRLF ([x41; x0d; x0a; x0d; x0a; x42; x43] ++ CRLFCRLF)
  = [[x41]; [x42; x43]; []].
Proof. reflexivity. Qed.

Example str_of_Z_ex : str_of_Z 1700000000 = "1700000000" /\ str_of_Z 0 = "0"
  /\ str_of_Z (-42) = "-42" /\ str_of_Z 1 = "1".
Proof. repeat split; vm_compute; reflexivity. Qed.

Example hex_ex : hex_of_bytes true [x00; xab; xff] = "00ABFF"
  /\ hex_of_bytes false [x00; xab; xff] = "00abff"
  /\ bytes_fromhex "00ABff" = Some [x00; xab; xff].
Proof. repeat split; vm_compute; reflexivity. Qed.

Example str_replace_ex : str_replace "&" "||" "a=1&b=2&c" = "a=1||b=2||c".
Proof. reflexivity. Qed.

Example str_strip_ex : str_strip (" " +:+ CRLF +:+ "ab c" +:+ CRLF) = "ab c".
Proof. reflexivity. Qed.

Lemma last_n_short {A} n (x : list A) : (length x <= n)%nat -> last_n n x = x.
Proof.
  intros Hle. unfold last_n.
  by replace (length x - n)%nat with 0%nat by lia.
Qed.

Lemma replace_nul_cons_nonzero b l :
  b <> x00 -> replace_nul (b :: l) = b :: replace_nul l.
Proof. intros Hb. unfold replace_nul. simpl. by case_decide. Qed.

Lemma str_from_data (s : string) : str_from 5 ("data=" +:+ s) = s.
Proof. unfold str_from. simpl. apply string_of_list_ascii_of_string. Qed.

(** ** Hexadecimal text *)

Lemma hex_of_byte_lower b : forallb is_lower_hex (hex_of_byte false b) = true.
Proof. destruct b; reflexivity. Qed.

Lemma hex_of_bytes_lower data :
  Forall (fun a => is_lower_hex a = true)
    (list_ascii_of_string (hex_of_bytes false data)).
Proof.
  unfold hex_of_bytes. rewrite list_ascii_of_string_of_list_ascii.
  induction data as [|b data IH]; [constructor|].
  rewrite bind_cons. apply Forall_app. split; [|exact IH].
  apply Forall_forall. intros a Ha.
  pose proof (hex_of_byte_lower b) as Hb.
  rewrite forallb_forall in Hb. apply Hb. by apply list_elem_of_In.
Qed.

Lemma unhex_hex_byte b rest :
  unhex (hex_of_byte true b ++ rest) = (r ← unhex rest; Some (b :: r)).
Proof. destruct b; reflexivity. Qed.

Lemma bytes_fromhex_hex (data : bytes) :
  bytes_fromhex (hex_of_bytes true data) = Some data.
Proof.
  unfold bytes_fromhex, hex_of_bytes.
  rewrite list_ascii_of_string_of_list_ascii.
  induction data as [|b data IH]; [done|].
  rewrite bind_cons, unhex_hex_byte, IH. done.
Qed.

(** ** Padding *)

Lemma pad_spec (data : bytes) :
  exists n b, (1 <= n <= 16)%nat /\ Byte.to_nat b = n
    /\ ((length data + n) mod 16 = 0)%nat
    /\ pad data 16 = Ret (data ++ replicate n b).
Proof.
  pose proof (Nat.mod_upper_bound (length data) 16 ltac:(lia)) as Hlt.
  pose proof (Nat.div_mod_eq (length data) 16) as Hdm.
  set (n := (16 - length data mod 16)%nat).
  destruct (Byte.of_nat n) as [b|] eqn:Hb.
  - exists n, b. split; [lia|]. split; [by apply Byte.to_of_nat|]. split.
    + replace (length data + n)%nat with ((length data / 16 + 1) * 16)%nat by lia.
      apply Nat.Div0.mod_mul.
    + unfold pad. fold n. by rewrite Hb.
  - apply Byte.of_nat_None_iff in Hb. lia.
Qed.

Lemma unpad_padded (data : bytes) n b :
  (1 <= n <= 16)%nat -> Byte.to_nat b = n ->
  ((length data + n) mod 16 = 0)%nat ->
  unpad (data ++ replicate n b) 16 = Ret data.
Proof.
  intros Hn Hb Hmod. unfold unpad.
  rewrite length_app, length_replicate.
  assert (last (data ++ replicate n b) = Some b) as ->.
  { destruct n as [|n]; [lia|].
    rewrite replicate_S_end, app_assoc. apply last_snoc. }
  rewrite Hb. unfold last_n, drop_last_n.
  rewrite length_app, length_replicate.
  replace (length data + n - n)%nat with (length data) by lia.
  rewrite drop_app_length, take_app_length.
  repeat case_decide; try done; lia.
Qed.

(** ** Electronic codebook mode over an invertible block function *)

Section Ecb.
Variables enc dec : bytes -> bytes.
Hypothesis enc_length : forall b, length b = 16%nat -> length (enc b) = 16%nat.
Hypothesis dec_enc : forall b, length b = 16%nat -> dec (enc b) = b.

Lemma blocks_round n : forall data : bytes,
  length data = (16 * n)%nat ->
  length (blocks n data ≫= enc) = (16 * n)%nat
  /\ blocks n (blocks n data ≫= enc) ≫= dec = data.
Proof.
  induction n as [|n IH]; intros data Hlen.
  - destruct data; [done|simpl in Hlen; lia].
  - assert (length (take 16 data) = 16%nat) as Ht by (rewrite length_take; lia).
    destruct (IH (drop 16 data)) as [IHl IHr]; [rewrite length_drop; lia|].
    cbn [blocks]. rewrite bind_cons. split.
    + rewrite length_app, enc_length, IHl by done. lia.
    + cbn [blocks].
      rewrite take_app_length', drop_app_length' by (by rewrite enc_length).
      rewrite bind_cons, dec_enc, IHr by done. apply take_drop.
Qed.

Lemma ecb_round (data : bytes) :
  (length data mod 16 = 0)%nat ->
  exists ct, ecb enc data = Ret ct /\ ecb dec ct = Ret data.
Proof.
  intros Hmod.
  pose proof (Nat.div_mod_eq (length data) 16) as Hdm.
  destruct (blocks_round (length data / 16) data) as [Hl Hr]; [lia|].
  eexists. unfold ecb. split; [by rewrite decide_True by done|].
  rewrite Hl. rewrite decide_True by (rewrite Nat.mul_comm; apply Nat.Div0.mod_mul).
  rewrite Nat.mul_comm, Nat.div_mul by lia. by rewrite Hr.
Qed.
End Ecb.

(** ** The stand-in block function is an involution *)

Lemma xor_bits_twice a k : Standin.xor_bits (Standin.xor_bits a k) k = a.
Proof.
  destruct a as (a0 & a1 & a2 & a3 & a4 & a5 & a6 & a7).
  destruct k as (k0 & k1 & k2 & k3 & k4 & k5 & k6 & k7).
  unfold Standin.xor_bits.
  by rewrite !xorb_assoc, !xorb_nilpotent, !xorb_false_r.
Qed.

Lemma xor_byte_twice a k : Standin.xor_byte (Standin.xor_byte a k) k = a.
Proof.
  unfold Standin.xor_byte. rewrite Byte.to_bits_of_bits, xor_bits_twice.
  apply Byte.of_bits_to_bits.
Qed.

Lemma xor_bytes_length key data :
  length (Standin.xor_bytes key data) = length data.
Proof.
  revert key. induction data as [|d data IH]; intros [|k key]; simpl; auto.
Qed.

Lemma xor_bytes_twice key data :
  Standin.xor_bytes key (Standin.xor_bytes key data) = data.
Proof.
  revert key. induction data as [|d data IH]; intros [|k key]; simpl; auto.
  by rewrite xor_byte_twice, IH.
Qed.

Lemma ascii_encode_length s :
  length (Standin.ascii_encode s) = String.length s.
Proof.
  unfold Standin.ascii_encode, list_byte_of_string. rewrite length_map.
  induction s; simpl; congruence.
Qed.

(** ** Sorting the query parameters *)

#[local] Instance item_le_trans : Transitive item_le.
Proof. intros a b c. unfold item_le. apply transitivity. Qed.

#[local] Instance item_le_total : Total item_le.
Proof. intros a b. unfold item_le. apply total, _. Qed.

Lemma sorted_items_perm (params : gmap string pyval) :
  sorted_items params ≡ₚ map_to_list params.
Proof. apply merge_sort_Permutation. Qed.

Lemma strongly_sorted_strict (l : list (string * pyval)) :
  NoDup l.*1 -> StronglySorted item_le l -> StronglySorted key_before l.
Proof.
  induction l as [|x l IH]; intros Hnd Hs; [constructor|].
  apply StronglySorted_cons in Hs as [Hx Hs].
  apply NoDup_cons in Hnd as [Hnotin Hnd].
  constructor; [by apply IH|].
  apply Forall_forall. intros y Hy. split.
  - rewrite Forall_forall in Hx. by apply Hx.
  - intros Heq. apply Hnotin. rewrite Heq. by apply list_elem_of_fmap_2.
Qed.

Lemma sorted_items_strict (params : gmap string pyval) :
  StronglySorted key_before (sorted_items params).
Proof.
  apply strongly_sorted_strict.
  - rewrite sorted_items_perm. apply NoDup_fst_map_to_list.
  - apply StronglySorted_merge_sort; apply _.
Qed.

(** The order of the items is decided by the keys alone: whatever way
    they are sorted, the result is the same list. *)
Lemma key_before_unique (l1 l2 : list (string * pyval)) :
  StronglySorted key_before l1 -> StronglySorted key_before l2 ->
  l1 ≡ₚ l2 -> l1 = l2.
Proof.
  apply StronglySorted_unique_strong.
  intros x1 x2 _ _ [Hle Hne] [Hle' _]. destruct Hne.
  by apply (anti_symm String.le).
Qed.

(** ** Region of a token *)

(** The prefixes [run] knows: ["AZ"] gives ["us"], ["EU"] gives ["eu"],
    and a prefix other than ["AZ"], ["EU"] and ["AY"] ends the run with
    exit status 4. *)
Lemma region_of_known (t : string) :
  (str_slice 0 2 t = "AZ" -> region_of t = Ret "us")
  /\ (str_slice 0 2 t = "EU" -> region_of t = Ret "eu")
  /\ (str_slice 0 2 t <> "AZ" -> str_slice 0 2 t <> "EU" ->
      str_slice 0 2 t <> "AY" -> region_of t = SysExit 4).
Proof.
  unfold region_of. repeat split; intros; repeat case_decide; congruence.
Qed.

(** C1, at the token ["AY12345678ABCD"]: the region [run] goes on with
    is ["AY"], the two characters of the token, and not ["cn"]; the
    eight characters sent are ["12345678"]. *)
Theorem region_AY_stays_AY {W} (get_new_token : M W pyval) (s : session W) :
  region_of "AY12345678ABCD" = Ret "AY"
  /\ token_and_region get_new_token (Some "AY12345678ABCD") s
     = (Ret ("12345678", "AY"), s).
Proof. split; reflexivity. Qed.

(** ** PSK identity *)

Section PskIdentity.
Context `{Libs}.

Lemma init_id_v1_head self rand_data :
  init_id_v1 self rand_data
  = x01 :: replace_nul (rand_data ++ md5 (uuid self) ++ [x5f]
                        ++ md5 (authkey self)).
Proof.
  unfold init_id_v1. by rewrite <- app_comm_cons, replace_nul_cons_nonzero.
Qed.

(** No byte of an identity is NUL. *)
Lemma replace_nul_no_nul data : x00 ∉ replace_nul data.
Proof.
  unfold replace_nul. intros Hin.
  apply list_elem_of_fmap in Hin as (b & Hb & _).
  by case_decide.
Qed.

(** C2, amended: both derivations return the identity with its version
    byte.  [_psk_id_v1] returns the secret and the byte 0x01 followed by
    the NUL-substituted [r ‖ uuidHash ‖ '_' ‖ authHash]; [_psk_id_v2]
    returns the secret held and the byte 0x02 followed by the
    NUL-substituted [r ‖ uuidHash]. *)
Theorem psk_identity_with_version_byte self hint rand_data :
  let body1 :=
    replace_nul (rand_data ++ md5 (uuid self) ++ [x5f] ++ md5 (authkey self)) in
  let body2 := replace_nul (rand_data ++ sha256 (uuid self)) in
  _psk_id_v1 self hint rand_data
  = (secret ← aes_cbc_encrypt (md5 (last_n 16 hint)) (md5 body1)
                (take 32 body1);
     Ret ({| psk := secret; authkey := authkey self; uuid := uuid self |},
          (secret, x01 :: body1)))
  /\ _psk_id_v2 self hint rand_data = Ret (self, (psk self, x02 :: body2)).
Proof.
  split.
  - unfold _psk_id_v1. rewrite init_id_v1_head. reflexivity.
  - unfold _psk_id_v2. by rewrite <- app_comm_cons, replace_nul_cons_nonzero.
Qed.

(** C6, amended: [_psk_id_v1] rejects no hint.  The AES key is the MD5
    digest of the last 16 bytes of the hint when it has 16 bytes or
    more, and of the whole hint when it is shorter; the derivation then
    goes on as for any hint. *)
Theorem psk_v1_key_of_any_hint self hint rand_data :
  let init_id := init_id_v1 self rand_data in
  let key_input :=
    if decide (length hint < 16)%nat then hint
    else drop (length hint - 16) hint in
  length key_input = min 16 (length hint)
  /\ _psk_id_v1 self hint rand_data
     = (secret ← aes_cbc_encrypt (md5 key_input) (md5 (drop 1 init_id))
                   (slice 1 33 init_id);
        Ret ({| psk := secret; authkey := authkey self; uuid := uuid self |},
             (secret, init_id))).
Proof.
  cbv zeta. case_decide as Hlen.
  - split; [lia|]. unfold _psk_id_v1. by rewrite last_n_short by lia.
  - split; [rewrite length_drop; lia|]. reflexivity.
Qed.

End PskIdentity.

(** C2, as stated, fails: on the sample connection the identity
    [_psk_id_v1] returns starts with the version byte 0x01 and has 50
    bytes, one more than [init_id[1:]]; with a secret held, the
    identity [_psk_id_v2] returns starts with 0x02. *)
Lemma psk_identity_not_stripped :
  exists self secret identity identity2,
    _psk_id_v1 (H := Standin.libs) Sample.connection Sample.short_hint
      Sample.random16 = Ret (self, (secret, identity))
    /\ head identity = Some x01
    /\ length identity = 50%nat
    /\ length (drop 1 (init_id_v1 (H := Standin.libs) Sample.connection
                         Sample.random16)) = 49%nat
    /\ _psk_id_v2 (H := Standin.libs) self Sample.short_hint Sample.random16
       = Ret (self, (secret, identity2))
    /\ head identity2 = Some x02.
Proof.
  eexists _, _, _, _.
  split; [vm_compute; reflexivity|].
  repeat split; vm_compute; reflexivity.
Qed.

(** C6, as stated, fails: a hint of four bytes is accepted, and the
    derivation returns a secret and an identity. *)
Lemma psk_v1_accepts_short_hint :
  length Sample.short_hint = 4%nat
  /\ exists self secret identity,
       _psk_id_v1 (H := Standin.libs) Sample.connection Sample.short_hint
         Sample.random16 = Ret (self, (secret, identity)).
Proof.
  split; [reflexivity|]. eexists _, _, _. vm_compute. reflexivity.
Qed.

(** ** Signing the query string *)

Lemma str_app_assoc (a b c : string) : (a +:+ b) +:+ c = a +:+ (b +:+ c).
Proof.
  induction a as [|x a IH]; [done|].
  change (String x (a +:+ b) +:+ c = String x (a +:+ (b +:+ c))).
  change (String x ((a +:+ b) +:+ c) = String x (a +:+ (b +:+ c))).
  by rewrite IH.
Qed.

Lemma str_replace_app c t a b :
  str_replace c t (a +:+ b) = str_replace c t a +:+ str_replace c t b.
Proof.
  induction a as [|x a IH]; [done|].
  change (String x a +:+ b) with (String x (a +:+ b)).
  cbn [str_replace]. rewrite IH. case_decide; [by rewrite str_app_assoc|done].
Qed.

Lemma str_replace_free c t s :
  c ∉ list_ascii_of_string s -> str_replace c t s = s.
Proof.
  induction s as [|x s IH]; [done|]. cbn [list_ascii_of_string str_replace].
  intros Hnot. apply not_elem_of_cons in Hnot as [Hx Hs].
  rewrite decide_False by done. by rewrite IH.
Qed.

Lemma str_replace_join pieces :
  Forall amp_free pieces ->
  str_replace "&" "||" (str_join "&" pieces) = str_join "||" pieces.
Proof.
  induction pieces as [|p [|q rest] IH]; intros Hfree; [done|..].
  - apply Forall_cons in Hfree as [Hp _]. by apply str_replace_free.
  - apply Forall_cons in Hfree as [Hp Hrest].
    change (str_join "&" (p :: q :: rest))
      with (p +:+ "&" +:+ str_join "&" (q :: rest)).
    change (str_join "||" (p :: q :: rest))
      with (p +:+ "||" +:+ str_join "||" (q :: rest)).
    rewrite !str_replace_app, IH by done.
    by rewrite str_replace_free by done.
Qed.

Lemma amp_pieces (s : string) :
  exists p ps, Forall amp_free (p :: ps) /\ s = str_join "&" (p :: ps).
Proof.
  induction s as [|x s (p & ps & Hfree & ->)].
  { exists "", []. split; [|done]. repeat constructor. unfold amp_free.
    apply not_elem_of_nil. }
  destruct (decide (x = "&"%char)) as [->|Hx].
  - exists "", (p :: ps). split; [|done]. constructor; [|done].
    apply not_elem_of_nil.
  - apply Forall_cons in Hfree as [Hp Hps].
    exists (String x p), ps. split.
    + constructor; [|done]. unfold amp_free. cbn [list_ascii_of_string].
      apply not_elem_of_cons. split; [congruence|done].
    + by destruct ps.
Qed.

Lemma pos_digits_free fuel : forall n acc,
  "&"%char ∉ acc -> "&"%char ∉ pos_digits fuel n acc.
Proof.
  induction fuel as [|fuel IH]; intros n acc Hacc; [done|].
  cbn [pos_digits].
  assert ("&"%char ∉ ascii_of_N (48 + n mod 10) :: acc) as Hnext.
  { apply not_elem_of_cons. split; [|done].
    intros Heq. pose proof (N.mod_upper_bound n 10 ltac:(lia)) as Hlt.
    assert (N_of_ascii (ascii_of_N (48 + n mod 10)) = 48 + n mod 10)%N as Hn
      by (apply N_ascii_embedding; lia).
    rewrite <- Heq in Hn. change (N_of_ascii "&") with 38%N in Hn.
    clear -Hn. revert Hn. generalize (n `mod` 10)%N. intros m Hn. lia. }
  destruct (n / 10 =? 0)%N; [done|]. by apply IH.
Qed.

Lemma str_of_Z_free z : amp_free (str_of_Z z).
Proof.
  unfold amp_free, str_of_Z. rewrite list_ascii_of_string_of_list_ascii.
  assert ("&"%char ∉ pos_digits (S (N.to_nat (N.log2 (Z.abs_N z))))
                        (Z.abs_N z) []) as Hd.
  { apply pos_digits_free, not_elem_of_nil. }
  destruct (z <? 0); [|done]. apply not_elem_of_cons. split; [done|done].
Qed.

Section Signing.
Context `{Libs}.

(** C3: the query string is ["?"], the pairs [key=value] joined with
    ["&"] in strictly ascending order of the keys, and ["&sign="] with
    the lowercase hexadecimal MD5 digest of the signature input: the
    joined text with ["||"] in the place of every ["&"], that is, its
    pieces between the ["&"] joined with ["||"], and ["||<authKey>"]
    appended.  When no pair has a ["&"] in it, the input is the pairs
    joined with ["||"]. *)
Theorem build_querystring_sorted_signed self (params : gmap string pyval)
    auth_text :
  utf8_decode (authkey self) = Some auth_text ->
  let items := sorted_items params in
  let pairs := (fun kv => kv.1 +:+ "=" +:+ py_str kv.2) <$> items in
  let query := str_join "&" pairs in
  items ≡ₚ map_to_list params
  /\ StronglySorted key_before items
  /\ (forall l, l ≡ₚ map_to_list params -> StronglySorted key_before l ->
      l = items)
  /\ (exists pieces signature,
        Forall amp_free pieces
        /\ query = str_join "&" pieces
        /\ signature
           = hex_of_bytes false
               (md5 (utf8_encode (str_join "||" pieces)
                     ++ utf8_encode ("||" +:+ auth_text)))
        /\ Forall (fun a => is_lower_hex a = true)
             (list_ascii_of_string signature)
        /\ _build_querystring self params
           = Ret ("?" +:+ query +:+ "&sign=" +:+ signature))
  /\ (Forall amp_free pairs ->
      _build_querystring self params
      = Ret ("?" +:+ query +:+ "&sign="
             +:+ hex_of_bytes false
                   (md5 (utf8_encode (str_join "||" pairs)
                         ++ utf8_encode ("||" +:+ auth_text))))).
Proof.
  intros Hdec items pairs query. split; [apply sorted_items_perm|].
  split; [apply sorted_items_strict|]. split.
  { intros l Hl Hs. apply key_before_unique; [done|apply sorted_items_strict|].
    etrans; [exact Hl|symmetry; apply sorted_items_perm]. }
  assert (forall pieces, Forall amp_free pieces -> query = str_join "&" pieces ->
            _build_querystring self params
            = Ret ("?" +:+ query +:+ "&sign="
                   +:+ hex_of_bytes false
                         (md5 (utf8_encode (str_join "||" pieces)
                               ++ utf8_encode ("||" +:+ auth_text)))))
    as Hsign.
  { intros pieces Hfree Hq. unfold _build_querystring. rewrite Hdec.
    cbn [or_raise mbind outcome_bind]. cbv zeta.
    change (str_join "&" _) with query.
    assert (str_replace "&" "||" query = str_join "||" pieces) as ->;
      [|done].
    rewrite Hq. by apply str_replace_join. }
  split.
  - destruct (amp_pieces query) as (p & ps & Hfree & Hq).
    eexists (p :: ps), _. split; [done|]. split; [done|].
    split; [reflexivity|]. split; [apply hex_of_bytes_lower|].
    by apply Hsign.
  - intros Hfree. by apply Hsign.
Qed.

End Signing.

(** C3 on two parameters, with a digest of all the bytes: the
    signature is that of ["a=1||b=2||<authKey>"]. *)
Lemma build_querystring_sample :
  _build_querystring (H := Standin.folding) Sample.connection Sample.two_params
  = Ret "?a=1&b=2&sign=613d317c7c623d327c7c000000000000".
Proof.
  etrans.
  - apply (build_querystring_sorted_signed (H := Standin.folding)
             Sample.connection Sample.two_params Sample.device_auth_key
             eq_refl).
    replace (sorted_items Sample.two_params)
      with [("a", VStr "1"); ("b", VInt 2)] by (vm_compute; reflexivity).
    repeat constructor; apply (bool_decide_unpack _); vm_compute; exact I.
  - vm_compute. reflexivity.
Defined.

(** ** Encrypting and decrypting the body *)

Section Codec.
Context `{Libs}.

(** C4: with a block function that [aes_decrypt_block] inverts, and an
    authKey of 32 characters, decrypting and unpadding the bytes that
    the hexadecimal text after ["data="] stands for gives back the
    compact JSON text of the body. *)
Theorem decrypt_encrypt_round_trip (uuid auth_key : string)
    (psk : option string) (data : dict) :
  (forall key block, length key = 16%nat -> length block = 16%nat ->
     length (aes_encrypt_block key block) = 16%nat
     /\ aes_decrypt_block key (aes_encrypt_block key block) = block) ->
  (forall s, (String.length s <= length (utf8_encode s))%nat) ->
  String.length auth_key = 32%nat ->
  let self := TuyaAPIConnection_init uuid auth_key psk in
  exists ciphertext,
    _encrypt_data self data = Ret ("data=" +:+ hex_of_bytes true ciphertext)
    /\ bytes_fromhex (str_from 5 ("data=" +:+ hex_of_bytes true ciphertext))
       = Some ciphertext
    /\ _decrypt_data self ciphertext
       = Ret (utf8_encode (json_dumps (VDict data))).
Proof.
  intros Haes Hutf Hlen self.
  set (key := take 16 (authkey self)).
  assert (length key = 16%nat) as Hkey.
  { unfold key, self. simpl. rewrite length_take.
    specialize (Hutf auth_key). lia. }
  assert (_build_cipher self = Ret key) as Hcipher.
  { unfold _build_cipher. fold key. rewrite decide_True; [done|by left]. }
  destruct (pad_spec (utf8_encode (json_dumps (VDict data))))
    as (n & b & Hn & Hb & Hmod & Hpad).
  destruct (ecb_round (aes_encrypt_block key) (aes_decrypt_block key)
              (fun blk Hblk => proj1 (Haes key blk Hkey Hblk))
              (fun blk Hblk => proj2 (Haes key blk Hkey Hblk))
              (utf8_encode (json_dumps (VDict data)) ++ replicate n b))
    as (ct & Henc & Hdec).
  { by rewrite length_app, length_replicate. }
  exists ct. split; [|split].
  - unfold _encrypt_data. rewrite Hpad. simpl. rewrite Hcipher. simpl.
    rewrite Henc. done.
  - rewrite str_from_data. apply bytes_fromhex_hex.
  - unfold _decrypt_data. rewrite Hcipher. simpl. rewrite Hdec. simpl.
    by apply unpad_padded.
Qed.

End Codec.

(** C4 on the sample body, with the stand-in block function. *)
Lemma decrypt_encrypt_sample :
  exists ciphertext,
    _encrypt_data (H := Standin.libs) Sample.connection Sample.data
    = Ret ("data=" +:+ hex_of_bytes true ciphertext)
    /\ _decrypt_data (H := Standin.libs) Sample.connection ciphertext
       = Ret (Standin.ascii_encode (Standin.print_val true (VDict Sample.data))).
Proof.
  destruct (decrypt_encrypt_round_trip (H := Standin.libs)
              Sample.device_uuid Sample.device_auth_key None Sample.data)
    as (ct & Henc & _ & Hdec).
  - intros key block _ Hblock. split; [|apply xor_bytes_twice].
    simpl. by rewrite xor_bytes_length.
  - intros s. simpl. by rewrite ascii_encode_length.
  - reflexivity.
  - exists ct. split; assumption.
Defined.

(** ** The trace of a run: how calls add up *)

Section Trace.
Context {W : Type}.
Implicit Types P : call -> Prop.

Lemma orderly_nil {A} (r : outcome A) : orderly [] r.
Proof. intros i c e Hi. by rewrite lookup_nil in Hi. Qed.

Lemma orderly_ret_answered {A} l (a : A) c e :
  orderly l (Ret a) -> (c, e) ∈ l -> answered e = true.
Proof.
  intros Ho Hin. apply list_elem_of_lookup in Hin as [i Hi].
  destruct (answered e) eqn:He; [done|].
  by destruct (Ho i c e Hi He) as [_ Hend]; destruct e.
Qed.

Lemma orderly_app {A B} l1 l2 (a : A) (r : outcome B) :
  orderly l1 (Ret a) -> orderly l2 r -> orderly (l1 ++ l2) r.
Proof.
  intros H1 H2 i c e Hi He.
  apply lookup_app_Some in Hi as [Hi|[Hge Hi]].
  - assert (answered e = true) as Ht.
    { eapply orderly_ret_answered; [done|]. by eapply list_elem_of_lookup_2. }
    congruence.
  - destruct (H2 _ _ _ Hi He) as [Hlen Hend]. split; [|done].
    rewrite length_app. lia.
Qed.

Lemma extends_lift {A} P (o : outcome A) : extends (W := W) P (lift o).
Proof.
  intros s. exists []. rewrite app_nil_r.
  split; [done|]. split; [constructor|apply orderly_nil].
Qed.

Lemma extends_ret {A} P (a : A) : extends (W := W) P (mret a).
Proof. apply (extends_lift P (Ret a)). Qed.

Lemma extends_in_world {A} P (m : M W A) : extends P (in_world m).
Proof.
  intros s. exists []. rewrite app_nil_r. unfold in_world.
  destruct (m (world s)) as [r w]. simpl.
  split; [done|]. split; [constructor|apply orderly_nil].
Qed.

Lemma extends_bind {A B} P (m : M (session W) A) (k : A -> M (session W) B) :
  extends P m -> (forall a, extends P (k a)) -> extends P (m ≫= k).
Proof.
  intros Hm Hk s. destruct (Hm s) as (l1 & Hc1 & HP1 & Ho1).
  unfold mbind, M_bind. destruct (m s) as [[a|code|e] s1] eqn:Hms; simpl in *.
  - destruct (Hk a s1) as (l2 & Hc2 & HP2 & Ho2).
    exists (l1 ++ l2). rewrite Hc2, Hc1, app_assoc.
    split; [done|]. split; [by apply Forall_app|by eapply orderly_app].
  - exists l1. split; [done|]. split; [done|].
    intros i c e' Hi He. destruct (Ho1 i c e' Hi He) as [? Hend].
    split; [done|]. by destruct e'.
  - exists l1. split; [done|]. split; [done|].
    intros i c e' Hi He. destruct (Ho1 i c e' Hi He) as [? Hend].
    split; [done|]. by destruct e'.
Qed.

Lemma extends_weaken {A} P Q (m : M (session W) A) :
  (forall c, P c -> Q c) -> extends P m -> extends Q m.
Proof.
  intros HPQ Hm s. destruct (Hm s) as (l & Hc & HP & Ho).
  exists l. split; [done|]. split; [|done].
  eapply Forall_impl; [done|]. naive_solver.
Qed.

Variable request : TuyaAPIConnection -> string -> gmap string pyval ->
                   dict -> string -> M W (pyval * TuyaAPIConnection).

Lemma extends_request P connection url params data method :
  P {| call_url := url; call_params := params; call_data := data;
       call_method := method |} ->
  extends P (traced_request request connection url params data method).
Proof.
  intros HP s. unfold traced_request.
  destruct (request connection url params data method (world s)) as [r w].
  eexists [_]. simpl. split; [done|]. split; [by repeat constructor|].
  intros [|i] c e Hi He; simplify_eq/=.
  split; [done|]. by destruct r as [[]| |].
Qed.

Lemma extends_attempts P connection url params data is_fk :
  (forall fk, P {| call_url := url; call_params := params;
                   call_data := data fk; call_method := "POST" |}) ->
  extends P (attempts request connection url params data is_fk).
Proof.
  intros HP. unfold attempts.
  apply extends_bind; [by apply extends_request|]. intros [response conn].
  apply extends_bind; [apply extends_lift|]. intros [|].
  - by apply extends_request.
  - apply extends_ret.
Qed.

End Trace.

(** ** The orchestrator on given answers *)

Lemma py_eq_bool_exclusive v b : py_eq_bool v b = true -> py_eq_bool v (negb b) = false.
Proof.
  destruct v; simpl; try done; intros Hb%bool_decide_eq_true;
    apply bool_decide_eq_false; destruct b; simpl in *; subst; try done; lia.
Qed.

Lemma py_in_strs_str code l :
  py_in_strs (VStr code) l = bool_decide (code ∈ l).
Proof.
  unfold py_in_strs. induction l as [|x l IH]; [done|].
  cbn [existsb py_eq_str]. rewrite IH.
  apply eq_true_iff_eq. rewrite orb_true_iff, !bool_decide_eq_true.
  rewrite elem_of_cons. naive_solver.
Qed.

Section Scenario.
Context `{Libs} {W : Type}.
Variable request : TuyaAPIConnection -> string -> gmap string pyval ->
                   dict -> string -> M W (pyval * TuyaAPIConnection).
Variable get_new_token : M W pyval.

Lemma run_reaches_activation epoch a v tok region (s0 s1 : session W) :
  validate a = Ret v ->
  token_and_region get_new_token (token a) s0 = (Ret (tok, region), s1) ->
  run request get_new_token epoch a s0
  = (activation request epoch a v tok region ≫= fun response => lift (conclude response)) s1.
Proof.
  intros Hval Htok. unfold run. rewrite Hval.
  unfold mbind at 1, M_bind at 1, lift at 1.
  unfold mbind at 1, M_bind at 1. by rewrite Htok.
Qed.

Lemma bind_ret_eq {S A B} (m : M S A) (k : A -> M S B) s a s' :
  m s = (Ret a, s') -> (m ≫= k) s = k a s'.
Proof. intros Hm. unfold mbind, M_bind. by rewrite Hm. Qed.

Lemma bind_cong {S A B} (m m' : M S A) (k : A -> M S B) s s' :
  m s = m' s' -> (m ≫= k) s = (m' ≫= k) s'.
Proof. intros Hm. unfold mbind, M_bind. by rewrite Hm. Qed.

Lemma bind_lift_ret {S A B} (o : outcome A) (k : A -> M S B) s a :
  o = Ret a -> (lift o ≫= k) s = k a s.
Proof. by intros ->. Qed.

Lemma attempts_once connection url params data is_fk (s : session W) r conn w :
  request connection url params (data is_fk) "POST" (world s) = (Ret (r, conn), w) ->
  continue_after r = Ret false ->
  attempts request connection url params data is_fk s
  = (Ret (r, conn),
     {| world := w;
        calls := calls s ++ [({| call_url := url; call_params := params;
                                 call_data := data is_fk;
                                 call_method := "POST" |}, Answered r)] |}).
Proof.
  intros Hreq Hcont. unfold attempts.
  erewrite bind_ret_eq; [|unfold traced_request; by rewrite Hreq].
  cbv beta iota. by rewrite (bind_lift_ret _ _ _ _ Hcont).
Qed.

Lemma attempts_twice connection url params data is_fk (s : session W) r conn w :
  request connection url params (data is_fk) "POST" (world s) = (Ret (r, conn), w) ->
  continue_after r = Ret true ->
  attempts request connection url params data is_fk s
  = traced_request request conn url params (data (negb is_fk)) "POST"
      {| world := w;
         calls := calls s ++ [({| call_url := url; call_params := params;
                                  call_data := data is_fk;
                                  call_method := "POST" |}, Answered r)] |}.
Proof.
  intros Hreq Hcont. unfold attempts.
  erewrite bind_ret_eq; [|unfold traced_request; by rewrite Hreq].
  cbv beta iota. by rewrite (bind_lift_ret _ _ _ _ Hcont).
Qed.

Lemma continue_after_failed r s code :
  py_getitem r "success" = Ret s -> py_eq_bool s false = true ->
  py_getitem r "errorCode" = Ret (VStr code) ->
  continue_after r = Ret (bool_decide (code ∈ responseCodesToContinueAter))
  /\ none_or_failed_unexpired (Some r) = Ret (negb (bool_decide (code = "EXPIRE")))
  /\ conclude (Some r) = Ret (if bool_decide (code = "EXPIRE") then TokenExpired else Printed r).
Proof.
  intros Hs Hf Hc.
  pose proof (py_eq_bool_exclusive _ _ Hf) as Ht. simpl in Ht.
  split; [|split].
  - unfold continue_after. rewrite Hs. unfold mbind, outcome_bind.
    by rewrite Hf, Hc, py_in_strs_str.
  - simpl. rewrite Hs. simpl. rewrite Hf, Hc. done.
  - simpl. rewrite Hs. simpl. rewrite Ht, Hf, Hc. simpl.
    by case_bool_decide.
Qed.

(** C8: with a product key, when the first attempt is answered with
    [success] false and the error code ["EXPIRE"], the run reports the
    expired token after that one call: no attempt with the flag
    flipped and no attempt with a firmware key, configured or not. *)
Theorem expire_ends_after_one_attempt epoch a v tok region (s0 s1 : session W)
    pk rA sA connA wA :
  validate a = Ret v ->
  token_and_region get_new_token (token a) s0 = (Ret (tok, region), s1) ->
  product_key a = Some pk ->
  let connection := TuyaAPIConnection_init (set_uuid v) (set_auth_key v) None in
  let url := "http://a.tuya" +:+ region +:+ ".com/d.json" in
  let params := build_params epoch (set_uuid v) in
  let data :=
    build_data epoch tok pk (set_software_version v) (set_baseline_version v)
      (set_cad_version v) (cd_version a) (protocol_version a) in
  request connection url params (data false) "POST" (world s1)
  = (Ret (rA, connA), wA) ->
  py_getitem rA "success" = Ret sA ->
  py_eq_bool sA false = true ->
  py_getitem rA "errorCode" = Ret (VStr "EXPIRE") ->
  run request get_new_token epoch a s0
  = (Ret TokenExpired,
     {| world := wA;
        calls := calls s1
                 ++ [({| call_url := url; call_params := params;
                         call_data := data false; call_method := "POST" |},
                      Answered rA)] |}).
Proof.
  intros Hval Htok Hpk connection url params data HA Hs Hf Hc.
  destruct (continue_after_failed rA sA "EXPIRE" Hs Hf Hc) as (Hcont & Hfall & Hconc).
  change (bool_decide ("EXPIRE" ∈ responseCodesToContinueAter)) with false in Hcont.
  change (negb (bool_decide ("EXPIRE" = "EXPIRE"))) with false in Hfall.
  change (bool_decide ("EXPIRE" = "EXPIRE")) with true in Hconc.
  rewrite (run_reaches_activation _ _ _ _ _ _ _ Hval Htok).
  erewrite bind_ret_eq; [unfold lift; by rewrite Hconc|].
  unfold activation. rewrite Hpk. fold connection url params data.
  erewrite bind_ret_eq;
    [|erewrite bind_ret_eq; [|by apply attempts_once]; reflexivity].
  cbv beta iota. by rewrite (bind_lift_ret _ _ _ _ Hfall).
Qed.

(** C7: with a product key and no firmware key, when the first attempt
    (flag false) is answered with [success] false and the error code
    [code], the second attempt (same key, flag true) is made exactly
    when [code] is one of [responseCodesToContinueAter], and nothing
    else is called; when that second attempt is answered with success,
    the run saves its schema after these two calls. *)
Theorem flag_flip_retry epoch a v tok region (s0 s1 : session W)
    pk code rA sA connA wA :
  validate a = Ret v ->
  token_and_region get_new_token (token a) s0 = (Ret (tok, region), s1) ->
  product_key a = Some pk ->
  firmware_key a = None ->
  let connection := TuyaAPIConnection_init (set_uuid v) (set_auth_key v) None in
  let url := "http://a.tuya" +:+ region +:+ ".com/d.json" in
  let params := build_params epoch (set_uuid v) in
  let data :=
    build_data epoch tok pk (set_software_version v) (set_baseline_version v)
      (set_cad_version v) (cd_version a) (protocol_version a) in
  let attempt is_fk :=
    {| call_url := url; call_params := params; call_data := data is_fk;
       call_method := "POST" |} in
  request connection url params (data false) "POST" (world s1)
  = (Ret (rA, connA), wA) ->
  py_getitem rA "success" = Ret sA ->
  py_eq_bool sA false = true ->
  py_getitem rA "errorCode" = Ret (VStr code) ->
  calls (run request get_new_token epoch a s0).2
  = calls s1 ++ (attempt false, Answered rA)
    :: (if bool_decide (code ∈ responseCodesToContinueAter)
        then [(attempt true,
               call_end_of (request connA url params (data true) "POST" wA).1)]
        else [])
  /\ forall rB sB connB wB result schema_id schema,
       code ∈ responseCodesToContinueAter ->
       request connA url params (data true) "POST" wA = (Ret (rB, connB), wB) ->
       py_getitem rB "success" = Ret sB ->
       py_eq_bool sB true = true ->
       py_getitem rB "result" = Ret result ->
       py_getitem result "schemaId" = Ret (VStr schema_id) ->
       py_getitem result "schema" = Ret (VStr schema) ->
       run request get_new_token epoch a s0
       = (Ret (SchemaSaved schema_id schema),
          {| world := wB;
             calls := calls s1 ++ [(attempt false, Answered rA);
                                   (attempt true, Answered rB)] |}).
Proof.
  intros Hval Htok Hpk Hfk connection url params data attempt HA Hs Hf Hc.
  destruct (continue_after_failed rA sA code Hs Hf Hc) as (Hcont & Hfall & Hconc).
  rewrite (run_reaches_activation _ _ _ _ _ _ _ Hval Htok).
  unfold activation. rewrite Hpk, Hfk. fold connection url params data.
  split.
  - destruct (decide (code ∈ responseCodesToContinueAter)) as [Hin|Hin].
    + rewrite bool_decide_eq_true_2 in Hcont |- * by done.
      erewrite bind_cong;
        [|apply bind_cong, bind_cong; by apply attempts_twice].
      unfold traced_request, mbind, M_bind. cbn [world calls negb].
      destruct (request connA url params (data true) "POST" wA)
        as [[[rB connB]|c|e] wB]; cbn [fst snd call_end_of calls];
        try (by rewrite <- app_assoc).
      unfold lift.
      unfold mret, M_ret.
      destruct (none_or_failed_unexpired (Some rB)) as [[]|c|e];
        cbn [snd calls]; try (by rewrite <- app_assoc);
        by destruct (conclude (Some rB)); rewrite <- app_assoc.
    + rewrite bool_decide_eq_false_2 in Hcont |- * by done.
      erewrite bind_ret_eq.
      2:{ erewrite bind_ret_eq.
          2:{ erewrite bind_ret_eq; [|by apply attempts_once]. reflexivity. }
          cbv beta iota. rewrite (bind_lift_ret _ _ _ _ Hfall).
          destruct (negb _); reflexivity. }
      unfold lift. by rewrite Hconc.
  - intros rB sB connB wB result schema_id schema Hin HB HsB HtB Hres Hid Hsch.
    rewrite bool_decide_eq_true_2 in Hcont by done.
    pose proof (py_eq_bool_exclusive _ _ HtB) as HfB. simpl in HfB.
    erewrite bind_ret_eq.
    2:{ erewrite bind_ret_eq.
        2:{ erewrite bind_ret_eq.
            2:{ etrans; [by apply attempts_twice|].
                unfold traced_request. cbn [world calls negb]. rewrite HB.
                reflexivity. }
            reflexivity. }
        cbv beta iota. erewrite bind_lift_ret.
        2:{ simpl. rewrite HsB. simpl. by rewrite HfB. }
        reflexivity. }
    unfold lift. simpl. rewrite HsB. simpl. rewrite HtB, Hres. simpl.
    rewrite Hid. simpl. rewrite Hsch. simpl.
    by rewrite <- app_assoc.
Qed.
End Scenario.

(** C8 on the sample arguments, the server answering ["EXPIRE"]. *)
Lemma expire_sample :
  run (H := Standin.libs) Sample.scripted Sample.no_token Sample.epoch
    Sample.args (Sample.start [Sample.expired; Sample.activated])
  = (Ret TokenExpired,
     {| world := [Sample.activated];
        calls := [(Sample.attempt false, Answered Sample.expired)] |}).
Proof.
  apply (expire_ends_after_one_attempt (H := Standin.libs) Sample.scripted
           Sample.no_token Sample.epoch Sample.args Sample.checked
           "12345678" "us" (Sample.start [Sample.expired; Sample.activated])
           (Sample.start [Sample.expired; Sample.activated])
           "keyabcdefghijklm" Sample.expired (VBool false)
           (TuyaAPIConnection_init (H := Standin.libs) Sample.device_uuid
              Sample.device_auth_key None)
           [Sample.activated]); reflexivity.
Defined.

(** C7 on the sample arguments, the server answering ["NOT_EXISTS"]
    and then a schema. *)
Lemma flag_flip_sample :
  run (H := Standin.libs) Sample.scripted Sample.no_token Sample.epoch
    Sample.args (Sample.start [Sample.not_exists; Sample.activated])
  = (Ret (SchemaSaved "123" "{}"),
     {| world := [];
        calls := [(Sample.attempt false, Answered Sample.not_exists);
                  (Sample.attempt true, Answered Sample.activated)] |}).
Proof.
  apply (proj2 (flag_flip_retry (H := Standin.libs) Sample.scripted
           Sample.no_token Sample.epoch Sample.args Sample.checked
           "12345678" "us" (Sample.start [Sample.not_exists; Sample.activated])
           (Sample.start [Sample.not_exists; Sample.activated])
           "keyabcdefghijklm" "NOT_EXISTS" Sample.not_exists (VBool false)
           (TuyaAPIConnection_init (H := Standin.libs) Sample.device_uuid
              Sample.device_auth_key None)
           [Sample.activated] eq_refl eq_refl eq_refl eq_refl eq_refl eq_refl
           eq_refl eq_refl)
         Sample.activated (VBool true)
         (TuyaAPIConnection_init (H := Standin.libs) Sample.device_uuid
            Sample.device_auth_key None)
         [] (VDict [("schemaId", VStr "123"); ("schema", VStr "{}")])
         "123" "{}"); try reflexivity.
  apply (bool_decide_unpack _). vm_compute. exact I.
Defined.

(** ** The bodies of the requests of a run *)

Lemma build_data_fields epoch_time tok key sv bv cad cd pv is_fk :
  let d := build_data epoch_time tok key sv bv cad cd pv is_fk in
  dict_keys d = ["token"; "productKey"; "softVer"; "protocolVer";
                 "baselineVer"; "options"; "cadVer"; "cdVer"; "t"]
  /\ ("firmwareKey" ∉ dict_keys d)
  /\ dict_get "productKey" d = Some (VStr key)
  /\ dict_get "options" d = Some (VStr (options_text is_fk)).
Proof.
  cbv zeta. split; [reflexivity|]. split; [|split; reflexivity].
  change (dict_keys _) with ["token"; "productKey"; "softVer"; "protocolVer";
                 "baselineVer"; "options"; "cadVer"; "cdVer"; "t"].
  intros Hin. repeat (apply elem_of_cons in Hin as [Hin|Hin]; [discriminate|]).
  by apply elem_of_nil in Hin.
Qed.

Lemma build_data_other_fields epoch_time tok sv bv cad cd pv key is_fk key' is_fk' k :
  k <> "productKey" -> k <> "options" ->
  dict_get k (build_data epoch_time tok key sv bv cad cd pv is_fk)
  = dict_get k (build_data epoch_time tok key' sv bv cad cd pv is_fk').
Proof.
  intros Hk1 Hk2. unfold build_data. cbn [dict_get].
  repeat case_decide; congruence.
Qed.

Section RunTrace.
Context `{Libs} {W : Type}.
Variable request : TuyaAPIConnection -> string -> gmap string pyval ->
                   dict -> string -> M W (pyval * TuyaAPIConnection).
Variable get_new_token : M W pyval.

Lemma extends_nothing {A} (m : M (session W) A) s :
  extends (fun _ => False) m -> calls (m s).2 = calls s.
Proof.
  intros Hm. destruct (Hm s) as (l & Hc & HP & _).
  destruct l as [|ce l]; [by rewrite app_nil_r in Hc|].
  by apply Forall_cons in HP as [[] _].
Qed.

Lemma token_and_region_calls t s :
  calls (token_and_region get_new_token t s).2 = calls s.
Proof.
  apply extends_nothing. unfold token_and_region.
  apply extends_bind.
  - destruct t as [t|]; [case_decide|]; auto using extends_ret, extends_in_world.
  - intros [| | | |l|d]; try apply extends_lift.
    apply extends_bind; [apply extends_lift|]. intros region.
    case_decide; [apply extends_ret|apply extends_lift].
Qed.

Lemma extends_activation epoch a v tok region :
  validate a = Ret v ->
  extends (presents_key epoch a tok) (activation request epoch a v tok region).
Proof.
  intros Hval. unfold activation.
  apply extends_bind.
  - destruct (product_key a) as [pk|] eqn:Hpk; [|apply extends_ret].
    apply extends_bind; [|intros []; apply extends_ret].
    apply extends_attempts. intros fk. exists v, pk, fk. auto.
  - intros [response conn].
    apply extends_bind; [apply extends_lift|]. intros [|]; [|apply extends_ret].
    destruct (firmware_key a) as [fk|] eqn:Hfk; [|apply extends_ret].
    apply extends_bind; [|intros []; apply extends_ret].
    apply extends_attempts. intros is_fk. exists v, fk, is_fk. auto.
Qed.

Lemma run_trace epoch a (s : session W) :
  exists tok new_calls,
    calls (run request get_new_token epoch a s).2 = calls s ++ new_calls
    /\ Forall (fun ce => presents_key epoch a tok ce.1) new_calls
    /\ orderly new_calls (run request get_new_token epoch a s).1.
Proof.
  unfold run. destruct (validate a) as [v|c|e] eqn:Hval.
  2,3: exists "", []; rewrite app_nil_r; split; [done|];
       split; [constructor|apply orderly_nil].
  rewrite (bind_lift_ret _ _ _ _ eq_refl).
  pose proof (token_and_region_calls (token a) s) as Hcalls.
  destruct (token_and_region get_new_token (token a) s)
    as [[[tok region]|c|e] s1] eqn:Htok; simpl in Hcalls.
  - erewrite bind_ret_eq by done. cbv beta iota.
    destruct (extends_bind (presents_key epoch a tok)
                (activation request epoch a v tok region)
                (fun response => lift (conclude response))
                (extends_activation epoch a v tok region Hval)
                (fun _ => extends_lift _ _) s1) as (l & Hc & HP & Ho).
    exists tok, l. by rewrite <- Hcalls.
  - exists "", []. unfold mbind, M_bind. rewrite Htok, app_nil_r. simpl.
    split; [done|]. split; [constructor|apply orderly_nil].
  - exists "", []. unfold mbind, M_bind. rewrite Htok, app_nil_r. simpl.
    split; [done|]. split; [constructor|apply orderly_nil].
Qed.

End RunTrace.

(** ** The token frame listener *)

Lemma unpack_be32_Some data L :
  unpack_be32 data = Some L <->
  exists b0 b1 b2 b3,
    data = [b0; b1; b2; b3]
    /\ L = Z.of_N (Byte.to_N b0) * 256 ^ 3 + Z.of_N (Byte.to_N b1) * 256 ^ 2
           + Z.of_N (Byte.to_N b2) * 256 + Z.of_N (Byte.to_N b3).
Proof.
  split.
  - destruct data as [|b0 [|b1 [|b2 [|b3 [|]]]]]; try done.
    intros [= <-]. by exists b0, b1, b2, b3.
  - by intros (b0 & b1 & b2 & b3 & -> & ->).
Qed.

Lemma frame_split (msg header rest : bytes) b0 b1 b2 b3 :
  msg = header ++ b0 :: b1 :: b2 :: b3 :: rest -> length header = 12%nat ->
  slice 12 16 msg = [b0; b1; b2; b3]
  /\ forall n, slice 16 n msg = take (n - 16) rest.
Proof.
  intros -> Hlen. unfold slice. split.
  - by rewrite drop_app_length'.
  - intros n. f_equal.
    change (b0 :: b1 :: b2 :: b3 :: rest) with ([b0; b1; b2; b3] ++ rest).
    rewrite app_assoc. apply drop_app_length'. rewrite length_app, Hlen. done.
Qed.

Lemma frame_unsplit (msg : bytes) b0 b1 b2 b3 :
  slice 12 16 msg = [b0; b1; b2; b3] ->
  msg = take 12 msg ++ b0 :: b1 :: b2 :: b3 :: drop 16 msg
  /\ length (take 12 msg) = 12%nat.
Proof.
  unfold slice. intros Hs. change (16 - 12)%nat with 4%nat in Hs.
  assert (length (take 4 (drop 12 msg)) = 4%nat) as Hlen by by rewrite Hs.
  rewrite length_take, length_drop in Hlen. split; [|rewrite length_take; lia].
  rewrite <- (take_drop 12 msg) at 1. f_equal.
  rewrite <- (take_drop 4 (drop 12 msg)), drop_drop. by rewrite Hs.
Qed.

Section Frames.
Context `{Libs}.

Lemma frame_token_format msg token :
  frame_token msg = Ret token <->
  exists header b0 b1 b2 b3 rest text j,
    msg = header ++ b0 :: b1 :: b2 :: b3 :: rest
    /\ length header = 12%nat
    /\ utf8_decode
         (take (Z.to_nat (Z.of_N (Byte.to_N b0) * 256 ^ 3
                          + Z.of_N (Byte.to_N b1) * 256 ^ 2
                          + Z.of_N (Byte.to_N b2) * 256
                          + Z.of_N (Byte.to_N b3) + 8) - 16) rest)
       = Some text
    /\ json_loads text = Some j
    /\ py_getitem j "token" = Ret token.
Proof.
  unfold frame_token. split.
  - destruct (unpack_be32 (slice 12 16 msg)) as [L|] eqn:HL; [|done].
    apply unpack_be32_Some in HL as (b0 & b1 & b2 & b3 & Hs & ->).
    destruct (frame_unsplit _ _ _ _ _ Hs) as [Hmsg Hlen].
    destruct (frame_split _ _ _ _ _ _ _ Hmsg Hlen) as [_ Hpay].
    simpl. rewrite Hpay.
    destruct (utf8_decode _) as [text|] eqn:Htext; [|done]. simpl.
    destruct (json_loads text) as [j|] eqn:Hj; [|done]. simpl.
    intros Htok. by exists (take 12 msg), b0, b1, b2, b3, (drop 16 msg), text, j.
  - intros (header & b0 & b1 & b2 & b3 & rest & text & j
            & Hmsg & Hlen & Htext & Hj & Htok).
    destruct (frame_split _ _ _ _ _ _ _ Hmsg Hlen) as [Hs Hpay].
    rewrite Hs. simpl. rewrite Hpay.
    change (16777216) with (256 ^ 3). change 65536 with (256 ^ 2).
    rewrite Htext. simpl. by rewrite Hj.
Qed.

Lemma receive_token_skip ev rest :
  skipped_event ev -> receive_token (ev :: rest) = receive_token rest.
Proof.
  destruct ev as [cancel ev]. intros [Hc [Hev|(d & Hev & Hbad)]];
    simpl in *; subst; [done|].
  destruct (frame_token (take 255 d)) as [t|c|e] eqn:Ht; [|done..].
  by destruct (Hbad t).
Qed.

(** C9: a datagram yields a token exactly when bytes 12 to 15 exist and,
    read as a big-endian length [L], the bytes from 16 up to [L + 8]
    decode as UTF-8 to a JSON text that has a ["token"] member, whose
    value is the token; a datagram that fails at any of these stages,
    like a timeout, is passed over: the loop goes on to the next
    datagram, and is still listening when only such events came. *)
Theorem receive_token_frames :
  (forall msg token,
     frame_token msg = Ret token <->
     exists header b0 b1 b2 b3 rest text j,
       msg = header ++ b0 :: b1 :: b2 :: b3 :: rest
       /\ length header = 12%nat
       /\ utf8_decode
            (take (Z.to_nat (Z.of_N (Byte.to_N b0) * 256 ^ 3
                             + Z.of_N (Byte.to_N b1) * 256 ^ 2
                             + Z.of_N (Byte.to_N b2) * 256
                             + Z.of_N (Byte.to_N b3) + 8) - 16) rest)
          = Some text
       /\ json_loads text = Some j
       /\ py_getitem j "token" = Ret token)
  /\ (forall skipped d token rest,
        Forall skipped_event skipped ->
        frame_token (take 255 d) = Ret token ->
        receive_token (skipped ++ (false, Datagram d) :: rest)
        = Received token)
  /\ (forall skipped,
        Forall skipped_event skipped -> receive_token skipped = Listening).
Proof.
  split; [exact frame_token_format|]. split.
  - intros skipped d token rest Hsk Htok.
    induction Hsk as [|ev skipped Hev _ IH].
    + simpl. by rewrite Htok.
    + rewrite <- app_comm_cons. by rewrite receive_token_skip.
  - intros skipped Hsk. induction Hsk as [|ev skipped Hev _ IH]; [done|].
    by rewrite receive_token_skip.
Qed.
End Frames.

(** C9 on a timeout, a datagram of three bytes, a datagram whose length
    field cuts the JSON text short, and then a well-formed frame. *)
Lemma receive_token_sample :
  receive_token (H := Standin.libs)
    ([(false, RecvTimeout); (false, Datagram Sample.short_frame);
      (false, Datagram Sample.cut_frame)]
     ++ (false, Datagram Sample.good_frame) :: [(false, RecvTimeout)])
  = Received (VStr "AZ12345678ABCD").
Proof.
  apply (proj1 (proj2 (receive_token_frames (H := Standin.libs)))).
  - repeat apply Forall_cons_2; [| | |apply Forall_nil_2];
      (split; [reflexivity|]).
    + by left.
    + right. eexists. split; [reflexivity|]. intros t. vm_compute. discriminate.
    + right. eexists. split; [reflexivity|]. intros t. vm_compute. discriminate.
  - vm_compute. reflexivity.
Defined.

(** ** A request that fails *)

Lemma or_raise_not_exit {A} e (o : option A) : not_exit (or_raise e o).
Proof. by destruct o. Qed.

Lemma bind_not_exit {A B} (o : outcome A) (k : A -> outcome B) :
  not_exit o -> (forall a, not_exit (k a)) -> not_exit (o ≫= k).
Proof. destruct o; simpl; auto. Qed.

Lemma py_getitem_not_exit v k : not_exit (py_getitem v k).
Proof. destruct v; simpl; try done. apply or_raise_not_exit. Qed.

Lemma unpad_not_exit data n : not_exit (unpad data n).
Proof.
  unfold unpad. repeat case_decide; try done.
  destruct (last data); [|done]. repeat case_decide; done.
Qed.

Lemma ecb_not_exit f data : not_exit (ecb f data).
Proof. unfold ecb. by case_decide. Qed.

Section Failure.
Context `{Libs}.

Lemma decrypt_data_not_exit self data : not_exit (_decrypt_data self data).
Proof.
  unfold _decrypt_data. apply bind_not_exit.
  { unfold _build_cipher. by case_decide. }
  intros key. apply bind_not_exit; [apply ecb_not_exit|].
  intros d. apply unpad_not_exit.
Qed.

Lemma decode_response_not_exit self datas :
  not_exit (decode_response self datas).
Proof.
  unfold decode_response.
  apply bind_not_exit; [apply or_raise_not_exit|intros piece].
  apply bind_not_exit; [apply or_raise_not_exit|intros text].
  apply bind_not_exit; [apply or_raise_not_exit|intros envelope].
  apply bind_not_exit; [apply py_getitem_not_exit|intros result].
  apply bind_not_exit;
    [destruct result; try done; apply or_raise_not_exit|intros raw].
  apply bind_not_exit; [apply decrypt_data_not_exit|intros plain].
  apply bind_not_exit; [apply or_raise_not_exit|intros text'].
  apply or_raise_not_exit.
Qed.

(** Each stage of the decoding that fails raises. *)
Lemma decode_response_stages self datas :
  (bytes_split CRLFCRLF datas !! 1%nat = None ->
   decode_response self datas = Raise IndexError)
  /\ (forall piece, bytes_split CRLFCRLF datas !! 1%nat = Some piece ->
      utf8_decode piece = None ->
      decode_response self datas = Raise ValueError)
  /\ (forall piece text, bytes_split CRLFCRLF datas !! 1%nat = Some piece ->
      utf8_decode piece = Some text ->
      json_loads (str_strip text) = None ->
      decode_response self datas = Raise ValueError)
  /\ (forall piece text envelope,
      bytes_split CRLFCRLF datas !! 1%nat = Some piece ->
      utf8_decode piece = Some text ->
      json_loads (str_strip text) = Some envelope ->
      (forall e, py_getitem envelope "result" = Raise e ->
       decode_response self datas = Raise e)
      /\ (forall result raw, py_getitem envelope "result" = Ret (VStr result) ->
          (b64decode result = None ->
           decode_response self datas = Raise ValueError)
          /\ (b64decode result = Some raw ->
              forall e, _decrypt_data self raw = Raise e ->
              decode_response self datas = Raise e))).
Proof.
  unfold decode_response. split; [by intros ->|].
  split; [intros piece ->; simpl; by intros ->|].
  split; [intros piece text ->; simpl; intros ->; simpl; by intros ->|].
  intros piece text envelope ->. simpl. intros ->. simpl. intros ->. simpl.
  split.
  - by intros e ->.
  - intros result raw ->. simpl. split; [by intros ->|].
    intros ->. simpl. by intros e ->.
Qed.

Lemma try_exchange self hostname port sock http_request w :
  (send_ok sock = false \/ recv_data sock = None
   \/ exists d, recv_data sock = Some d
        /\ forall v, decode_response self (take 10000 d) <> Ret v) ->
  (try_except_exit3 (exchange self hostname port sock http_request) w).1
  = SysExit 3.
Proof.
  intros Hfail. unfold try_except_exit3, exchange, socket_send, socket_recv.
  unfold mbind, M_bind, lift.
  destruct (send_ok sock) eqn:Hsend; [|done].
  destruct (recv_data sock) as [d|] eqn:Hrecv; [|done]. cbn [fmap option_fmap option_map or_raise].
  destruct Hfail as [?|[?|(d' & [= <-] & Hbad)]]; try done.
  pose proof (decode_response_not_exit self (take 10000 d)) as Hne.
  destruct (decode_response self (take 10000 d)) as [v|c|e]; try done.
  by destruct (Hbad v).
Qed.

(** C5, amended: once the connection is made, a failure to send or to
    receive, and an answer that does not decode (no blank line, text
    that is not UTF-8 or not JSON, no ["result"], base64, decryption or
    padding that fails) end [request] with [sys.exit(3)]; and in a run
    the calls are orderly: a call that did not return is the last one
    and the run ends with its exit or its exception, so no later
    attempt is made. *)
Theorem failed_request_ends_run :
  (forall self url params data method w querystring body self' sock w1,
     _build_querystring self params = Ret querystring ->
     _encrypt_data self data = Ret body ->
     _make_socket self (hostname (urlparse url)) (port_of (urlparse url))
       (is_https (urlparse url)) w = (Ret (self', sock), w1) ->
     (send_ok sock = false \/ recv_data sock = None
      \/ exists d, recv_data sock = Some d
           /\ forall v, decode_response self' (take 10000 d) <> Ret v) ->
     (request self url params data method w).1 = SysExit 3)
  /\ (forall get_new_token epoch a (s : session net),
        exists new_calls,
          calls (run request get_new_token epoch a s).2 = calls s ++ new_calls
          /\ orderly new_calls (run request get_new_token epoch a s).1).
Proof.
  split.
  - intros self url params data method w querystring body self' sock w1
      Hq Hb Hsock Hfail.
    unfold request. rewrite Hq, Hb.
    rewrite (bind_lift_ret _ _ _ _ eq_refl).
    rewrite (bind_lift_ret _ _ _ _ eq_refl).
    erewrite bind_ret_eq by exact Hsock. cbv beta iota.
    by apply try_exchange.
  - intros get_new_token epoch a s.
    destruct (run_trace request get_new_token epoch a s)
      as (tok & l & Hc & _ & Ho).
    by exists l.
Qed.
End Failure.

(** C5, as stated, fails: with both keys configured and two peers
    ready, an answer without a blank line ends the whole run with exit
    status 3 after one call; the second peer is never contacted. *)
Lemma malformed_answer_ends_run :
  firmware_key Sample.both_keys = Some "fwkeyabcdefghijk"
  /\ (run (H := Standin.libs) (request (H := Standin.libs)) Sample.no_token
        Sample.epoch Sample.both_keys (Sample.start Sample.network)).1
     = SysExit 3
  /\ (calls (run (H := Standin.libs) (request (H := Standin.libs))
               Sample.no_token Sample.epoch Sample.both_keys
               (Sample.start Sample.network)).2).*2
     = [Exited 3]
  /\ peers (world (run (H := Standin.libs) (request (H := Standin.libs))
                     Sample.no_token Sample.epoch Sample.both_keys
                     (Sample.start Sample.network)).2)
     = [Sample.bad_gateway].
Proof. repeat split; vm_compute; reflexivity. Qed.

(** C5 on the sample connection and a peer that answers without a
    blank line. *)
Lemma failed_request_sample :
  (request (H := Standin.libs) Sample.connection "http://a.tuyaus.com/d.json"
     (build_params Sample.epoch Sample.device_uuid) Sample.data "POST"
     Sample.network).1
  = SysExit 3.
Proof.
  eapply (proj1 (failed_request_ends_run (H := Standin.libs))).
  - vm_compute. reflexivity.
  - vm_compute. reflexivity.
  - vm_compute. reflexivity.
  - right. right. eexists. split; [reflexivity|].
    intros v. vm_compute. discriminate.
Defined.

(** ** Further properties *)

Section Extras.
Context `{Libs}.

(** X1: no byte of the identity either derivation returns is NUL, and
    [_psk_id_v2] returns the secret held and leaves the object as it
    is. *)
Theorem psk_identity_without_nul self hint rand_data :
  match _psk_id_v1 self hint rand_data with
  | Ret (_, (_, identity)) => x00 ∉ identity
  | _ => True
  end
  /\ exists identity,
       _psk_id_v2 self hint rand_data = Ret (self, (psk self, identity))
       /\ x00 ∉ identity.
Proof.
  split.
  - unfold _psk_id_v1.
    destruct (aes_cbc_encrypt _ _ _); simpl; [|done..].
    apply replace_nul_no_nul.
  - eexists. split; [reflexivity|]. apply replace_nul_no_nul.
Qed.

Lemma require_outcome x ok :
  (exists s, require x ok = Ret s) \/ require x ok = SysExit 2.
Proof. destruct x as [s|]; simpl; [destruct (ok s)|]; eauto. Qed.

Lemma validate_outcome a :
  (exists v, validate a = Ret v) \/ validate a = SysExit 2.
Proof.
  unfold validate.
  assert (forall (o : outcome string),
            (exists s, o = Ret s) \/ o = SysExit 2 ->
            forall k : string -> outcome settings,
              (forall s, (exists v, k s = Ret v) \/ k s = SysExit 2) ->
              (exists v, o ≫= k = Ret v) \/ o ≫= k = SysExit 2) as Hbind.
  { intros o [[s ->]| ->] k Hk; simpl; auto. }
  apply Hbind.
  { destruct (arg_uuid a) as [u|]; [case_decide; eauto|]; apply require_outcome. }
  intros uuid. apply Hbind; [apply require_outcome|]. intros ak.
  case_bool_decide; simpl; [by right|].
  apply Hbind; [apply require_outcome|]. intros sv.
  apply Hbind; [apply require_outcome|]. intros cv.
  apply Hbind; [apply require_outcome|]. intros bv. eauto.
Qed.

(** X2: arguments that fail a check of [run] end the run through
    [print_and_exit], with status 2, before a token is looked for and
    before any request. *)
Theorem invalid_arguments_exit_before_any_call {W}
    (request : TuyaAPIConnection -> string -> gmap string pyval ->
               dict -> string -> M W (pyval * TuyaAPIConnection))
    (get_new_token : M W pyval) epoch a (s : session W) :
  (forall v, validate a <> Ret v) ->
  run request get_new_token epoch a s = (SysExit 2, s).
Proof.
  intros Hbad. unfold run.
  destruct (validate_outcome a) as [[v Hv]| ->]; [by destruct (Hbad v)|done].
Qed.
End Extras.

(** X2 on an authKey of 16 characters. *)
Lemma invalid_arguments_sample :
  run (H := Standin.libs) Sample.scripted Sample.no_token Sample.epoch
    Sample.short_auth_key (Sample.start [Sample.activated])
  = (SysExit 2, Sample.start [Sample.activated]).
Proof.
  apply (invalid_arguments_exit_before_any_call (H := Standin.libs)).
  intros v. vm_compute. discriminate.
Defined.

(** A run through all four attempts: the product key with the flag
    false and true, then the firmware key with the flag true and
    false, each key under ["productKey"]. *)
Example firmware_attempts_sample :
  let out :=
    run (H := Standin.libs) Sample.scripted Sample.no_token Sample.epoch
      Sample.both_keys
      (Sample.start [Sample.not_exists; Sample.not_exists; Sample.not_exists;
                     Sample.activated]) in
  out.1 = Ret (SchemaSaved "123" "{}")
  /\ (fun ce : call * call_end =>
        (dict_get "productKey" (call_data ce.1),
         dict_get "options" (call_data ce.1))) <$> calls out.2
     = [(Some (VStr "keyabcdefghijklm"), Some (VStr (options_text false)));
        (Some (VStr "keyabcdefghijklm"), Some (VStr (options_text true)));
        (Some (VStr "fwkeyabcdefghijk"), Some (VStr (options_text true)));
        (Some (VStr "fwkeyabcdefghijk"), Some (VStr (options_text false)))].
Proof. split; vm_compute; reflexivity. Qed.

(** ** The wire: secret, body, query string and transport *)

Section Wire.
Context `{Libs}.

(** X3: [_psk_and_pskid] derives the secret once.  On an object that
    holds no secret it runs the first derivation, which stores the
    secret; when that secret is not empty, every later call leaves the
    object as it is and returns the same secret, whatever the hint, with
    an identity of the second kind: the byte 0x02 and the NUL-substituted
    random bytes and SHA-256 digest of the uuid. *)
Theorem psk_secret_derived_once self hint rand_data self1 secret identity
    hint' rand_data' :
  psk self = [] ->
  _psk_and_pskid self hint rand_data = Ret (self1, (secret, identity)) ->
  secret <> [] ->
  identity = init_id_v1 self rand_data
  /\ self1 = {| psk := secret; authkey := authkey self; uuid := uuid self |}
  /\ _psk_and_pskid self1 hint' rand_data'
     = Ret (self1, (secret, x02 :: replace_nul (rand_data' ++ sha256 (uuid self)))).
Proof.
  intros Hpsk Hfirst Hne. unfold _psk_and_pskid in Hfirst.
  rewrite decide_True in Hfirst by done. unfold _psk_id_v1 in Hfirst.
  destruct (aes_cbc_encrypt _ _ _) as [new_psk| |]; simplify_eq/=.
  split; [done|]. split; [done|].
  unfold _psk_and_pskid. rewrite decide_False by done.
  unfold _psk_id_v2. cbn [psk uuid].
  by rewrite <- app_comm_cons, replace_nul_cons_nonzero.
Qed.

Lemma hex_of_byte_upper b : forallb is_upper_hex (hex_of_byte true b) = true.
Proof. destruct b; reflexivity. Qed.

Lemma hex_of_bytes_upper data :
  Forall (fun a => is_upper_hex a = true)
    (list_ascii_of_string (hex_of_bytes true data)).
Proof.
  unfold hex_of_bytes. rewrite list_ascii_of_string_of_list_ascii.
  induction data as [|b data IH]; [constructor|].
  rewrite bind_cons. apply Forall_app. split; [|exact IH].
  apply Forall_forall. intros a Ha.
  pose proof (hex_of_byte_upper b) as Hb.
  rewrite forallb_forall in Hb. apply Hb. by apply list_elem_of_In.
Qed.

Lemma string_of_list_ascii_length (l : list ascii) :
  String.length (string_of_list_ascii l) = length l.
Proof. induction l; simpl; congruence. Qed.

Lemma append_length (s t : string) :
  String.length (s +:+ t) = (String.length s + String.length t)%nat.
Proof.
  induction s as [|a s IH]; [done|].
  change (String a s +:+ t) with (String a (s +:+ t)). simpl. by rewrite IH.
Qed.

Lemma hex_of_bytes_length upper data :
  String.length (hex_of_bytes upper data) = (2 * length data)%nat.
Proof.
  unfold hex_of_bytes. rewrite string_of_list_ascii_length.
  induction data as [|b data IH]; [done|].
  rewrite bind_cons, length_app, IH. simpl. lia.
Qed.

Lemma blocks_length (f : bytes -> bytes) n : forall data : bytes,
  (forall b, length b = 16%nat -> length (f b) = 16%nat) ->
  length data = (16 * n)%nat ->
  length (blocks n data ≫= f) = (16 * n)%nat.
Proof.
  induction n as [|n IH]; intros data Hf Hlen; [done|].
  cbn [blocks]. rewrite bind_cons, length_app.
  rewrite Hf by (rewrite length_take; lia).
  rewrite IH; [lia|done|rewrite length_drop; lia].
Qed.

Lemma ecb_length (f : bytes -> bytes) data out :
  (forall b, length b = 16%nat -> length (f b) = 16%nat) ->
  ecb f data = Ret out ->
  (length data mod 16 = 0)%nat /\ length out = length data.
Proof.
  intros Hf. unfold ecb. case_decide as Hmod; [|done]. intros [= <-].
  split; [done|].
  pose proof (Nat.div_mod_eq (length data) 16) as Hdm.
  rewrite (blocks_length f (length data / 16)); [lia|done|lia].
Qed.

Lemma build_cipher_Ret self key :
  _build_cipher self = Ret key <->
  key = take 16 (authkey self) /\ (16 <= length (authkey self))%nat.
Proof.
  unfold _build_cipher. rewrite length_take. case_decide as Hk.
  - split; [intros [= <-]; split; [done|lia]|by intros [-> _]].
  - split; [done|]. intros [_ Hlen]. lia.
Qed.


(** [unpad] returns exactly on data that ends with its padding. *)
Lemma unpad_Ret (padded plain : bytes) :
  unpad padded 16 = Ret plain <->
  exists k b, (1 <= k <= 16)%nat /\ Byte.to_nat b = k
    /\ (length padded mod 16 = 0)%nat /\ padded = plain ++ replicate k b.
Proof.
  split.
  - unfold unpad. case_decide as H0; [done|]. case_decide as Hmod; [|done].
    destruct (last padded) as [b|] eqn:Hlast; [|done].
    case_decide as Hk; [done|]. case_decide as Hrep; [|done].
    intros [= <-]. exists (Byte.to_nat b), b.
    split; [lia|]. split; [done|]. split; [done|].
    unfold last_n, drop_last_n in *. by rewrite <- Hrep, take_drop.
  - intros (k & b & Hk & Hb & Hmod & ->). apply unpad_padded; try done.
    by rewrite length_app, length_replicate in Hmod.
Qed.

(** X6: with a block function that keeps the 16 bytes of a block,
    [_encrypt_data] raises [ValueError] when the authKey has fewer than
    16 bytes, and otherwise returns ["data="] followed by uppercase
    hexadecimal digits for [16 * (n / 16 + 1)] bytes, [n] being the
    length of the encoded JSON text: a body of [5 + 32 * (n / 16 + 1)]
    characters, never empty, so that [_build_request] always writes the
    two body headers, with that number as [Content-Length]. *)
Theorem encrypted_body_shape self data :
  (forall key block, length block = 16%nat ->
     length (aes_encrypt_block key block) = 16%nat) ->
  let n := length (utf8_encode (json_dumps (VDict data))) in
  ((length (authkey self) < 16)%nat ->
   _encrypt_data self data = Raise ValueError)
  /\ ((16 <= length (authkey self))%nat ->
      exists ciphertext,
        _encrypt_data self data = Ret ("data=" +:+ hex_of_bytes true ciphertext)
        /\ length ciphertext = (16 * (n / 16 + 1))%nat
        /\ Forall (fun a => is_upper_hex a = true)
             (list_ascii_of_string (hex_of_bytes true ciphertext))
        /\ String.length ("data=" +:+ hex_of_bytes true ciphertext)
           = (5 + 32 * (n / 16 + 1))%nat
        /\ forall method hostname requestline,
             _build_request method hostname requestline
               ("data=" +:+ hex_of_bytes true ciphertext)
             = utf8_encode
                 (method +:+ " " +:+ requestline +:+ " HTTP/1.1" +:+ CRLF
                  +:+ str_join CRLF
                        ["Host: " +:+ hostname; "User-Agent: TUYA_IOT_SDK";
                         "Connection: keep-alive";
                         "Content-Type: application/x-www-form-urlencoded; charset=UTF-8";
                         "Content-Length: "
                         +:+ str_of_Z (Z.of_nat (5 + 32 * (n / 16 + 1)))]
                  +:+ CRLF +:+ CRLF +:+ "data=" +:+ hex_of_bytes true ciphertext)).
Proof.
  intros Hblock n.
  destruct (pad_spec (utf8_encode (json_dumps (VDict data))))
    as (k & b & Hk & Hb & Hmod & Hpad).
  unfold _encrypt_data. rewrite Hpad. cbn [mbind outcome_bind].
  split.
  - intros Hlen. unfold _build_cipher. rewrite length_take.
    by rewrite decide_False by lia.
  - intros Hlen.
    assert (_build_cipher self = Ret (take 16 (authkey self))) as ->
      by by apply build_cipher_Ret.
    cbn [mbind outcome_bind].
    destruct (ecb (aes_encrypt_block (take 16 (authkey self)))
                (utf8_encode (json_dumps (VDict data)) ++ replicate k b))
      as [ct| |] eqn:Hecb.
    2,3: unfold ecb in Hecb; rewrite decide_True in Hecb
           by (by rewrite length_app, length_replicate); done.
    apply ecb_length in Hecb as [_ Hct]; [|by apply Hblock].
    rewrite length_app, length_replicate in Hct. fold n in Hct, Hmod.
    assert (length ct = (16 * (n / 16 + 1))%nat) as Hlenct.
    { pose proof (Nat.div_mod_eq n 16) as Hdm.
      pose proof (Nat.mod_upper_bound n 16 ltac:(lia)) as Hlt.
      pose proof (Nat.div_mod_eq (n + k) 16) as Hdm'.
      rewrite Hmod in Hdm'.
      assert ((n + k) / 16 = n / 16 + 1)%nat; [|lia].
      symmetry. apply (Nat.div_unique _ _ _ 0%nat); lia. }
    assert (String.length ("data=" +:+ hex_of_bytes true ct)
            = (5 + 32 * (n / 16 + 1))%nat) as Hbody.
    { rewrite append_length, hex_of_bytes_length, Hlenct.
      change (String.length "data=") with 5%nat. lia. }
    exists ct. split; [done|]. split; [done|].
    split; [apply hex_of_bytes_upper|]. split; [done|].
    intros method hostname requestline. unfold _build_request.
    rewrite decide_False by done. by rewrite Hbody.
Qed.

(** X7: [_decrypt_data] returns only on data it can unpad: the authKey
    has at least 16 bytes, the data is a whole number of blocks and not
    empty, and what the block function gives is the result followed by
    [k] bytes of value [k], with [k] between 1 and 16; the result is
    that much shorter than the data. *)
Theorem decrypt_accepts_padded_blocks self data plain :
  (forall key block, length block = 16%nat ->
     length (aes_decrypt_block key block) = 16%nat) ->
  _decrypt_data self data = Ret plain ->
  (16 <= length (authkey self))%nat
  /\ (length data mod 16 = 0)%nat
  /\ exists k b, (1 <= k <= 16)%nat /\ Byte.to_nat b = k
       /\ length data = (length plain + k)%nat
       /\ ecb (aes_decrypt_block (take 16 (authkey self))) data
          = Ret (plain ++ replicate k b).
Proof.
  intros Hblock. unfold _decrypt_data.
  destruct (_build_cipher self) as [key| |] eqn:Hkey; [|done..].
  apply build_cipher_Ret in Hkey as [-> Hlen]. cbn [mbind outcome_bind].
  destruct (ecb _ data) as [decrypted| |] eqn:Hecb; [|done..].
  cbn [mbind outcome_bind]. intros Hunpad.
  apply unpad_Ret in Hunpad as (k & b & Hk & Hb & _ & ->).
  apply ecb_length in Hecb as Hl; [|by apply Hblock]. destruct Hl as [Hmod Hl].
  rewrite length_app, length_replicate in Hl.
  split; [done|]. split; [done|]. by exists k, b.
Qed.

(** X8: the query string of the parameters [build_params] makes, for
    any time and uuid: the five pairs come in the order [a], [et], [t],
    [uuid], [v], and the signature is the digest of
    ["a=tuya.device.active||et=1||t=<time>||uuid=<uuid>||v=4.4||<authKey>"];
    a uuid with ["&"] in it goes into that text with ["||"] in the place
    of each ["&"]. *)
Theorem activation_query_string self epoch uuid auth_text :
  utf8_decode (authkey self) = Some auth_text ->
  let query :=
    "a=tuya.device.active&et=1&t=" +:+ str_of_Z epoch
    +:+ "&uuid=" +:+ uuid +:+ "&v=4.4" in
  (exists pieces,
     Forall amp_free pieces
     /\ uuid = str_join "&" pieces
     /\ _build_querystring self (build_params epoch uuid)
        = Ret ("?" +:+ query +:+ "&sign="
               +:+ hex_of_bytes false
                     (md5 (utf8_encode
                             ("a=tuya.device.active||et=1||t="
                              +:+ str_of_Z epoch +:+ "||uuid="
                              +:+ str_join "||" pieces +:+ "||v=4.4")
                           ++ utf8_encode ("||" +:+ auth_text)))))
  /\ (amp_free uuid ->
      _build_querystring self (build_params epoch uuid)
      = Ret ("?" +:+ query +:+ "&sign="
             +:+ hex_of_bytes false
                   (md5 (utf8_encode
                           ("a=tuya.device.active||et=1||t="
                            +:+ str_of_Z epoch +:+ "||uuid=" +:+ uuid
                            +:+ "||v=4.4")
                         ++ utf8_encode ("||" +:+ auth_text))))).
Proof.
  intros Hdec query.
  assert (forall pieces, Forall amp_free pieces -> uuid = str_join "&" pieces ->
            _build_querystring self (build_params epoch uuid)
            = Ret ("?" +:+ query +:+ "&sign="
                   +:+ hex_of_bytes false
                         (md5 (utf8_encode
                                 ("a=tuya.device.active||et=1||t="
                                  +:+ str_of_Z epoch +:+ "||uuid="
                                  +:+ str_join "||" pieces +:+ "||v=4.4")
                               ++ utf8_encode ("||" +:+ auth_text)))))
    as Hsign.
  { intros pieces Hfree Hu. unfold _build_querystring. rewrite Hdec.
    assert (sorted_items (build_params epoch uuid)
            = [("a", VStr "tuya.device.active"); ("et", VInt 1);
               ("t", VInt epoch); ("uuid", VStr uuid); ("v", VStr "4.4")]) as ->.
    { vm_compute. reflexivity. }
    cbn [or_raise mbind outcome_bind]. cbv zeta.
    change (str_join "&" _) with query.
    assert (str_replace "&" "||" query
            = "a=tuya.device.active||et=1||t=" +:+ str_of_Z epoch
              +:+ "||uuid=" +:+ str_join "||" pieces +:+ "||v=4.4") as ->;
      [|done].
    unfold query. rewrite !str_replace_app.
    rewrite (str_replace_free _ _ (str_of_Z epoch)) by apply str_of_Z_free.
    assert (str_replace "&" "||" uuid = str_join "||" pieces) as ->
      by (rewrite Hu; by apply str_replace_join).
    reflexivity. }
  split.
  - destruct (amp_pieces uuid) as (p & ps & Hfree & Hu).
    exists (p :: ps). split; [done|]. split; [done|]. by apply Hsign.
  - intros Hfree. apply (Hsign [uuid]); [by constructor|done].
Qed.

(** X4: [request] does not retry.  It uses at most one connection of
    the network and sends at most one message, and none without a
    connection; the message is the request [_build_request] makes of the
    signed query string and the encrypted body, sent to the host and the
    port of the URL; when [request] returns an answer, it has used
    exactly one connection and sent exactly one message. *)
Theorem request_connects_and_sends_once self url params data method w :
  let u := urlparse url in
  let out := request self url params data method w in
  exists used msgs,
    peers w = used ++ peers out.2
    /\ sent out.2 = sent w ++ msgs
    /\ (length msgs <= length used <= 1)%nat
    /\ (forall m, m ∈ msgs ->
        exists querystring body,
          _build_querystring self params = Ret querystring
          /\ _encrypt_data self data = Ret body
          /\ m = (hostname u, port_of u,
                  _build_request method (hostname u)
                    (path u +:+ querystring) body))
    /\ (forall v, out.1 = Ret v -> length used = 1%nat /\ length msgs = 1%nat).
Proof.
  intros u out. unfold out, request. fold u. clear out.
  set (Q := fun (o : outcome string) (o' : outcome string)
                (out : outcome (pyval * TuyaAPIConnection) * net) =>
    exists used msgs,
      peers w = used ++ peers out.2
      /\ sent out.2 = sent w ++ msgs
      /\ (length msgs <= length used <= 1)%nat
      /\ (forall m, m ∈ msgs ->
          exists querystring body,
            o = Ret querystring /\ o' = Ret body
            /\ m = (hostname u, port_of u,
                    _build_request method (hostname u)
                      (path u +:+ querystring) body))
      /\ (forall v, out.1 = Ret v ->
          length used = 1%nat /\ length msgs = 1%nat)).
  change (Q (_build_querystring self params) (_encrypt_data self data)
            ((lift (_build_querystring self params) ≫= fun querystring =>
              lift (_encrypt_data self data) ≫= fun body =>
              _make_socket self (hostname u) (port_of u) (is_https u) ≫=
              fun '(self0, sock) =>
                try_except_exit3
                  (exchange self0 (hostname u) (port_of u) sock
                     (_build_request method (hostname u)
                        (path u +:+ querystring) body))) w)).
  assert (forall o o' (r : outcome (pyval * TuyaAPIConnection)),
            (forall v, r <> Ret v) -> Q o o' (r, w)) as Hnone.
  { intros o o' r Hr. exists [], []. rewrite !app_nil_r. simpl.
    split_and!; try done; try lia;
      try (intros m Hm; by apply elem_of_nil in Hm);
      intros v ->; by destruct (Hr v). }
  destruct (_build_querystring self params) as [querystring| |];
    [|by apply Hnone..].
  destruct (_encrypt_data self data) as [body| |]; [|by apply Hnone..].
  rewrite (bind_lift_ret _ _ _ _ eq_refl).
  rewrite (bind_lift_ret _ _ _ _ eq_refl).
  unfold mbind, M_bind, _make_socket.
  destruct (peers w) as [|p rest] eqn:Hpeers; [by apply Hnone|].
  assert (forall (r : outcome (pyval * TuyaAPIConnection)),
            (forall v, r <> Ret v) ->
            Q (Ret querystring) (Ret body)
              (r, {| peers := rest; sent := sent w |})) as Hfail.
  { intros r Hr. unfold Q. exists [p], []. rewrite !app_nil_r. simpl.
    split_and!; try done; try lia;
      try (intros m Hm; by apply elem_of_nil in Hm);
      intros v ->; by destruct (Hr v). }
  assert (forall self1,
            Q (Ret querystring) (Ret body)
              (try_except_exit3
                 (exchange self1 (hostname u) (port_of u) p
                    (_build_request method (hostname u)
                       (path u +:+ querystring) body))
                 {| peers := rest; sent := sent w |})) as Hexch.
  { intros self1. unfold try_except_exit3, exchange, socket_send, socket_recv.
    unfold mbind, M_bind, lift. destruct (send_ok p); [|by apply Hfail].
    unfold Q. exists [p], [(hostname u, port_of u,
                  _build_request method (hostname u)
                    (path u +:+ querystring) body)].
    destruct (or_raise OSError (take 10000 <$> recv_data p)) as [datas| |];
      [destruct (decode_response self1 datas)|..]; simpl;
      (split_and!; try done; try lia;
       intros m ->%list_elem_of_singleton; by eexists _, _). }
  destruct (connects p); cbn [negb]; [|by apply Hfail].
  destruct (is_https u); cbn [negb]; [|by apply Hexch].
  destruct (tls_hint p) as [hint|]; [|by apply Hfail].
  destruct (_psk_and_pskid self hint (rand_data p)) as [[self1 ?]| |];
    [|by apply Hfail..].
  destruct (tls_completes p); [by apply Hexch|by apply Hfail].
Qed.

(** X5: the connection object after a request that returned.  Over
    plain HTTP it is the object the request started with: no secret is
    derived; over HTTPS it is the object [_psk_and_pskid] left, called
    with the hint of the peer. *)
Theorem request_connection_after self url params data method w v self' w' :
  request self url params data method w = (Ret (v, self'), w') ->
  if is_https (urlparse url)
  then exists p rest hint secret identity,
         peers w = p :: rest /\ tls_hint p = Some hint
         /\ _psk_and_pskid self hint (rand_data p)
            = Ret (self', (secret, identity))
  else self' = self.
Proof.
  unfold request.
  destruct (_build_querystring self params) as [querystring| |]; [|done..].
  destruct (_encrypt_data self data) as [body| |]; [|done..].
  rewrite (bind_lift_ret _ _ _ _ eq_refl).
  rewrite (bind_lift_ret _ _ _ _ eq_refl).
  assert (forall self1 sock req w1,
            try_except_exit3
              (exchange self1 (hostname (urlparse url))
                 (port_of (urlparse url)) sock req) w1
            = (Ret (v, self'), w') -> self' = self1) as Hexch.
  { intros self1 sock req w1.
    unfold try_except_exit3, exchange, socket_send, socket_recv.
    unfold mbind, M_bind, lift. destruct (send_ok sock); [|done].
    destruct (or_raise OSError (take 10000 <$> recv_data sock)); [|done..].
    destruct (decode_response self1 a); [|done..].
    unfold mret, M_ret. by intros [= _ -> _]. }
  unfold mbind, M_bind, _make_socket.
  destruct (peers w) as [|p rest]; [done|].
  destruct (connects p); cbn [negb]; [|done].
  destruct (is_https (urlparse url)); cbn [negb].
  - destruct (tls_hint p) as [hint|] eqn:Hhint; [|done].
    destruct (_psk_and_pskid self hint (rand_data p))
      as [[self1 [secret identity]]| |] eqn:Hpsk; [|done..].
    destruct (tls_completes p); cbv beta iota; [|done].
    intros Hx. apply Hexch in Hx as ->.
    by exists p, rest, hint, secret, identity.
  - intros Hx. by apply Hexch in Hx.
Qed.

End Wire.

(** X3 on the sample connection: the secret of the first handshake is
    returned again by the second. *)
Lemma psk_secret_sample :
  exists self1 secret,
    _psk_and_pskid (H := Standin.libs) Sample.connection Sample.short_hint
      Sample.random16
    = Ret (self1, (secret, init_id_v1 (H := Standin.libs) Sample.connection
                             Sample.random16))
    /\ _psk_and_pskid (H := Standin.libs) self1 [] Sample.random16
       = Ret (self1,
              (secret,
               x02 :: replace_nul
                        (Sample.random16
                         ++ Standin.digest 32 (uuid Sample.connection)))).
Proof.
  destruct (_psk_and_pskid (H := Standin.libs) Sample.connection
              Sample.short_hint Sample.random16)
    as [[self1 [secret identity]]| |] eqn:Hfirst.
  - destruct (psk_secret_derived_once (H := Standin.libs) Sample.connection
                Sample.short_hint Sample.random16 self1 secret identity []
                Sample.random16 eq_refl Hfirst) as (-> & -> & Hnext).
    + intros ->. vm_compute in Hfirst. discriminate.
    + exists {| psk := secret; authkey := authkey Sample.connection;
                uuid := uuid Sample.connection |}, secret.
      split; [reflexivity|exact Hnext].
  - vm_compute in Hfirst. discriminate.
  - vm_compute in Hfirst. discriminate.
Defined.

(** X5 on a request over plain HTTP that is answered. *)
Lemma request_connection_sample :
  exists v self' w',
    request (H := Standin.libs) Sample.connection "http://a.tuyaus.com/d.json"
      (build_params Sample.epoch Sample.device_uuid) Sample.data "POST"
      {| peers := [Sample.answering]; sent := [] |}
    = (Ret (v, self'), w')
    /\ v = VDict [("a", VStr "b")]
    /\ self' = Sample.connection.
Proof.
  destruct (request (H := Standin.libs) Sample.connection
              "http://a.tuyaus.com/d.json"
              (build_params Sample.epoch Sample.device_uuid) Sample.data "POST"
              {| peers := [Sample.answering]; sent := [] |})
    as [[[v self']| |] w'] eqn:Hreq.
  - exists v, self', w'. split; [reflexivity|]. split.
    + vm_compute in Hreq. by injection Hreq as <- _ _.
    + exact (request_connection_after (H := Standin.libs) _ _ _ _ _ _ _ _ _ Hreq).
  - vm_compute in Hreq. discriminate.
  - vm_compute in Hreq. discriminate.
Defined.

(** X6 on the sample body. *)
Lemma encrypted_body_sample :
  exists ciphertext,
    _encrypt_data (H := Standin.libs) Sample.connection Sample.data
    = Ret ("data=" +:+ hex_of_bytes true ciphertext)
    /\ length ciphertext = 192%nat
    /\ String.length ("data=" +:+ hex_of_bytes true ciphertext) = 389%nat.
Proof.
  destruct (proj2 (encrypted_body_shape (H := Standin.libs) Sample.connection
                     Sample.data
                     (fun key block Hb => eq_trans (xor_bytes_length key block) Hb)))
    as (ct & Henc & Hlen & _ & Hbody & _).
  - vm_compute. repeat constructor.
  - exists ct. split; [exact Henc|].
    split; (etrans; [eassumption|vm_compute; reflexivity]).
Defined.

(** X7 on the encrypted sample answer. *)
Lemma decrypt_sample :
  (length Sample.answer_ciphertext mod 16 = 0)%nat
  /\ exists k b, (1 <= k <= 16)%nat /\ Byte.to_nat b = k
       /\ length Sample.answer_ciphertext
          = (length (Standin.ascii_encode Sample.answer_text) + k)%nat.
Proof.
  destruct (decrypt_accepts_padded_blocks (H := Standin.libs) Sample.connection
              Sample.answer_ciphertext
              (Standin.ascii_encode Sample.answer_text))
    as (_ & Hmod & k & b & Hk & Hb & Hlen & _).
  - intros key block Hb. exact (eq_trans (xor_bytes_length key block) Hb).
  - vm_compute. reflexivity.
  - split; [exact Hmod|]. exists k, b. repeat split; try apply Hk; assumption.
Defined.

(** X8 at the sample time and uuid, with a digest of all the bytes. *)
Lemma activation_query_sample :
  _build_querystring (H := Standin.folding) Sample.connection
    (build_params Sample.epoch Sample.device_uuid)
  = Ret ("?a=tuya.device.active&et=1&t=1700000000&uuid=abcdefghijklmnop&v=4.4"
         +:+ "&sign=3b716b717d7e6f354e500c0716181d49").
Proof.
  etrans.
  - apply (activation_query_string (H := Standin.folding) Sample.connection
             Sample.epoch Sample.device_uuid Sample.device_auth_key eq_refl).
    apply (bool_decide_unpack _). vm_compute. exact I.
  - vm_compute. reflexivity.
Defined.

(** ** The checked arguments *)

Lemma require_Ret x ok s : require x ok = Ret s -> x = Some s /\ ok s = true.
Proof.
  destruct x as [x|]; simpl; [|done]. destruct (ok x) eqn:Hok; [|done].
  by intros [= ->].
Qed.

Lemma validate_versions a v :
  validate a = Ret v ->
  auth_key a = Some (set_auth_key v)
  /\ software_version a = Some (set_software_version v)
  /\ cad_version a = Some (set_cad_version v)
  /\ baseline_version a = Some (set_baseline_version v).
Proof.
  intros Hval. unfold validate in Hval.
  match type of Hval with (?x ≫= _) = _ => destruct x as [u| |]; [|done..] end.
  cbn [mbind outcome_bind] in Hval.
  destruct (require (auth_key a) _) as [ak| |] eqn:Hak; [|done..].
  cbn [mbind outcome_bind] in Hval.
  case_bool_decide; [done|]. cbn [mbind outcome_bind] in Hval.
  destruct (require (software_version a) _) as [sv| |] eqn:Hsv; [|done..].
  cbn [mbind outcome_bind] in Hval.
  destruct (require (cad_version a) _) as [cv| |] eqn:Hcv; [|done..].
  cbn [mbind outcome_bind] in Hval.
  destruct (require (baseline_version a) _) as [bv| |] eqn:Hbv; [|done..].
  cbn [mbind outcome_bind] in Hval. injection Hval as <-. cbn.
  apply require_Ret in Hak as [-> _]. apply require_Ret in Hsv as [-> _].
  apply require_Ret in Hcv as [-> _]. by apply require_Ret in Hbv as [-> _].
Qed.

(** X14: the uuid [run] goes on with.  A uuid of 16 characters is taken
    as it is; when the uuid is absent or has another length, the checks
    pass only with a product key of 16 characters, and that product key
    is used as the uuid. *)
Theorem uuid_falls_back_to_product_key a v :
  validate a = Ret v ->
  String.length (set_uuid v) = 16%nat
  /\ (forall u, arg_uuid a = Some u -> String.length u = 16%nat ->
      set_uuid v = u)
  /\ ((forall u, arg_uuid a = Some u -> String.length u <> 16%nat) ->
      product_key a = Some (set_uuid v)).
Proof.
  intros Hval. unfold validate in Hval.
  match type of Hval with
  | (?x ≫= _) = _ => destruct x as [u| |] eqn:Hu; [|done..]
  end.
  cbn [mbind outcome_bind] in Hval.
  destruct (require (auth_key a) _) as [ak| |]; [|done..].
  cbn [mbind outcome_bind] in Hval.
  case_bool_decide; [done|]. cbn [mbind outcome_bind] in Hval.
  destruct (require (software_version a) _) as [sv| |]; [|done..].
  cbn [mbind outcome_bind] in Hval.
  destruct (require (cad_version a) _) as [cv| |]; [|done..].
  cbn [mbind outcome_bind] in Hval.
  destruct (require (baseline_version a) _) as [bv| |]; [|done..].
  cbn [mbind outcome_bind] in Hval. injection Hval as <-. cbn [set_uuid].
  destruct (arg_uuid a) as [u0|].
  - case_decide as Hlen.
    + injection Hu as ->. split; [done|]. split; [by intros ? [= <-]|].
      intros Hbad. by destruct (Hbad u eq_refl).
    + apply require_Ret in Hu as [Hpk Hu%bool_decide_eq_true].
      split; [done|]. split; [|done]. intros ? [= <-] ?. done.
  - apply require_Ret in Hu as [Hpk Hu%bool_decide_eq_true].
    split; [done|]. split; done.
Qed.

(** X14 on arguments without a uuid. *)
Lemma uuid_fallback_sample :
  exists v,
    validate Sample.no_uuid = Ret v
    /\ product_key Sample.no_uuid = Some (set_uuid v).
Proof.
  eexists. split; [reflexivity|].
  apply (uuid_falls_back_to_product_key Sample.no_uuid _ eq_refl).
  intros u [=].
Defined.

(** ** The order of the requests of a run *)

Lemma validate_keys a v :
  validate a = Ret v ->
  ~ ((product_key a = None \/ product_key a = Some "")
     /\ (firmware_key a = None \/ firmware_key a = Some "")).
Proof.
  intros Hval Hkeys. unfold validate in Hval.
  match type of Hval with (?x ≫= _) = _ => destruct x; [|done..] end.
  cbn [mbind outcome_bind] in Hval.
  match type of Hval with (?x ≫= _) = _ => destruct x; [|done..] end.
  cbn [mbind outcome_bind] in Hval.
  by rewrite bool_decide_eq_true_2 in Hval by done.
Qed.

Section Order.
Context `{Libs} {W : Type}.
Variable request : TuyaAPIConnection -> string -> gmap string pyval ->
                   dict -> string -> M W (pyval * TuyaAPIConnection).
Variable get_new_token : M W pyval.

Lemma attempts_shape connection url params data is_fk (s : session W) :
  let c fk := {| call_url := url; call_params := params;
                 call_data := data fk; call_method := "POST" |} in
  let out := attempts request connection url params data is_fk s in
  exists l n,
    calls out.2 = calls s ++ l
    /\ (1 <= n <= 2)%nat
    /\ l.*1 = take n [c is_fk; c (negb is_fk)]
    /\ (forall r conn, out.1 = Ret (r, conn) ->
        exists front c', l = front ++ [(c', Answered r)]).
Proof.
  intros c out. unfold out, attempts, traced_request, mbind, M_bind, lift.
  destruct (request connection url params (data is_fk) "POST" (world s))
    as [[[rA connA]| |] wA]; cbn [calls world call_end_of].
  2,3: eexists [_], 1%nat; split; [done|]; split; [lia|]; split; [done|];
       done.
  destruct (continue_after rA) as [[|]| |]; cbn [calls world].
  - destruct (request connA url params (data (negb is_fk)) "POST" wA)
      as [[[rB connB]| |] wB]; cbn [calls world call_end_of fst snd];
      eexists [_; _], 2%nat; rewrite <- app_assoc;
      (split; [done|]; split; [lia|]; split; [done|]); try done.
    intros r conn [= -> ->]. by eexists [_], _.
  - eexists [_], 1%nat. split; [done|]. split; [lia|]. split; [done|].
    intros r conn [= -> ->]. by eexists [], _.
  - eexists [_], 1%nat. split; [done|]. split; [lia|]. split; [done|]. done.
  - eexists [_], 1%nat. split; [done|]. split; [lia|]. split; [done|]. done.
Qed.

Lemma attempts_first connection url params data is_fk (s : session W) :
  exists rest,
    calls (attempts request connection url params data is_fk s).2
    = calls s
      ++ ({| call_url := url; call_params := params;
             call_data := data is_fk; call_method := "POST" |},
          call_end_of (request connection url params (data is_fk) "POST"
                         (world s)).1)
      :: rest
    /\ (length rest <= 1)%nat.
Proof.
  unfold attempts, traced_request, mbind, M_bind, lift.
  destruct (request connection url params (data is_fk) "POST" (world s))
    as [[[rA connA]| |] wA]; cbn [calls world call_end_of fst snd].
  2,3: exists []; split; [done|simpl; lia].
  destruct (continue_after rA) as [[|]| |]; cbn [calls world].
  2,3,4: exists []; split; [done|simpl; lia].
  destruct (request connA url params (data (negb is_fk)) "POST" wA)
    as [[[rB connB]| |] wB]; cbn [calls world call_end_of fst snd];
    eexists [_]; rewrite <- app_assoc; (split; [done|simpl; lia]).
Qed.

Lemma bind_keeps_calls {A B} (m : M (session W) A) (k : A -> M (session W) B) s :
  (forall a s1, calls (k a s1).2 = calls s1) ->
  calls ((m ≫= k) s).2 = calls (m s).2.
Proof.
  intros Hk. unfold mbind, M_bind. destruct (m s) as [[a| |] s1]; [|done..].
  apply Hk.
Qed.

Lemma activation_shape epoch a v tok region (s : session W) :
  let out := activation request epoch a v tok region s in
  exists l n m,
    calls out.2 = calls s ++ l
    /\ (n <= 2)%nat /\ (m <= 2)%nat
    /\ (product_key a <> None -> 1 <= n)%nat
    /\ (product_key a = None -> firmware_key a <> None -> 1 <= m)%nat
    /\ l.*1 = take n (key_attempts epoch a v tok region (product_key a) false)
              ++ take m (key_attempts epoch a v tok region (firmware_key a) true)
    /\ (forall r, out.1 = Ret (Some r) ->
        exists front c, l = front ++ [(c, Answered r)]).
Proof.
  intros out. unfold out, activation. clear out. cbv zeta.
  destruct (product_key a) as [pk|] eqn:Hpk.
  - unfold mbind, M_bind.
    match goal with
    | |- context [attempts request ?c ?u ?p ?d false s] =>
        destruct (attempts_shape c u p d false s)
          as (l1 & n & Hc1 & Hn & Hl1 & Hlast1);
        destruct (attempts request c u p d false s)
          as [[[rA cA]| |] sA] eqn:HA; cbn [fst snd] in *
    end.
    2,3: exists l1, n, 0%nat; rewrite take_0, app_nil_r;
         split_and!; try done; lia.
    unfold mret, M_ret, lift.
    destruct (none_or_failed_unexpired (Some rA)) as [[|]| |].
    2,3,4: exists l1, n, 0%nat; rewrite take_0, app_nil_r;
           split_and!; try done; try lia;
           intros r [= <-]; by eapply Hlast1.
    destruct (firmware_key a) as [fk|] eqn:Hfk.
    2: { exists l1, n, 0%nat; rewrite take_0, app_nil_r.
         split_and!; try done; try lia.
         intros r [= <-]; by eapply Hlast1. }
    match goal with
    | |- context [attempts request ?c ?u ?p ?d true sA] =>
        destruct (attempts_shape c u p d true sA)
          as (l2 & m & Hc2 & Hm & Hl2 & Hlast2);
        destruct (attempts request c u p d true sA)
          as [[[rB cB]| |] sB] eqn:HB; cbn [fst snd] in *
    end;
      exists (l1 ++ l2), n, m; rewrite Hc2, Hc1, app_assoc, fmap_app, Hl1, Hl2;
      split_and!; try done; try lia.
    intros r [= <-]. destruct (Hlast2 rB cB eq_refl) as (front & c & ->).
    exists (l1 ++ front), c. by rewrite app_assoc.
  - unfold mbind, M_bind, mret, M_ret, lift. cbn [none_or_failed_unexpired].
    destruct (firmware_key a) as [fk|] eqn:Hfk.
    2: { exists [], 0%nat, 0%nat. rewrite app_nil_r.
         split_and!; try done; lia. }
    match goal with
    | |- context [attempts request ?c ?u ?p ?d true s] =>
        destruct (attempts_shape c u p d true s)
          as (l2 & m & Hc2 & Hm & Hl2 & Hlast2);
        destruct (attempts request c u p d true s)
          as [[[rB cB]| |] sB] eqn:HB; cbn [fst snd] in *
    end;
      exists l2, 0%nat, m; rewrite Hl2;
      split_and!; try done; try lia.
    intros r [= <-]. by eapply Hlast2.
Qed.

(** X9: the requests of a run that passed the checks and has its token
    follow one order, whatever the answers: at most two with the product
    key, the flag [isFK] false and then true, followed by at most two
    with the firmware key, the flag true and then false; all are POST
    requests to the one URL with the one set of parameters.  There is at
    least one request and there are at most four; the first presents the
    product key whenever one is given, the empty text included, and the
    firmware key otherwise. *)
Theorem attempts_follow_fallback_order epoch a v tok region (s0 s1 : session W) :
  validate a = Ret v ->
  token_and_region get_new_token (token a) s0 = (Ret (tok, region), s1) ->
  exists new_calls n m,
    calls (run request get_new_token epoch a s0).2 = calls s0 ++ new_calls
    /\ (n <= 2)%nat /\ (m <= 2)%nat
    /\ (product_key a <> None -> 1 <= n)%nat
    /\ (product_key a = None -> 1 <= m)%nat
    /\ (1 <= length new_calls <= 4)%nat
    /\ new_calls.*1
       = take n (key_attempts epoch a v tok region (product_key a) false)
         ++ take m (key_attempts epoch a v tok region (firmware_key a) true).
Proof.
  intros Hval Htok.
  rewrite (run_reaches_activation _ _ _ _ _ _ _ _ _ Hval Htok).
  pose proof (token_and_region_calls get_new_token (token a) s0) as Hs1.
  rewrite Htok in Hs1. cbn [snd] in Hs1. rewrite <- Hs1.
  destruct (activation_shape epoch a v tok region s1)
    as (l & n & m & Hc & Hn & Hm & Hpk & Hfk & Hl & _).
  exists l, n, m.
  assert (calls ((activation request epoch a v tok region ≫=
                  fun response => lift (conclude response)) s1).2
          = calls (activation request epoch a v tok region s1).2) as ->.
  { unfold mbind, M_bind, lift.
    by destruct (activation request epoch a v tok region s1) as [[?| |] ?]. }
  assert (product_key a <> None \/ (product_key a = None /\ firmware_key a <> None))
    as Hkeys.
  { pose proof (validate_keys a v Hval) as Hk.
    destruct (product_key a) as [pk|]; [by left|right]. split; [done|].
    destruct (firmware_key a); [done|]. destruct Hk. auto. }
  split; [done|]. split; [done|]. split; [done|]. split; [done|].
  split; [intros Hnone; destruct Hkeys as [?|[_ ?]]; auto|].
  split; [|done].
  rewrite <- (length_fmap fst l), Hl, length_app, !length_take.
  destruct (product_key a) as [pk|], (firmware_key a) as [fk|];
    cbn [key_attempts length]; destruct Hkeys as [?|[? ?]]; try done;
    try specialize (Hpk ltac:(done)); try specialize (Hfk ltac:(done) ltac:(done));
    lia.
Qed.

(** X12: a run that returns has made at least one request, and what it
    does at its end is decided by the answer to its last request alone;
    when it prints a response, that is this last answer. *)
Theorem report_reads_last_answer epoch a (s s' : session W) rep :
  run request get_new_token epoch a s = (Ret rep, s') ->
  exists front c r,
    calls s' = calls s ++ front ++ [(c, Answered r)]
    /\ conclude (Some r) = Ret rep
    /\ (forall r', rep = Printed r' -> r' = r).
Proof.
  intros Hrun.
  destruct (validate a) as [v| |] eqn:Hval.
  2,3: unfold run in Hrun; by rewrite Hval in Hrun.
  pose proof (token_and_region_calls get_new_token (token a) s) as Hs1.
  destruct (token_and_region get_new_token (token a) s)
    as [[[tok region]| |] s1] eqn:Htok.
  2,3: unfold run in Hrun; rewrite Hval in Hrun;
       unfold mbind, M_bind, lift in Hrun; by rewrite Htok in Hrun.
  rewrite (run_reaches_activation _ _ _ _ _ _ _ _ _ Hval Htok) in Hrun.
  cbn [snd] in Hs1. rewrite <- Hs1.
  destruct (activation_shape epoch a v tok region s1)
    as (l & n & m & Hc & _ & _ & _ & _ & _ & Hlast).
  unfold mbind, M_bind, lift in Hrun.
  destruct (activation request epoch a v tok region s1)
    as [[[r|]| |] s2]; cbn [fst snd] in *; try done.
  injection Hrun as Hconc <-.
  destruct (Hlast r eq_refl) as (front & c & ->).
  exists front, c, r. split; [done|]. split; [done|].
  intros r' ->. unfold conclude in Hconc.
  destruct (py_getitem r "success") as [sv| |]; [|done..]. simpl in Hconc.
  destruct (py_eq_bool sv true).
  - destruct (py_getitem r "result") as [res| |]; [|done..]. simpl in Hconc.
    destruct (py_getitem res "schemaId") as [[]| |]; try done;
      simpl in Hconc; destruct (py_getitem res "schema") as [[]| |]; done.
  - destruct (py_eq_bool sv false); [|congruence].
    destruct (py_getitem r "errorCode") as [ec| |]; [|done..]. simpl in Hconc.
    destruct (py_eq_str ec "EXPIRE"); congruence.
Qed.


(** X10: when the first attempt with the product key is answered with
    [success] true and a schema, the run saves that schema after this
    one request, with a firmware key configured or not. *)
Theorem success_ends_after_one_attempt epoch a v tok region (s0 s1 : session W)
    pk rA sA connA wA result schema_id schema :
  validate a = Ret v ->
  token_and_region get_new_token (token a) s0 = (Ret (tok, region), s1) ->
  product_key a = Some pk ->
  let first := attempt_of epoch a v tok region pk false in
  request (TuyaAPIConnection_init (set_uuid v) (set_auth_key v) None)
    (call_url first) (call_params first) (call_data first) "POST" (world s1)
  = (Ret (rA, connA), wA) ->
  py_getitem rA "success" = Ret sA ->
  py_eq_bool sA true = true ->
  py_getitem rA "result" = Ret result ->
  py_getitem result "schemaId" = Ret (VStr schema_id) ->
  py_getitem result "schema" = Ret (VStr schema) ->
  run request get_new_token epoch a s0
  = (Ret (SchemaSaved schema_id schema),
     {| world := wA; calls := calls s1 ++ [(first, Answered rA)] |}).
Proof.
  intros Hval Htok Hpk first HA Hs Ht Hres Hid Hsch.
  pose proof (py_eq_bool_exclusive _ _ Ht) as Hf. simpl in Hf.
  assert (continue_after rA = Ret false) as Hcont.
  { unfold continue_after. rewrite Hs. cbn [mbind outcome_bind]. by rewrite Hf. }
  assert (none_or_failed_unexpired (Some rA) = Ret false) as Hfall.
  { cbn [none_or_failed_unexpired]. rewrite Hs. cbn [mbind outcome_bind].
    by rewrite Hf. }
  assert (conclude (Some rA) = Ret (SchemaSaved schema_id schema)) as Hconc.
  { cbn [conclude]. rewrite Hs. cbn [mbind outcome_bind]. rewrite Ht, Hres.
    cbn [mbind outcome_bind]. rewrite Hid. cbn [mbind outcome_bind].
    by rewrite Hsch. }
  rewrite (run_reaches_activation _ _ _ _ _ _ _ _ _ Hval Htok).
  erewrite bind_ret_eq; [unfold lift; by rewrite Hconc|].
  unfold activation. rewrite Hpk. cbv zeta.
  erewrite bind_ret_eq;
    [|erewrite bind_ret_eq; [|by apply attempts_once]; reflexivity].
  cbv beta iota. by rewrite (bind_lift_ret _ _ _ _ Hfall).
Qed.

(** X11: with both keys configured, when the first attempt with the
    product key is answered with [success] false and an error code that
    is neither one of [responseCodesToContinueAter] nor ["EXPIRE"], the
    next request presents the firmware key with the flag [isFK] true, on
    the connection object the first request left; at most one more
    request follows. *)
Theorem firmware_key_after_failed_product_key epoch a v tok region
    (s0 s1 : session W) pk fk code rA sA connA wA :
  validate a = Ret v ->
  token_and_region get_new_token (token a) s0 = (Ret (tok, region), s1) ->
  product_key a = Some pk ->
  firmware_key a = Some fk ->
  let first := attempt_of epoch a v tok region pk false in
  let third := attempt_of epoch a v tok region fk true in
  request (TuyaAPIConnection_init (set_uuid v) (set_auth_key v) None)
    (call_url first) (call_params first) (call_data first) "POST" (world s1)
  = (Ret (rA, connA), wA) ->
  py_getitem rA "success" = Ret sA ->
  py_eq_bool sA false = true ->
  py_getitem rA "errorCode" = Ret (VStr code) ->
  code ∉ responseCodesToContinueAter ->
  code <> "EXPIRE" ->
  exists rest,
    calls (run request get_new_token epoch a s0).2
    = calls s1
      ++ (first, Answered rA)
      :: (third,
          call_end_of (request connA (call_url third) (call_params third)
                         (call_data third) "POST" wA).1)
      :: rest
    /\ (length rest <= 1)%nat.
Proof.
  intros Hval Htok Hpk Hfk first third HA Hs Hf Hc Hnot Hexp.
  destruct (continue_after_failed rA sA code Hs Hf Hc) as (Hcont & Hfall & _).
  rewrite bool_decide_eq_false_2 in Hcont by done.
  rewrite bool_decide_eq_false_2 in Hfall by done. cbn [negb] in Hfall.
  rewrite (run_reaches_activation _ _ _ _ _ _ _ _ _ Hval Htok).
  rewrite bind_keeps_calls by done.
  unfold activation. rewrite Hpk, Hfk. cbv zeta.
  erewrite bind_ret_eq;
    [|erewrite bind_ret_eq; [|by apply attempts_once]; reflexivity].
  cbv beta iota. rewrite (bind_lift_ret _ _ _ _ Hfall). cbv beta iota.
  rewrite bind_keeps_calls by (by intros []).
  match goal with
  | |- context [attempts request ?c ?u ?p ?d true ?s] =>
      destruct (attempts_first c u p d true s) as (rest & -> & Hrest)
  end.
  exists rest. cbn [calls world]. by rewrite <- app_assoc.
Qed.

(** X13: the token [run] goes on with.  The eight characters sent are
    characters 2 to 9 of a token text whose first two characters give
    the region, one of ["us"], ["eu"] and ["AY"]; that text is the
    argument when it has 14 characters, and then [get_new_token] is not
    consulted, and in every other case it is what [get_new_token]
    returned. *)
Theorem token_and_region_source t (s s' : session W) tok region :
  token_and_region get_new_token t s = (Ret (tok, region), s') ->
  exists full,
    tok = str_slice 0 8 (str_from 2 full)
    /\ String.length tok = 8%nat
    /\ region_of full = Ret region
    /\ region ∈ ["us"; "eu"; "AY"]
    /\ calls s' = calls s
    /\ ((t = Some full /\ String.length full = 14%nat /\ s' = s)
        \/ ((forall t0, t = Some t0 -> String.length t0 <> 14%nat)
            /\ get_new_token (world s) = (Ret (VStr full), world s'))).
Proof.
  intros Htok.
  pose proof (token_and_region_calls get_new_token t s) as Hcalls.
  rewrite Htok in Hcalls. cbn [snd] in Hcalls.
  unfold token_and_region in Htok.
  assert (forall full (s1 : session W),
            (match VStr full with
             | VNone => lift print_and_exit
             | VStr token =>
                 lift (region_of token) ≫= fun region =>
                 let token := str_slice 0 8 (str_from 2 token) in
                 if decide (String.length token = 8%nat)
                 then mret (token, region)
                 else lift (Raise AssertionError)
             | VList _ => lift (SysExit 4)
             | _ => lift (Raise TypeError)
             end) s1 = (Ret (tok, region), s') ->
            tok = str_slice 0 8 (str_from 2 full)
            /\ String.length tok = 8%nat
            /\ region_of full = Ret region
            /\ region ∈ ["us"; "eu"; "AY"] /\ s' = s1) as Hrest.
  { intros full s1. unfold mbind, M_bind, lift.
    destruct (region_of full) as [reg| |] eqn:Hreg; [|done..].
    case_decide as Hlen; [|done]. unfold mret, M_ret. intros [= <- <- <-].
    split; [done|]. split; [done|]. split; [done|]. split; [|done].
    unfold region_of in Hreg.
    destruct (decide (str_slice 0 2 full = "AZ"));
      [injection Hreg as <-; set_solver|].
    destruct (decide (str_slice 0 2 full = "EU"));
      [injection Hreg as <-; set_solver|].
    destruct (decide (str_slice 0 2 full = "AY")) as [Hay|]; [|done].
    rewrite Hay in Hreg. injection Hreg as <-. set_solver. }
  assert (forall (s1 : session W),
            (in_world get_new_token ≫= fun token : pyval =>
             match token with
             | VNone => lift print_and_exit
             | VStr token =>
                 lift (region_of token) ≫= fun region =>
                 let token := str_slice 0 8 (str_from 2 token) in
                 if decide (String.length token = 8%nat)
                 then mret (token, region)
                 else lift (Raise AssertionError)
             | VList _ => lift (SysExit 4)
             | _ => lift (Raise TypeError)
             end) s = (Ret (tok, region), s') ->
            exists full,
              (tok = str_slice 0 8 (str_from 2 full)
               /\ String.length tok = 8%nat
               /\ region_of full = Ret region
               /\ region ∈ ["us"; "eu"; "AY"])
              /\ get_new_token (world s) = (Ret (VStr full), world s'))
    as Hlisten.
  { intros _. unfold mbind at 1, M_bind at 1, in_world.
    destruct (get_new_token (world s)) as [[[]| |] w1] eqn:Hg; try done.
    intros Hx. apply Hrest in Hx as (? & ? & ? & ? & ->). by exists s0. }
  destruct t as [t0|].
  - case_decide as Hlen.
    + rewrite (bind_ret_eq (mret (VStr t0)) _ s (VStr t0) s eq_refl) in Htok.
      apply Hrest in Htok as (? & ? & ? & ? & ?).
      exists t0. split_and!; try done. by left.
    + apply Hlisten in Htok as (full & (? & ? & ? & ?) & Hg); [|done].
      exists full. split_and!; try done. right. split; [|done].
      by intros ? [= <-].
  - apply Hlisten in Htok as (full & (? & ? & ? & ?) & Hg); [|done].
    exists full. split_and!; try done. right. split; [|done]. done.
Qed.

End Order.

(** ** The bodies of the requests of a run *)

Section Bodies.
Context `{Libs} {W : Type}.
Variable request : TuyaAPIConnection -> string -> gmap string pyval ->
                   dict -> string -> M W (pyval * TuyaAPIConnection).
Variable get_new_token : M W pyval.

Lemma run_order epoch a (s : session W) :
  exists l n m v tok region,
    calls (run request get_new_token epoch a s).2 = calls s ++ l
    /\ (n <= 2)%nat /\ (m <= 2)%nat
    /\ l.*1 = take n (key_attempts epoch a v tok region (product_key a) false)
              ++ take m (key_attempts epoch a v tok region (firmware_key a)
                           true).
Proof.
  set (none := {| set_uuid := ""; set_auth_key := ""; set_software_version := "";
                  set_cad_version := ""; set_baseline_version := "" |}).
  destruct (validate a) as [v| |] eqn:Hval.
  2,3: exists [], 0%nat, 0%nat, none, "", ""; unfold run;
       rewrite Hval, app_nil_r; split_and!; try done; lia.
  pose proof (token_and_region_calls get_new_token (token a) s) as Hs1.
  destruct (token_and_region get_new_token (token a) s)
    as [[[tok region]| |] s1] eqn:Htok; cbn [snd] in Hs1.
  2,3: exists [], 0%nat, 0%nat, none, "", ""; unfold run;
       rewrite Hval, app_nil_r; unfold mbind, M_bind, lift; rewrite Htok;
       split_and!; try done; lia.
  rewrite (run_reaches_activation _ _ _ _ _ _ _ _ _ Hval Htok).
  rewrite bind_keeps_calls by done.
  destruct (activation_shape request epoch a v tok region s1)
    as (l & n & m & Hc & Hn & Hm & _ & _ & Hl & _).
  exists l, n, m, v, tok, region. by rewrite <- Hs1.
Qed.

Lemma key_attempts_fields epoch a v tok region key first :
  (fun c : call =>
     (dict_get "productKey" (call_data c), dict_get "options" (call_data c)))
  <$> key_attempts epoch a v tok region key first
  = key_fields key first.
Proof. destruct key as [key|]; [|done]. by destruct first. Qed.

Lemma key_attempts_elem epoch a v tok region key first c :
  c ∈ key_attempts epoch a v tok region key first ->
  exists k is_fk, key = Some k /\ c = attempt_of epoch a v tok region k is_fk.
Proof.
  destruct key as [k|]; cbn [key_attempts]; [|by intros ?%elem_of_nil].
  intros Hin. exists k.
  apply elem_of_cons in Hin as [->|Hin]; [by eexists|].
  apply list_elem_of_singleton in Hin as ->. by eexists.
Qed.

(** C10, amended: every call of a run, whatever the answers, has a
    body with the nine fields of [build_data]: the key presented,
    product or firmware, is the value of ["productKey"], no field is
    named ["firmwareKey"], and two bodies of one run differ at most in
    the values of ["productKey"] and of ["options"].  The flag in
    ["options"] does not tell the key type: the product key goes out
    with [{"isFK":false}] and then with [{"isFK":true}], the firmware
    key with [{"isFK":true}] and then with [{"isFK":false}]. *)
Theorem every_body_names_productKey epoch a (s : session W) :
  exists new_calls n m,
    calls (run request get_new_token epoch a s).2 = calls s ++ new_calls
    /\ Forall (fun ce : call * call_end =>
         dict_keys (call_data ce.1)
         = ["token"; "productKey"; "softVer"; "protocolVer"; "baselineVer";
            "options"; "cadVer"; "cdVer"; "t"]
         /\ ("firmwareKey" ∉ dict_keys (call_data ce.1))
         /\ exists key,
              (product_key a = Some key \/ firmware_key a = Some key)
              /\ dict_get "productKey" (call_data ce.1) = Some (VStr key))
         new_calls
    /\ (n <= 2)%nat /\ (m <= 2)%nat
    /\ (fun ce : call * call_end =>
          (dict_get "productKey" (call_data ce.1),
           dict_get "options" (call_data ce.1))) <$> new_calls
       = take n (key_fields (product_key a) false)
         ++ take m (key_fields (firmware_key a) true)
    /\ (forall ce ce' k, ce ∈ new_calls -> ce' ∈ new_calls ->
        k <> "productKey" -> k <> "options" ->
        dict_get k (call_data ce.1) = dict_get k (call_data ce'.1)).
Proof.
  destruct (run_order epoch a s)
    as (l & n & m & v & tok & region & Hc & Hn & Hm & Hl).
  assert (forall ce, ce ∈ l ->
            exists key is_fk,
              (product_key a = Some key \/ firmware_key a = Some key)
              /\ ce.1 = attempt_of epoch a v tok region key is_fk) as Hin.
  { intros ce Hce. apply (list_elem_of_fmap_2 fst) in Hce. rewrite Hl in Hce.
    apply elem_of_app in Hce as [Hce%subseteq_take|Hce%subseteq_take];
      apply key_attempts_elem in Hce as (k & is_fk & Hk & ->); eauto. }
  exists l, n, m. split; [done|]. split.
  { apply Forall_forall. intros ce Hce.
    destruct (Hin ce Hce) as (key & is_fk & Hkey & ->).
    cbn [call_data attempt_of].
    destruct (build_data_fields epoch tok key (set_software_version v)
                (set_baseline_version v) (set_cad_version v) (cd_version a)
                (protocol_version a) is_fk) as (Hk & Hno & Hpk & _).
    split; [done|]. split; [done|]. by exists key. }
  split; [done|]. split; [done|]. split.
  { change (((fun c : call => (dict_get "productKey" (call_data c),
                               dict_get "options" (call_data c))) ∘ fst) <$> l
            = take n (key_fields (product_key a) false)
              ++ take m (key_fields (firmware_key a) true)).
    rewrite (list_fmap_compose fst).
    rewrite Hl, fmap_app, !fmap_take, !key_attempts_fields. done. }
  intros ce ce' k Hce Hce' Hk1 Hk2.
  destruct (Hin ce Hce) as (key & is_fk & _ & ->).
  destruct (Hin ce' Hce') as (key' & is_fk' & _ & ->).
  by apply build_data_other_fields.
Qed.

End Bodies.

(** C10, as stated, fails: in a run through all four attempts the
    second body presents the product key and the third the firmware
    key, and both carry [{"isFK":true}]: the flag does not distinguish
    the key type. *)
Lemma isFK_does_not_tell_the_key_type :
  exists second third,
    calls (run (H := Standin.libs) Sample.scripted Sample.no_token Sample.epoch
             Sample.both_keys
             (Sample.start [Sample.not_exists; Sample.not_exists;
                            Sample.not_exists; Sample.activated])).2 !! 1%nat
    = Some second
    /\ calls (run (H := Standin.libs) Sample.scripted Sample.no_token
                Sample.epoch Sample.both_keys
                (Sample.start [Sample.not_exists; Sample.not_exists;
                               Sample.not_exists; Sample.activated])).2 !! 2%nat
       = Some third
    /\ product_key Sample.both_keys = Some "keyabcdefghijklm"
    /\ firmware_key Sample.both_keys = Some "fwkeyabcdefghijk"
    /\ dict_get "productKey" (call_data second.1)
       = Some (VStr "keyabcdefghijklm")
    /\ dict_get "productKey" (call_data third.1)
       = Some (VStr "fwkeyabcdefghijk")
    /\ dict_get "options" (call_data second.1) = Some (VStr isFK_true)
    /\ dict_get "options" (call_data third.1) = Some (VStr isFK_true).
Proof.
  eexists _, _. split; [vm_compute; reflexivity|].
  split; [vm_compute; reflexivity|]. repeat split; vm_compute; reflexivity.
Qed.

(** X9 on both keys, the server answering ["NOT_EXISTS"] three times
    and then a schema. *)
Lemma fallback_order_sample :
  exists new_calls n m,
    calls (run (H := Standin.libs) Sample.scripted Sample.no_token Sample.epoch
             Sample.both_keys
             (Sample.start [Sample.not_exists; Sample.not_exists;
                            Sample.not_exists; Sample.activated])).2
    = new_calls
    /\ (n <= 2)%nat /\ (m <= 2)%nat
    /\ (1 <= length new_calls <= 4)%nat
    /\ new_calls.*1
       = take n (key_attempts Sample.epoch Sample.both_keys Sample.checked
                   "12345678" "us" (Some "keyabcdefghijklm") false)
         ++ take m (key_attempts Sample.epoch Sample.both_keys Sample.checked
                      "12345678" "us" (Some "fwkeyabcdefghijk") true).
Proof.
  destruct (attempts_follow_fallback_order (H := Standin.libs) Sample.scripted
              Sample.no_token Sample.epoch Sample.both_keys Sample.checked
              "12345678" "us"
              (Sample.start [Sample.not_exists; Sample.not_exists;
                             Sample.not_exists; Sample.activated])
              (Sample.start [Sample.not_exists; Sample.not_exists;
                             Sample.not_exists; Sample.activated])
              eq_refl eq_refl)
    as (l & n & m & Hc & Hn & Hm & _ & _ & Hlen & Hl).
  exists l, n, m. split; [exact Hc|]. split; [exact Hn|]. split; [exact Hm|].
  split; [exact Hlen|exact Hl].
Defined.

(** X12 on the sample arguments, the server answering ["NOT_EXISTS"]
    and then a schema. *)
Lemma last_answer_sample :
  exists front c r,
    [(Sample.attempt false, Answered Sample.not_exists);
     (Sample.attempt true, Answered Sample.activated)]
    = front ++ [(c, Answered r)]
    /\ conclude (Some r) = Ret (SchemaSaved "123" "{}").
Proof.
  destruct (report_reads_last_answer (H := Standin.libs) Sample.scripted
              Sample.no_token Sample.epoch Sample.args
              (Sample.start [Sample.not_exists; Sample.activated])
              {| world := [];
                 calls := [(Sample.attempt false, Answered Sample.not_exists);
                           (Sample.attempt true, Answered Sample.activated)] |}
              (SchemaSaved "123" "{}"))
    as (front & c & r & Hc & Hr & _).
  - vm_compute. reflexivity.
  - exists front, c, r. split; [exact Hc|exact Hr].
Defined.

(** X10 on both keys, the server answering with a schema at once. *)
Lemma success_sample :
  run (H := Standin.libs) Sample.scripted Sample.no_token Sample.epoch
    Sample.both_keys (Sample.start [Sample.activated; Sample.not_exists])
  = (Ret (SchemaSaved "123" "{}"),
     {| world := [Sample.not_exists];
        calls := [(attempt_of Sample.epoch Sample.both_keys Sample.checked
                     "12345678" "us" "keyabcdefghijklm" false,
                   Answered Sample.activated)] |}).
Proof.
  apply (success_ends_after_one_attempt (H := Standin.libs) Sample.scripted
           Sample.no_token Sample.epoch Sample.both_keys Sample.checked
           "12345678" "us"
           (Sample.start [Sample.activated; Sample.not_exists])
           (Sample.start [Sample.activated; Sample.not_exists])
           "keyabcdefghijklm" Sample.activated (VBool true)
           (TuyaAPIConnection_init (H := Standin.libs) Sample.device_uuid
              Sample.device_auth_key None)
           [Sample.not_exists]
           (VDict [("schemaId", VStr "123"); ("schema", VStr "{}")])
           "123" "{}"); reflexivity.
Defined.

(** X11 on both keys, the server refusing the product key and then
    answering with a schema. *)
Lemma firmware_key_sample :
  exists rest,
    calls (run (H := Standin.libs) Sample.scripted Sample.no_token Sample.epoch
             Sample.both_keys
             (Sample.start [Sample.denied; Sample.activated])).2
    = (attempt_of Sample.epoch Sample.both_keys Sample.checked
         "12345678" "us" "keyabcdefghijklm" false, Answered Sample.denied)
      :: (attempt_of Sample.epoch Sample.both_keys Sample.checked
            "12345678" "us" "fwkeyabcdefghijk" true, Answered Sample.activated)
      :: rest
    /\ (length rest <= 1)%nat.
Proof.
  apply (firmware_key_after_failed_product_key (H := Standin.libs)
           Sample.scripted Sample.no_token Sample.epoch Sample.both_keys
           Sample.checked "12345678" "us"
           (Sample.start [Sample.denied; Sample.activated])
           (Sample.start [Sample.denied; Sample.activated])
           "keyabcdefghijklm" "fwkeyabcdefghijk" "PERMISSION_DENIED"
           Sample.denied (VBool false)
           (TuyaAPIConnection_init (H := Standin.libs) Sample.device_uuid
              Sample.device_auth_key None)
           [Sample.activated]); try reflexivity.
  - apply (proj1 (bool_decide_eq_false _)). vm_compute. reflexivity.
  - discriminate.
Defined.

(** X13 on a token of 14 characters: the listener is not consulted. *)
Lemma token_source_sample :
  exists full,
    "12345678" = str_slice 0 8 (str_from 2 full)
    /\ region_of full = Ret "us"
    /\ full = "AZ12345678ABCD".
Proof.
  destruct (token_and_region_source (W := list pyval) Sample.no_token
              (Some "AZ12345678ABCD") (Sample.start []) (Sample.start [])
              "12345678" "us" eq_refl)
    as (full & Htok & _ & Hreg & _ & _ & [(Hfull & _ & _)|(Hbad & _)]).
  - exists full. split; [exact Htok|]. split; [exact Hreg|].
    by injection Hfull.
  - destruct (Hbad "AZ12345678ABCD" eq_refl). reflexivity.
Defined.

(** ** What the listener reads of a datagram *)

Section Datagrams.
Context `{Libs}.

(** X15: [receive_token] reads nothing of a datagram but the length at
    bytes 12 to 15 and the payload that length delimits: the first
    twelve bytes and the bytes after the payload have no influence on
    the token, nothing in them is checked. *)
Theorem frame_token_reads_length_and_payload header header' b0 b1 b2 b3
    payload tail tail' :
  length header = 12%nat ->
  length header' = 12%nat ->
  length payload
  = (Z.to_nat (Z.of_N (Byte.to_N b0) * 256 ^ 3 + Z.of_N (Byte.to_N b1) * 256 ^ 2
               + Z.of_N (Byte.to_N b2) * 256 + Z.of_N (Byte.to_N b3) + 8)
     - 16)%nat ->
  frame_token (header ++ b0 :: b1 :: b2 :: b3 :: payload ++ tail)
  = frame_token (header' ++ b0 :: b1 :: b2 :: b3 :: payload ++ tail')
  /\ frame_token (header ++ b0 :: b1 :: b2 :: b3 :: payload ++ tail)
     = (text ← or_raise ValueError (utf8_decode payload);
        msg ← or_raise ValueError (json_loads text);
        py_getitem msg "token").
Proof.
  intros Hh Hh' Hp.
  assert (forall hd tl, length hd = 12%nat ->
            frame_token (hd ++ b0 :: b1 :: b2 :: b3 :: payload ++ tl)
            = (text ← or_raise ValueError (utf8_decode payload);
               msg ← or_raise ValueError (json_loads text);
               py_getitem msg "token")) as Hone.
  { intros hd tl Hhd. unfold frame_token.
    destruct (frame_split _ hd (payload ++ tl) b0 b1 b2 b3 eq_refl Hhd)
      as [-> Hpay].
    cbn [unpack_be32 or_raise mbind outcome_bind]. rewrite Hpay.
    change 16777216 with (256 ^ 3). change 65536 with (256 ^ 2).
    rewrite <- Hp. by rewrite take_app_length. }
  split; [by rewrite !Hone|by apply Hone].
Qed.

(** X16: a token [receive_token] assigns comes from a datagram: the
    first one of the events whose frame yields a token; all events
    before it were passed over with [cancel_thread] unset. *)
Theorem received_token_comes_from_a_datagram events token :
  receive_token events = Received token ->
  exists skipped d rest,
    events = skipped ++ (false, Datagram d) :: rest
    /\ Forall skipped_event skipped
    /\ frame_token (take 255 d) = Ret token.
Proof.
  induction events as [|[cancel ev] events IH]; [done|].
  cbn [receive_token]. destruct cancel; [done|].
  assert (skipped_event (false, ev) -> receive_token events = Received token ->
          exists skipped d rest,
            (false, ev) :: events = skipped ++ (false, Datagram d) :: rest
            /\ Forall skipped_event skipped
            /\ frame_token (take 255 d) = Ret token) as Hskip.
  { intros Hev Hrec. destruct (IH Hrec) as (skipped & d & rest & -> & Hsk & Hd).
    exists ((false, ev) :: skipped), d, rest.
    split; [done|]. split; [by constructor|done]. }
  destruct ev as [| | |d]; try done.
  - apply Hskip. split; [done|]. by left.
  - destruct (frame_token (take 255 d)) as [t| |] eqn:Ht.
    + intros [= ->]. exists [], d, events. split; [done|]. split; [constructor|done].
    + apply Hskip. split; [done|]. right. exists d. split; [done|]. congruence.
    + apply Hskip. split; [done|]. right. exists d. split; [done|]. congruence.
Qed.

End Datagrams.

(** X15 on the sample frame: other bytes before the length and bytes
    after the payload give the same token. *)
Lemma frame_bytes_sample :
  frame_token (H := Standin.libs)
    (replicate 12 x00 ++ x00 :: x00 :: x00 :: x22
     :: Standin.ascii_encode Sample.token_text ++ [])
  = frame_token (H := Standin.libs)
      (replicate 12 xff ++ x00 :: x00 :: x00 :: x22
       :: Standin.ascii_encode Sample.token_text ++ [xff; xff]).
Proof.
  apply (frame_token_reads_length_and_payload (H := Standin.libs)
           (replicate 12 x00) (replicate 12 xff) x00 x00 x00 x22
           (Standin.ascii_encode Sample.token_text) [] [xff; xff]).
  - reflexivity.
  - reflexivity.
  - vm_compute. reflexivity.
Defined.

(** X16 on a timeout, a datagram of three bytes and a well-formed
    frame. *)
Lemma received_token_sample :
  exists skipped d rest,
    [(false, RecvTimeout); (false, Datagram Sample.short_frame);
     (false, Datagram Sample.good_frame); (true, RecvTimeout)]
    = skipped ++ (false, Datagram d) :: rest
    /\ frame_token (H := Standin.libs) (take 255 d)
       = Ret (VStr "AZ12345678ABCD").
Proof.
  destruct (received_token_comes_from_a_datagram (H := Standin.libs)
              [(false, RecvTimeout); (false, Datagram Sample.short_frame);
               (false, Datagram Sample.good_frame); (true, RecvTimeout)]
              (VStr "AZ12345678ABCD"))
    as (skipped & d & rest & Hev & _ & Hd).
  - vm_compute. reflexivity.
  - exists skipped, d, rest. split; [exact Hev|exact Hd].
Defined.

(** ** The entry points: a directory of files, the command line *)

Lemma endswith_exclusive file a b :
  str_endswith a b = false -> str_endswith b a = false ->
  str_endswith file a = true -> str_endswith file b = false.
Proof.
  unfold str_endswith. intros Hab Hba Ha.
  apply bool_decide_eq_false in Hab, Hba. apply bool_decide_eq_true in Ha.
  apply bool_decide_eq_false. intros Hb.
  destruct (suffix_weak_total _ _ _ Ha Hb); contradiction.
Qed.

Ltac exclude_suffixes file Hs :=
  match type of Hs with
  | str_endswith _ ?a = true =>
      repeat match goal with
      | |- context [str_endswith file ?y] =>
          rewrite (endswith_exclusive file a y eq_refl eq_refl Hs)
      end
  end.

Lemma last_file_cons suffix file rest :
  last_file suffix (file :: rest)
  = match last_file suffix rest with
    | Some f => Some f
    | None => if str_endswith file suffix then Some file else None
    end.
Proof.
  unfold last_file. rewrite filter_cons.
  destruct (str_endswith file suffix) eqn:He.
  - rewrite decide_True by done. apply last_cons.
  - rewrite decide_False by congruence. by destruct (last _).
Qed.

Lemma last_file_Some suffix dirListing file :
  last_file suffix dirListing = Some file ->
  file ∈ dirListing /\ str_endswith file suffix = true.
Proof.
  unfold last_file. intros Hlast%last_Some_elem_of.
  apply list_elem_of_filter in Hlast as [? ?]. done.
Qed.

Lemma replace_go_skip old new k : forall l,
  replace_go old new k l = replace_go old new 0 (drop k l).
Proof.
  induction k as [|k IH]; intros l; [done|].
  destruct l as [|a l]; [done|]. cbn [replace_go drop]. apply IH.
Qed.

Lemma replace_go_stem (old stem : list ascii) :
  old <> [] ->
  (forall i, (i < length stem)%nat ->
     take (length old) (drop i (stem ++ old)) <> old) ->
  replace_go old [] 0 (stem ++ old) = stem.
Proof.
  intros Hold. induction stem as [|x stem IH]; intros Hfirst.
  - destruct old as [|a old]; [done|]. cbn [app replace_go].
    rewrite decide_True by apply take_ge, le_n. cbn [app].
    replace (length (a :: old) - 1)%nat with (length old) by (simpl; lia).
    rewrite replace_go_skip. by rewrite drop_all.
  - cbn [app replace_go]. rewrite decide_False by apply (Hfirst 0%nat), Nat.lt_0_succ.
    f_equal. apply IH. intros i Hi. apply (Hfirst (S i)). simpl. lia.
Qed.

Lemma list_ascii_app (a b : string) :
  list_ascii_of_string (a +:+ b)
  = list_ascii_of_string a ++ list_ascii_of_string b.
Proof.
  induction a as [|x a IH]; [done|].
  change (String x a +:+ b) with (String x (a +:+ b)).
  cbn [list_ascii_of_string app]. by rewrite IH.
Qed.

Lemma replace_suffix_only (suffix stem : string) :
  suffix <> "" ->
  (forall i, (i < String.length stem)%nat ->
     str_slice i (i + String.length suffix) (stem +:+ suffix) <> suffix) ->
  str_replace_text suffix "" (stem +:+ suffix) = stem.
Proof.
  intros Hne Hfirst. unfold str_replace_text.
  rewrite list_ascii_app. cbn [list_ascii_of_string].
  rewrite replace_go_stem; [apply string_of_list_ascii_of_string| |].
  - intros Hnil. apply Hne.
    by rewrite <- (string_of_list_ascii_of_string suffix), Hnil.
  - intros i Hi Heq.
    rewrite <- (string_of_list_ascii_length (list_ascii_of_string stem)),
      string_of_list_ascii_of_string in Hi.
    apply (Hfirst i Hi). unfold str_slice, slice.
    rewrite list_ascii_app.
    replace (i + String.length suffix - i)%nat with (String.length suffix)
      by lia.
    rewrite <- (string_of_list_ascii_length (list_ascii_of_string suffix)),
      string_of_list_ascii_of_string in Heq.
    rewrite Heq. apply string_of_list_ascii_of_string.
Qed.

Example replace_every_occurrence :
  str_replace_text "_chip.txt" "" "a_chip.txt_chip.txt" = "a"
  /\ str_replace_text "_chip.txt" "" "bk7231n_chip.txt" = "bk7231n".
Proof. split; reflexivity. Qed.

Section ScanFacts.
Variable fs : files.
Variable directory : string.

Lemma scan_file_step st0 file st1 :
  scan_file fs directory st0 file = Ret st1 ->
  has_schema st1
  = (if str_endswith file "_schema_id.txt" then true else has_schema st0)
  /\ found_uuid st1
     = (if str_endswith file "_uuid.txt" then line_of fs directory file else found_uuid st0)
  /\ found_auth_key st1
     = (if str_endswith file "_auth_key.txt" then line_of fs directory file
        else found_auth_key st0)
  /\ found_product_key st1
     = (if str_endswith file "_product_key.txt" then line_of fs directory file
        else found_product_key st0)
  /\ found_firmware_key st1
     = (if str_endswith file "_firmware_key.txt" then line_of fs directory file
        else found_firmware_key st0)
  /\ found_software_version st1
     = (if str_endswith file "_swv.txt" then line_of fs directory file
        else found_software_version st0)
  /\ found_baseline_version st1
     = (if str_endswith file "_bv.txt" then line_of fs directory file
        else found_baseline_version st0)
  /\ found_prefix st1
     = (if str_endswith file "_chip.txt"
        then Some (str_replace_text "_chip.txt" "" file)
        else found_prefix st0).
Proof.
  assert (forall x, read_single_line_file (read_text fs directory file) = Ret x ->
            x = line_of fs directory file) as Hline.
  { unfold read_single_line_file, line_of.
    destruct (read_text fs directory file) as [e|text]; [done|].
    cbn [returned mbind outcome_bind]. case_bool_decide; by intros ? [= <-]. }
  unfold scan_file.
  destruct (str_endswith file "_uuid.txt") eqn:H1.
  { exclude_suffixes file H1.
    destruct (read_single_line_file _) as [x| |]; [|done..].
    rewrite <- (Hline x eq_refl). by intros [= <-]. }
  destruct (str_endswith file "_auth_key.txt") eqn:H2.
  { exclude_suffixes file H2.
    destruct (read_single_line_file _) as [x| |]; [|done..].
    rewrite <- (Hline x eq_refl). by intros [= <-]. }
  destruct (str_endswith file "_product_key.txt") eqn:H3.
  { exclude_suffixes file H3.
    destruct (read_single_line_file _) as [x| |]; [|done..].
    rewrite <- (Hline x eq_refl). by intros [= <-]. }
  destruct (str_endswith file "_firmware_key.txt") eqn:H4.
  { exclude_suffixes file H4.
    destruct (read_single_line_file _) as [x| |]; [|done..].
    rewrite <- (Hline x eq_refl). by intros [= <-]. }
  destruct (str_endswith file "_swv.txt") eqn:H5.
  { exclude_suffixes file H5.
    destruct (read_single_line_file _) as [x| |]; [|done..].
    rewrite <- (Hline x eq_refl). by intros [= <-]. }
  destruct (str_endswith file "_bv.txt") eqn:H6.
  { exclude_suffixes file H6.
    destruct (read_single_line_file _) as [x| |]; [|done..].
    rewrite <- (Hline x eq_refl). by intros [= <-]. }
  destruct (str_endswith file "_chip.txt") eqn:H7.
  { exclude_suffixes file H7. by intros [= <-]. }
  destruct (str_endswith file "_schema_id.txt") eqn:H8; by intros [= <-].
Qed.

Lemma scan_result dirListing : forall st0 st,
  scan fs directory dirListing st0 = Ret st ->
  has_schema st
  = match last_file "_schema_id.txt" dirListing with
    | Some _ => true
    | None => has_schema st0
    end
  /\ found_uuid st
     = single_line fs directory "_uuid.txt" (found_uuid st0) dirListing
  /\ found_auth_key st
     = single_line fs directory "_auth_key.txt" (found_auth_key st0) dirListing
  /\ found_product_key st
     = single_line fs directory "_product_key.txt" (found_product_key st0)
         dirListing
  /\ found_firmware_key st
     = single_line fs directory "_firmware_key.txt" (found_firmware_key st0)
         dirListing
  /\ found_software_version st
     = single_line fs directory "_swv.txt" (found_software_version st0)
         dirListing
  /\ found_baseline_version st
     = single_line fs directory "_bv.txt" (found_baseline_version st0)
         dirListing
  /\ found_prefix st
     = match last_file "_chip.txt" dirListing with
       | Some file => Some (str_replace_text "_chip.txt" "" file)
       | None => found_prefix st0
       end.
Proof.
  induction dirListing as [|file rest IH]; intros st0 st.
  { by intros [= <-]. }
  cbn [scan].
  destruct (scan_file fs directory st0 file) as [st1| |] eqn:Hstep; [|done..].
  cbn [mbind outcome_bind]. intros Hrest.
  apply scan_file_step in Hstep as (S1 & S2 & S3 & S4 & S5 & S6 & S7 & S8).
  apply IH in Hrest as (R1 & R2 & R3 & R4 & R5 & R6 & R7 & R8).
  unfold single_line in *. rewrite !last_file_cons.
  rewrite R1, R2, R3, R4, R5, R6, R7, R8, S1, S2, S3, S4, S5, S6, S7, S8.
  split_and!;
    match goal with
    | |- context [last_file ?x rest] => destruct (last_file x rest)
    end;
    try done;
    match goal with
    | |- context [str_endswith file ?x] => by destruct (str_endswith file x)
    end.
Qed.

Lemma last_file_None suffix dirListing :
  last_file suffix dirListing = None <->
  forall file, file ∈ dirListing -> str_endswith file suffix = false.
Proof.
  induction dirListing as [|file rest IH].
  - split; [|done]. intros _ file Hin. by apply elem_of_nil in Hin.
  - rewrite last_file_cons. split.
    + destruct (last_file suffix rest); [done|].
      destruct (str_endswith file suffix) eqn:He; [done|]. intros _ f Hin.
      apply elem_of_cons in Hin as [->|Hin]; [done|]. by apply IH.
    + intros Hall.
      rewrite (proj2 IH) by (intros f Hin; apply Hall; by right).
      rewrite Hall by (by left). done.
Qed.

(** X17: what the loop of [run_directory] finds.  For each kind of
    file the last one of the listing whose name ends with the suffix
    decides: its text is the value, and the value is [None] when that
    text has a line break in it; with no such file the value is [None],
    and ["40.00"] for the baseline version.  [has_schema] is set exactly
    when a name ends with ["_schema_id.txt"].  The prefix is the name of
    the last ["_chip.txt"] file with every occurrence of ["_chip.txt"]
    removed: the part before the suffix when the suffix occurs nowhere
    else in the name. *)
Theorem last_matching_file_decides dirListing st :
  scan fs directory dirListing nothing_found = Ret st ->
  (has_schema st = true <->
   exists file, file ∈ dirListing /\ str_endswith file "_schema_id.txt" = true)
  /\ found_uuid st = single_line fs directory "_uuid.txt" None dirListing
  /\ found_auth_key st
     = single_line fs directory "_auth_key.txt" None dirListing
  /\ found_product_key st
     = single_line fs directory "_product_key.txt" None dirListing
  /\ found_firmware_key st
     = single_line fs directory "_firmware_key.txt" None dirListing
  /\ found_software_version st
     = single_line fs directory "_swv.txt" None dirListing
  /\ found_baseline_version st
     = single_line fs directory "_bv.txt" (Some "40.00") dirListing
  /\ found_prefix st
     = (str_replace_text "_chip.txt" "") <$> last_file "_chip.txt" dirListing
  /\ (forall stem,
        last_file "_chip.txt" dirListing = Some (stem +:+ "_chip.txt") ->
        (forall i, (i < String.length stem)%nat ->
           str_slice i (i + 9) (stem +:+ "_chip.txt") <> "_chip.txt") ->
        found_prefix st = Some stem).
Proof.
  intros Hscan.
  apply scan_result in Hscan as (R1 & R2 & R3 & R4 & R5 & R6 & R7 & R8).
  split.
  { rewrite R1. cbn [has_schema nothing_found].
    destruct (last_file "_schema_id.txt" dirListing) as [file|] eqn:Hlast.
    - split; [intros _|done]. exists file. by apply last_file_Some.
    - split; [done|]. intros (file & Hin & He).
      rewrite (proj1 (last_file_None _ _) Hlast file Hin) in He. done. }
  do 6 (split; [done|]). split.
  - rewrite R8. by destruct (last_file "_chip.txt" dirListing).
  - intros stem Hlast Hfirst. rewrite R8, Hlast. f_equal.
    by apply (replace_suffix_only "_chip.txt").
Qed.

End ScanFacts.


Section Directory.
Context `{Libs} {W : Type}.
Variable request : TuyaAPIConnection -> string -> gmap string pyval ->
                   dict -> string -> M W (pyval * TuyaAPIConnection).
Variable get_new_token : M W pyval.
Variable fs : files.

(** X18: [run_directory] sends a request only from a complete
    directory: when the trace of calls has grown, no name of the listing
    ends with ["_schema_id.txt"], the uuid, the authKey, the software
    version and the baseline version each have a value of one line, and
    the product key or the firmware key has one that is not empty.  In
    every other case, a listing or a file that cannot be read included,
    nothing is requested. *)
Theorem run_directory_requests_need_credentials epoch directory token
    (s : session W) dirListing :
  listdir fs directory = inr dirListing ->
  calls (run_directory request get_new_token fs epoch directory token s).2
  <> calls s ->
  (forall file, file ∈ dirListing -> str_endswith file "_schema_id.txt" = false)
  /\ is_Some (single_line fs directory "_uuid.txt" None dirListing)
  /\ is_Some (single_line fs directory "_auth_key.txt" None dirListing)
  /\ (exists key, key <> ""
      /\ (single_line fs directory "_product_key.txt" None dirListing = Some key
          \/ single_line fs directory "_firmware_key.txt" None dirListing
             = Some key))
  /\ is_Some (single_line fs directory "_swv.txt" None dirListing)
  /\ is_Some (single_line fs directory "_bv.txt" (Some "40.00") dirListing).
Proof.
  intros Hlist. unfold run_directory. rewrite Hlist. cbn [returned].
  rewrite (bind_lift_ret _ _ _ _ eq_refl).
  destruct (scan fs directory dirListing nothing_found) as [st| |] eqn:Hscan;
    [|done..].
  rewrite (bind_lift_ret _ _ _ _ eq_refl).
  apply scan_result in Hscan as (R1 & R2 & R3 & R4 & R5 & R6 & R7 & R8).
  cbn [has_schema found_uuid found_auth_key found_product_key
       found_firmware_key found_software_version found_baseline_version
       found_prefix nothing_found] in *.
  rewrite R1.
  destruct (last_file "_schema_id.txt" dirListing) eqn:Hschema; [done|].
  rewrite R2. destruct (single_line fs directory "_uuid.txt" None dirListing)
    as [uuid|]; [|done].
  rewrite R3. destruct (single_line fs directory "_auth_key.txt" None dirListing)
    as [ak|]; [|done].
  case_bool_decide as Hkeys; [done|].
  rewrite R6. destruct (single_line fs directory "_swv.txt" None dirListing)
    as [sv|]; [|done].
  rewrite R7.
  destruct (single_line fs directory "_bv.txt" (Some "40.00") dirListing)
    as [bv|]; [|done].
  intros _. split; [by apply last_file_None|]. split; [done|]. split; [done|].
  split; [|done].
  rewrite R4, R5 in Hkeys.
  destruct (single_line fs directory "_product_key.txt" None dirListing)
    as [pk|].
  - destruct (decide (pk = "")) as [->|Hpk]; [|exists pk; auto].
    destruct (single_line fs directory "_firmware_key.txt" None dirListing)
      as [fk|]; [|destruct Hkeys; auto].
    destruct (decide (fk = "")) as [->|Hfk]; [destruct Hkeys; auto|].
    exists fk. auto.
  - destruct (single_line fs directory "_firmware_key.txt" None dirListing)
      as [fk|]; [|destruct Hkeys; auto].
    destruct (decide (fk = "")) as [->|Hfk]; [destruct Hkeys; auto|].
    exists fk. auto.
Qed.

Lemma run_reads_no_prefix epoch (a a' : run_args) (s : session W) :
  arg_uuid a = arg_uuid a' -> auth_key a = auth_key a' ->
  product_key a = product_key a' -> firmware_key a = firmware_key a' ->
  software_version a = software_version a' ->
  baseline_version a = baseline_version a' ->
  cad_version a = cad_version a' -> cd_version a = cd_version a' ->
  protocol_version a = protocol_version a' -> token a = token a' ->
  run request get_new_token epoch a s = run request get_new_token epoch a' s.
Proof.
  destruct a, a'. cbn. intros. subst.
  unfold run, validate, activation.
  cbn [arg_uuid auth_key product_key firmware_key software_version
       baseline_version cad_version cd_version protocol_version token].
  reflexivity.
Qed.

(** X19: without a ["_chip.txt"] file [run_directory] calls [run] with
    the prefix [None], and never ends with a saved schema.  When the
    loop over the listing ends without an exception and the files give
    the arguments of [run], and [run] on these arguments gets a schema
    to save, [run_directory] ends with the [TypeError] of line 291, in
    the state that run has reached: the requests have been sent. *)
Theorem missing_chip_file_loses_schema epoch directory token (s : session W)
    dirListing :
  listdir fs directory = inr dirListing ->
  (forall file, file ∈ dirListing -> str_endswith file "_chip.txt" = false) ->
  (forall schema_id schema,
     (run_directory request get_new_token fs epoch directory token s).1
     <> Ret (Ran (SchemaSaved schema_id schema)))
  /\ (forall st u ak sv bv prefix schema_id schema s',
        scan fs directory dirListing nothing_found = Ret st ->
        (forall file, file ∈ dirListing ->
           str_endswith file "_schema_id.txt" = false) ->
        single_line fs directory "_uuid.txt" None dirListing = Some u ->
        single_line fs directory "_auth_key.txt" None dirListing = Some ak ->
        single_line fs directory "_swv.txt" None dirListing = Some sv ->
        single_line fs directory "_bv.txt" (Some "40.00") dirListing = Some bv ->
        let pk := single_line fs directory "_product_key.txt" None dirListing in
        let fk := single_line fs directory "_firmware_key.txt" None dirListing in
        ~ ((pk = None \/ pk = Some "") /\ (fk = None \/ fk = Some "")) ->
        run request get_new_token epoch
          {| directory := directory; output_file_prefix := prefix;
             arg_uuid := Some u; auth_key := Some ak;
             product_key := pk; firmware_key := fk;
             software_version := Some sv; baseline_version := Some bv;
             cad_version := Some "1.0.2"; cd_version := "1.0.0";
             protocol_version := "2.2"; token := token |} s
        = (Ret (SchemaSaved schema_id schema), s') ->
        run_directory request get_new_token fs epoch directory token s
        = (Raise TypeError, s')).
Proof.
  intros Hlist Hchip. split.
  { intros schema_id schema. unfold run_directory. rewrite Hlist.
    cbn [returned]. rewrite (bind_lift_ret _ _ _ _ eq_refl).
    destruct (scan fs directory dirListing nothing_found) as [st| |] eqn:Hscan;
      [|done..].
    rewrite (bind_lift_ret _ _ _ _ eq_refl).
    apply scan_result in Hscan as (_ & _ & _ & _ & _ & _ & _ & R8).
    rewrite (proj2 (last_file_None _ _) Hchip) in R8.
    cbn [found_prefix nothing_found] in R8. rewrite R8.
    destruct (has_schema st); [done|].
    destruct (found_uuid st); [|done]. destruct (found_auth_key st); [|done].
    case_bool_decide; [done|].
    destruct (found_software_version st); [|done].
    destruct (found_baseline_version st); [|done].
    unfold run_prefixed, mbind, M_bind, lift, mret, M_ret.
    match goal with
    | |- context [run request get_new_token epoch ?a s] =>
        destruct (run request get_new_token epoch a s) as [[[]| |] after]
    end; cbn [fst]; congruence. }
  intros st u ak sv bv prefix schema_id schema s' Hscan Hschema Hu Hak Hsv Hbv
    pk fk Hkeys Hrun.
  unfold run_directory. rewrite Hlist. cbn [returned].
  rewrite (bind_lift_ret _ _ _ _ eq_refl).
  rewrite Hscan. rewrite (bind_lift_ret _ _ _ _ eq_refl).
  apply scan_result in Hscan as (R1 & R2 & R3 & R4 & R5 & R6 & R7 & R8).
  rewrite (proj2 (last_file_None _ _) Hchip) in R8.
  rewrite (proj2 (last_file_None _ _) Hschema) in R1.
  cbn [has_schema found_uuid found_auth_key found_product_key
       found_firmware_key found_software_version found_baseline_version
       found_prefix nothing_found] in *.
  rewrite R1, R2, R3, R4, R5, R6, R7, R8, Hu, Hak, Hsv, Hbv.
  fold pk fk. rewrite bool_decide_eq_false_2 by done.
  unfold run_prefixed.
  unfold mbind at 1, M_bind at 1.
  erewrite bind_ret_eq;
    [|etrans; [|exact Hrun]; by apply run_reads_no_prefix].
  reflexivity.
Qed.

End Directory.

Section CommandLine.
Context `{Libs} {W : Type}.
Variable request : TuyaAPIConnection -> string -> gmap string pyval ->
                   dict -> string -> M W (pyval * TuyaAPIConnection).
Variable get_new_token : M W pyval.
Variable fs : files.

Lemma run_bodies epoch a (s : session W) :
  exists new_calls,
    calls (run request get_new_token epoch a s).2 = calls s ++ new_calls
    /\ (new_calls = []
        \/ exists v tok region s1,
             validate a = Ret v
             /\ token_and_region get_new_token (token a) s
                = (Ret (tok, region), s1)
             /\ Forall (fun ce : call * call_end =>
                  exists key is_fk,
                    ce.1 = attempt_of epoch a v tok region key is_fk)
                  new_calls).
Proof.
  destruct (validate a) as [v| |] eqn:Hval.
  2,3: exists []; unfold run; rewrite Hval, app_nil_r; auto.
  pose proof (token_and_region_calls get_new_token (token a) s) as Hs1.
  destruct (token_and_region get_new_token (token a) s)
    as [[[tok region]| |] s1] eqn:Htok; cbn [snd] in Hs1.
  2,3: exists []; unfold run; rewrite Hval, app_nil_r;
       unfold mbind, M_bind, lift; rewrite Htok; auto.
  rewrite (run_reaches_activation _ _ _ _ _ _ _ _ _ Hval Htok).
  rewrite bind_keeps_calls by done.
  destruct (activation_shape request epoch a v tok region s1)
    as (l & n & m & Hc & _ & _ & _ & _ & Hl & _).
  exists l. rewrite <- Hs1. split; [done|]. right.
  exists v, tok, region, s1. split; [done|]. split; [done|].
  change (Forall ((fun c => exists key is_fk,
                     c = attempt_of epoch a v tok region key is_fk) ∘ fst) l).
  rewrite <- Forall_fmap, Hl. apply Forall_app. split.
  - apply Forall_take. destruct (product_key a) as [pk|]; [|constructor].
    repeat constructor; by eexists _, _.
  - apply Forall_take. destruct (firmware_key a) as [fk|]; [|constructor].
    repeat constructor; by eexists _, _.
Qed.

(** X20: command lines on which the script calls neither [run_input]
    nor [run_directory].  With fewer than three entries it prints the
    help and exits with status 1; in ["--input"] mode it does the same
    with fewer than eight entries, and raises [IndexError] with eight or
    nine, the nine entries of the usage text included; with a first
    argument that names no mode it does nothing at all. *)
Theorem main_without_run epoch argv (s : session W) :
  ((length argv < 3)%nat ->
   main request get_new_token fs epoch argv s = (SysExit 1, s))
  /\ (argv !! 1%nat = Some "--input" -> (length argv < 8)%nat ->
      main request get_new_token fs epoch argv s = (SysExit 1, s))
  /\ (argv !! 1%nat = Some "--input" -> (8 <= length argv < 10)%nat ->
      main request get_new_token fs epoch argv s = (Raise IndexError, s))
  /\ (forall mode, argv !! 1%nat = Some mode -> (3 <= length argv)%nat ->
      mode <> "--input" -> mode <> "--directory" ->
      main request get_new_token fs epoch argv s = (Ret NothingDone, s)).
Proof.
  split_and!.
  - intros Hlen. unfold main. rewrite decide_True; [done|].
    apply drop_ge. lia.
  - intros Hmode Hlen.
    destruct argv as [|a0 [|a1 [|a2 [|a3 [|a4 [|a5 [|a6 [|a7 rest]]]]]]]];
      simplify_eq/=; try done; lia.
  - intros Hmode Hlen.
    destruct argv
      as [|a0 [|a1 [|a2 [|a3 [|a4 [|a5 [|a6 [|a7 [|a8 [|a9 rest]]]]]]]]]];
      simplify_eq/=; try done; lia.
  - intros mode Hmode Hlen Hin Hdir. unfold main.
    rewrite decide_False.
    2:{ intros Hd. apply (f_equal length) in Hd.
        rewrite length_drop in Hd. simpl in Hd. lia. }
    unfold argv_at. rewrite Hmode. cbn [or_raise].
    rewrite (bind_lift_ret _ _ _ _ eq_refl).
    by rewrite !decide_False by done.
Qed.

(** X21: in ["--input"] mode with ten entries or more, the arguments
    reach [run] shifted: every request carries entry 7 as
    ["baselineVer"], entry 8 as ["cadVer"] and entry 9, the token of the
    command line, as ["cdVer"]; the token of the body is never that of
    the command line, it is cut from the text [get_new_token]
    returned. *)
Theorem input_mode_ignores_command_line_token epoch script u ak pk fk sv
    a7 a8 a9 rest (s : session W) :
  let argv :=
    script :: "--input" :: u :: ak :: pk :: fk :: sv :: a7 :: a8 :: a9 :: rest in
  exists new_calls,
    calls (main request get_new_token fs epoch argv s).2 = calls s ++ new_calls
    /\ Forall (fun ce : call * call_end =>
         dict_get "baselineVer" (call_data ce.1) = Some (VStr a7)
         /\ dict_get "cadVer" (call_data ce.1) = Some (VStr a8)
         /\ dict_get "cdVer" (call_data ce.1) = Some (VStr a9)
         /\ exists full w,
              get_new_token (world s) = (Ret (VStr full), w)
              /\ dict_get "token" (call_data ce.1)
                 = Some (VStr (str_slice 0 8 (str_from 2 full)))) new_calls.
Proof.
  intros argv.
  set (a := {| directory := "." +:+ backslash; output_file_prefix := "device";
               arg_uuid := Some u; auth_key := Some ak;
               product_key := Some pk; firmware_key := Some fk;
               software_version := Some sv; baseline_version := Some a7;
               cad_version := Some a8; cd_version := a9;
               protocol_version := "2.2"; token := None |}).
  change (main request get_new_token fs epoch argv s)
    with ((run request get_new_token epoch a
           ≫= fun r => mret (InputDone r)) s).
  rewrite bind_keeps_calls by done.
  destruct (run_bodies epoch a s)
    as (l & Hc & [->|(v & tok & region & s1 & Hval & Htok & Hl)]).
  { exists []. split; [done|constructor]. }
  exists l. split; [done|].
  apply validate_versions in Hval as (_ & _ & Hcad & Hbase).
  cbn [cad_version baseline_version a] in Hcad, Hbase.
  injection Hcad as Hcad. injection Hbase as Hbase.
  assert (exists full w,
            get_new_token (world s) = (Ret (VStr full), w)
            /\ tok = str_slice 0 8 (str_from 2 full)) as (full & w & Hg & ->).
  { cbn [token a] in Htok. unfold token_and_region in Htok.
    unfold mbind at 1, M_bind at 1, in_world in Htok.
    destruct (get_new_token (world s)) as [[[| | |full| |]| |] w]; try done.
    exists full, w. split; [done|].
    unfold mbind, M_bind, lift in Htok.
    destruct (region_of full); [|done..].
    case_decide; [|done]. unfold mret, M_ret in Htok. by injection Htok. }
  eapply Forall_impl; [exact Hl|].
  intros ce (key & is_fk & ->). cbn [call_data attempt_of].
  rewrite <- Hcad, <- Hbase.
  split; [done|]. split; [done|]. split; [done|]. by exists full, w.
Qed.

End CommandLine.

(** X17 on a directory whose last uuid file ends with a line break. *)
Lemma last_file_sample :
  exists st,
    scan Sample.folder "stale" Sample.stale_listing nothing_found = Ret st
    /\ found_uuid st = None
    /\ found_auth_key st = Some Sample.device_auth_key
    /\ found_baseline_version st = Some "40.00".
Proof.
  destruct (scan Sample.folder "stale" Sample.stale_listing nothing_found)
    as [st| |] eqn:Hscan.
  - exists st. split; [reflexivity|].
    destruct (last_matching_file_decides Sample.folder "stale"
                Sample.stale_listing st Hscan)
      as (_ & Hu & Ha & _ & _ & _ & Hb & _).
    split; [etrans; [exact Hu|vm_compute; reflexivity]|].
    split; (etrans; [eassumption|vm_compute; reflexivity]).
  - vm_compute in Hscan. discriminate.
  - vm_compute in Hscan. discriminate.
Defined.

(** X18 on a complete directory and a server that answers. *)
Lemma directory_requests_sample :
  is_Some (single_line Sample.folder "dump" "_uuid.txt" None
             Sample.dump_listing)
  /\ is_Some (single_line Sample.folder "dump" "_bv.txt" (Some "40.00")
                Sample.dump_listing).
Proof.
  destruct (run_directory_requests_need_credentials (H := Standin.libs)
              Sample.scripted Sample.no_token Sample.folder Sample.epoch
              "dump" (Some "AZ12345678ABCD")
              (Sample.start [Sample.activated]) Sample.dump_listing eq_refl)
    as (_ & Hu & _ & _ & _ & Hb).
  - vm_compute. intros Hcalls. discriminate Hcalls.
  - split; [exact Hu|exact Hb].
Defined.

(** X19 on the directory ["dump"], which has no ["_chip.txt"] file,
    and a server that answers with a schema. *)
Lemma missing_chip_sample :
  run_directory (H := Standin.libs) Sample.scripted Sample.no_token
    Sample.folder Sample.epoch "dump" (Some "AZ12345678ABCD")
    (Sample.start [Sample.activated])
  = (Raise TypeError,
     {| world := [];
        calls := [(Sample.attempt false, Answered Sample.activated)] |}).
Proof.
  assert (forall file, file ∈ Sample.dump_listing ->
            str_endswith file "_chip.txt" = false
            /\ str_endswith file "_schema_id.txt" = false) as Hfiles.
  { intros file Hin.
    repeat (apply elem_of_cons in Hin as [->|Hin];
            [split; reflexivity|]).
    by apply elem_of_nil in Hin. }
  destruct (scan Sample.folder "dump" Sample.dump_listing nothing_found)
    as [st| |] eqn:Hscan.
  - apply (proj2 (missing_chip_file_loses_schema (H := Standin.libs)
                    Sample.scripted Sample.no_token Sample.folder Sample.epoch
                    "dump" (Some "AZ12345678ABCD")
                    (Sample.start [Sample.activated]) Sample.dump_listing
                    eq_refl (fun file Hin => proj1 (Hfiles file Hin)))
             st Sample.device_uuid Sample.device_auth_key "1.0.0" "40.00"
             "device" "123" "{}").
    + exact Hscan.
    + intros file Hin. apply (Hfiles file Hin).
    + reflexivity.
    + reflexivity.
    + reflexivity.
    + reflexivity.
    + intros [[Hpk|Hpk] _]; vm_compute in Hpk; discriminate Hpk.
    + vm_compute. reflexivity.
  - vm_compute in Hscan. discriminate Hscan.
  - vm_compute in Hscan. discriminate Hscan.
Defined.

(** The two directories run: in ["dump"] the activation succeeds and
    the run ends in [TypeError] after its request; in ["stale"] the
    uuid is reported as not found and nothing is requested. *)
Example run_directory_sample :
  run_directory (H := Standin.libs) Sample.scripted Sample.no_token
    Sample.folder Sample.epoch "dump" (Some "AZ12345678ABCD")
    (Sample.start [Sample.activated])
  = (Raise TypeError,
     {| world := [];
        calls := [(Sample.attempt false, Answered Sample.activated)] |})
  /\ run_directory (H := Standin.libs) Sample.scripted Sample.no_token
       Sample.folder Sample.epoch "stale" (Some "AZ12345678ABCD")
       (Sample.start [Sample.activated])
     = (Ret (NotFound "uuid"), Sample.start [Sample.activated]).
Proof. split; vm_compute; reflexivity. Qed.

(** The command line of the usage text raises [IndexError]; with ten
    entries and no token broadcast, the run exits with status 2 and
    sends nothing, the token of the command line notwithstanding. *)
Example main_sample :
  main (H := Standin.libs) Sample.scripted Sample.no_token Sample.folder
    Sample.epoch Sample.usage_argv (Sample.start [Sample.activated])
  = (Raise IndexError, Sample.start [Sample.activated])
  /\ main (H := Standin.libs) Sample.scripted Sample.no_token Sample.folder
       Sample.epoch Sample.long_argv (Sample.start [Sample.activated])
     = (SysExit 2, Sample.start [Sample.activated]).
Proof. split; vm_compute; reflexivity. Qed.

(** ** Answers: the one decoded, and the ones that lack a key *)

Section Answer.
Context `{Libs}.

(** X22: the answer of [request].  Once the socket is made and the
    request is sent, the value returned is read off the first 10000
    bytes received: the piece after the first blank line, decoded and
    stripped, is a JSON object whose ["result"] is base64 text; its
    bytes, decrypted and unpadded with the authKey, decoded and parsed
    as JSON, are the answer.  One message has been sent, to the host and
    the port of the URL. *)
Theorem request_returns_decoded_answer self url params data method w
    querystring body self' sock w1 datas piece text envelope b64 raw plain
    answer_text answer :
  let u := urlparse url in
  _build_querystring self params = Ret querystring ->
  _encrypt_data self data = Ret body ->
  _make_socket self (hostname u) (port_of u) (is_https u) w
  = (Ret (self', sock), w1) ->
  send_ok sock = true ->
  recv_data sock = Some datas ->
  bytes_split CRLFCRLF (take 10000 datas) !! 1%nat = Some piece ->
  utf8_decode piece = Some text ->
  json_loads (str_strip text) = Some envelope ->
  py_getitem envelope "result" = Ret (VStr b64) ->
  b64decode b64 = Some raw ->
  _decrypt_data self' raw = Ret plain ->
  utf8_decode plain = Some answer_text ->
  json_loads answer_text = Some answer ->
  request self url params data method w
  = (Ret (answer, self'),
     {| peers := peers w1;
        sent := sent w1
                ++ [(hostname u, port_of u,
                     _build_request method (hostname u)
                       (path u +:+ querystring) body)] |}).
Proof.
  intros u Hq Hb Hsock Hsend Hrecv Hpiece Htext Henv Hres Hb64 Hdec Hplain Hans.
  unfold request. fold u. rewrite Hq, Hb.
  rewrite (bind_lift_ret _ _ _ _ eq_refl).
  rewrite (bind_lift_ret _ _ _ _ eq_refl).
  erewrite bind_ret_eq by exact Hsock. cbv beta iota.
  unfold try_except_exit3, exchange, socket_send, socket_recv.
  unfold mbind, M_bind, lift. rewrite Hsend, Hrecv.
  cbn [fmap option_fmap option_map or_raise].
  assert (decode_response self' (take 10000 datas) = Ret answer) as ->; [|done].
  unfold decode_response. rewrite Hpiece. cbn [or_raise mbind outcome_bind].
  rewrite Htext. cbn [or_raise mbind outcome_bind].
  rewrite Henv. cbn [or_raise mbind outcome_bind].
  rewrite Hres. cbn [or_raise mbind outcome_bind].
  rewrite Hb64. cbn [or_raise mbind outcome_bind].
  rewrite Hdec. cbn [or_raise mbind outcome_bind].
  rewrite Hplain. cbn [or_raise mbind outcome_bind].
  by rewrite Hans.
Qed.

End Answer.

Section Malformed.
Context `{Libs} {W : Type}.
Variable request : TuyaAPIConnection -> string -> gmap string pyval ->
                   dict -> string -> M W (pyval * TuyaAPIConnection).
Variable get_new_token : M W pyval.

Lemma bind_raise_eq {S A B} (m : M S A) (k : A -> M S B) s e s' :
  m s = (Raise e, s') -> (m ≫= k) s = (Raise e, s').
Proof. intros Hm. unfold mbind, M_bind. by rewrite Hm. Qed.

(** X23: an answer that lacks ["success"], or that has [success] false
    and lacks ["errorCode"], ends the run with the exception of the
    lookup, [KeyError] for a missing key and [TypeError] for an answer
    that is no object, right after the request: nothing is retried,
    saved or printed. *)
Theorem answer_without_keys_ends_run epoch a v tok region (s0 s1 : session W)
    pk rA connA wA e :
  validate a = Ret v ->
  token_and_region get_new_token (token a) s0 = (Ret (tok, region), s1) ->
  product_key a = Some pk ->
  let first := attempt_of epoch a v tok region pk false in
  request (TuyaAPIConnection_init (set_uuid v) (set_auth_key v) None)
    (call_url first) (call_params first) (call_data first) "POST" (world s1)
  = (Ret (rA, connA), wA) ->
  (py_getitem rA "success" = Raise e
   \/ exists sA, py_getitem rA "success" = Ret sA
        /\ py_eq_bool sA false = true
        /\ py_getitem rA "errorCode" = Raise e) ->
  run request get_new_token epoch a s0
  = (Raise e,
     {| world := wA; calls := calls s1 ++ [(first, Answered rA)] |}).
Proof.
  intros Hval Htok Hpk first HA Hbad.
  assert (continue_after rA = Raise e) as Hcont.
  { unfold continue_after.
    destruct Hbad as [->|(sA & -> & Hf & Hc)]; [done|].
    cbn [mbind outcome_bind]. by rewrite Hf, Hc. }
  rewrite (run_reaches_activation _ _ _ _ _ _ _ _ _ Hval Htok).
  apply bind_raise_eq. unfold activation. rewrite Hpk. cbv zeta.
  apply bind_raise_eq, bind_raise_eq. unfold attempts.
  cbn [first call_url call_params call_data attempt_of] in HA.
  erewrite bind_ret_eq; [|unfold traced_request; cbv beta; by rewrite HA].
  cbv beta iota. unfold mbind, M_bind, lift. by rewrite Hcont.
Qed.

End Malformed.

(** X22 on the sample connection and a peer that answers with the
    encrypted text [{"a":"b"}]. *)
Lemma decoded_answer_sample :
  (request (H := Standin.libs) Sample.connection "http://a.tuyaus.com/d.json"
     (build_params Sample.epoch Sample.device_uuid) Sample.data "POST"
     {| peers := [Sample.answering]; sent := [] |}).1
  = Ret (VDict [("a", VStr "b")], Sample.connection).
Proof.
  erewrite (request_returns_decoded_answer (H := Standin.libs));
    [reflexivity|vm_compute; reflexivity..].
Defined.

(** X23 on the sample arguments and an answer without an error code. *)
Lemma answer_without_keys_sample :
  run (H := Standin.libs) Sample.scripted Sample.no_token Sample.epoch
    Sample.args (Sample.start [Sample.bare_failure; Sample.activated])
  = (Raise KeyError,
     {| world := [Sample.activated];
        calls := [(Sample.attempt false, Answered Sample.bare_failure)] |}).
Proof.
  apply (answer_without_keys_ends_run (H := Standin.libs) Sample.scripted
           Sample.no_token Sample.epoch Sample.args Sample.checked
           "12345678" "us"
           (Sample.start [Sample.bare_failure; Sample.activated])
           (Sample.start [Sample.bare_failure; Sample.activated])
           "keyabcdefghijklm" Sample.bare_failure
           (TuyaAPIConnection_init (H := Standin.libs) Sample.device_uuid
              Sample.device_auth_key None)
           [Sample.activated] KeyError); try reflexivity.
  right. exists (VBool false). repeat split; reflexivity.
Defined.
